(** * Daemon Codex: provider routing, privacy enforcement and retry

    A shallow embedding of the provider layer of Daemon Codex
    ([app/include/IProvider.hpp], [LocalProvider.cpp], [OpenAIProvider.cpp],
    [OllamaCloudProvider.cpp], [ProviderManager.cpp]) together with the
    properties its specification states about it.

    Conventions.
    - A C++ [int] is a [Z]; where the source computes with it the 32-bit
      two's-complement wrap-around is written out ([wrap32]).
    - A [float] is carried as its IEEE-754 binary32 bit pattern; the only
      thing the code does with one is to print it, and the printer is a
      field of the environment.
    - Every call to a collaborator (HTTP transport, inference client, client
      factory, [sleep_for]) is recorded as an [Event].  A computation reads
      the events that happened before it and returns the events it adds, so
      "no call was made" is "the added events are []".
    - An exception thrown by a collaborator is a [Throw] carrying [what()].
    - Logging goes to a sink that returns nothing and decides nothing; it is
      left out of the event trace.
    - The provider classes exist in two generations in the repository: the
      first one ([get_name]/[check_health], size-reporting [ModelInfo]) is
      [Module Foundation], the current one is at top level. *)

From Stdlib Require Import ZArith String Ascii List Lia DecimalString.
From stdpp Require Import gmap strings.
Import ListNotations.

Open Scope Z_scope.

(** ** Machine integers *)

Definition INT_MAX : Z := 2147483647.
Definition INT_MIN : Z := -2147483648.

Definition wrap32 (z : Z) : Z := (z + 2 ^ 31) mod 2 ^ 32 - 2 ^ 31.

(** [a * b] on [int]. *)
Definition int_mul (a b : Z) : Z := wrap32 (a * b).

(** [a << k] on [int], for a shift count [0 <= k < 32] (C++20: the value
    congruent to [a * 2^k]).  For a count of 32 and more C++ leaves the
    result undefined, and builds differ (x86-64 takes the count modulo 32);
    the formula is kept there only to make the function total, and no
    statement about the value of a sleep reaches such a count. *)
Definition int_shl (a k : Z) : Z := wrap32 (Z.shiftl a k).

(** [i++] on [int]; at the largest [int] the source's behaviour is
    undefined, here it wraps. *)
Definition int_succ (i : Z) : Z := wrap32 (i + 1).

(** [std::to_string(int)] and [ostream << int]. *)
Definition to_string (z : Z) : string := NilEmpty.string_of_int (Z.to_int z).

(** ** String helpers ([std::string] members the source uses) *)

Definition empty (s : string) : bool :=
  match s with EmptyString => true | String _ _ => false end.

Fixpoint back (s : string) : option ascii :=
  match s with
  | EmptyString => None
  | String c EmptyString => Some c
  | String _ s' => back s'
  end.

Fixpoint pop_back (s : string) : string :=
  match s with
  | EmptyString => EmptyString
  | String _ EmptyString => EmptyString
  | String c s' => String c (pop_back s')
  end.

Definition ascii_eqb (a b : ascii) : bool := Ascii.eqb a b.

(** [std::filesystem::path(p).filename().string()] in the generic (POSIX)
    format: what follows the last directory separator. *)
Fixpoint filename_from (p acc : string) : string :=
  match p with
  | EmptyString => acc
  | String c rest =>
      if ascii_eqb c "/"%char then filename_from rest EmptyString
      else filename_from rest (acc +:+ String c EmptyString)
  end.

Definition path_filename (p : string) : string := filename_from p EmptyString.

(** ** IProvider.hpp: the data model *)

(** [enum class ProviderCapability : uint32_t], a bit mask. *)
Definition ProviderCapability := Z.

Module Capability.
Definition None_ : ProviderCapability := 0.
Definition LocalInference : ProviderCapability := Z.shiftl 1 0.
Definition RemoteInference : ProviderCapability := Z.shiftl 1 1.
Definition Vision : ProviderCapability := Z.shiftl 1 2.
Definition Embeddings : ProviderCapability := Z.shiftl 1 3.
Definition Streaming : ProviderCapability := Z.shiftl 1 4.
End Capability.

Definition cap_or (a b : ProviderCapability) : ProviderCapability := Z.lor a b.
Definition cap_and (a b : ProviderCapability) : ProviderCapability := Z.land a b.
Definition has_capability (caps flag : ProviderCapability) : bool :=
  negb (Z.land caps flag =? 0).

Inductive HealthStatus := Healthy | Degraded | Unavailable | NotConfigured.

Inductive PrivacyLevel := LocalOnly | MetadataOnly | ContentExcerpt | FullContent.

Inductive MessageRole := System | User | Assistant.

Definition PrivacyLevel_eqb (a b : PrivacyLevel) : bool :=
  match a, b with
  | LocalOnly, LocalOnly | MetadataOnly, MetadataOnly
  | ContentExcerpt, ContentExcerpt | FullContent, FullContent => true
  | _, _ => false
  end.

Definition MessageRole_eqb (a b : MessageRole) : bool :=
  match a, b with
  | System, System | User, User | Assistant, Assistant => true
  | _, _ => false
  end.

Record ChatMessage := mkChatMessage {
  role : MessageRole;
  content : string
}.

(** binary32 bit patterns *)
Definition float32 := Z.
Definition float_0_7 : float32 := 0x3F333333.
Definition float_1_0 : float32 := 0x3F800000.

Record LlmRequest := mkLlmRequest {
  messages : list ChatMessage;
  model : string;
  temperature : float32;
  top_p : float32;
  max_tokens : Z;
  timeout_ms : Z;
  privacy_level : PrivacyLevel;
  allow_content_upload : bool;
  content_excerpt_budget : Z;
  max_retries : Z;
  retry_backoff_base_ms : Z
}.

(** [LlmRequest request;] *)
Definition default_LlmRequest : LlmRequest :=
  {| messages := [];
     model := EmptyString;
     temperature := float_0_7;
     top_p := float_1_0;
     max_tokens := 256;
     timeout_ms := 30000;
     privacy_level := MetadataOnly;
     allow_content_upload := false;
     content_excerpt_budget := 200;
     max_retries := 3;
     retry_backoff_base_ms := 1000 |}.

(** [request.messages = ...;] *)
Definition set_messages (ms : list ChatMessage) (r : LlmRequest) : LlmRequest :=
  {| messages := ms;
     model := model r;
     temperature := temperature r;
     top_p := top_p r;
     max_tokens := max_tokens r;
     timeout_ms := timeout_ms r;
     privacy_level := privacy_level r;
     allow_content_upload := allow_content_upload r;
     content_excerpt_budget := content_excerpt_budget r;
     max_retries := max_retries r;
     retry_backoff_base_ms := retry_backoff_base_ms r |}.

(** [request.retry_backoff_base_ms = ...;] *)
Definition set_retry_backoff_base_ms (ms : Z) (r : LlmRequest) : LlmRequest :=
  {| messages := messages r;
     model := model r;
     temperature := temperature r;
     top_p := top_p r;
     max_tokens := max_tokens r;
     timeout_ms := timeout_ms r;
     privacy_level := privacy_level r;
     allow_content_upload := allow_content_upload r;
     content_excerpt_budget := content_excerpt_budget r;
     max_retries := max_retries r;
     retry_backoff_base_ms := ms |}.

Record TokenUsage := mkTokenUsage {
  prompt_tokens : Z;
  completion_tokens : Z;
  total_tokens : Z
}.

Record LlmResponse := mkLlmResponse {
  text : string;
  usage : TokenUsage;
  provider_id : string;
  model_used : string;
  latency : Z;
  success : bool;
  error_code : Z;
  error_message : string;
  used_remote_inference : bool;
  actual_privacy_level : PrivacyLevel
}.

(** [LlmResponse response;] *)
Definition default_LlmResponse : LlmResponse :=
  {| text := EmptyString;
     usage := mkTokenUsage 0 0 0;
     provider_id := EmptyString;
     model_used := EmptyString;
     latency := 0;
     success := false;
     error_code := 0;
     error_message := EmptyString;
     used_remote_inference := false;
     actual_privacy_level := LocalOnly |}.

(** Field assignments [response.f = v;]. *)
Definition set_text (v : string) (r : LlmResponse) : LlmResponse :=
  mkLlmResponse v (usage r) (provider_id r) (model_used r) (latency r)
    (success r) (error_code r) (error_message r) (used_remote_inference r)
    (actual_privacy_level r).
Definition set_usage (v : TokenUsage) (r : LlmResponse) : LlmResponse :=
  mkLlmResponse (text r) v (provider_id r) (model_used r) (latency r)
    (success r) (error_code r) (error_message r) (used_remote_inference r)
    (actual_privacy_level r).
Definition set_provider_id (v : string) (r : LlmResponse) : LlmResponse :=
  mkLlmResponse (text r) (usage r) v (model_used r) (latency r)
    (success r) (error_code r) (error_message r) (used_remote_inference r)
    (actual_privacy_level r).
Definition set_model_used (v : string) (r : LlmResponse) : LlmResponse :=
  mkLlmResponse (text r) (usage r) (provider_id r) v (latency r)
    (success r) (error_code r) (error_message r) (used_remote_inference r)
    (actual_privacy_level r).
Definition set_latency (v : Z) (r : LlmResponse) : LlmResponse :=
  mkLlmResponse (text r) (usage r) (provider_id r) (model_used r) v
    (success r) (error_code r) (error_message r) (used_remote_inference r)
    (actual_privacy_level r).
Definition set_success (v : bool) (r : LlmResponse) : LlmResponse :=
  mkLlmResponse (text r) (usage r) (provider_id r) (model_used r) (latency r)
    v (error_code r) (error_message r) (used_remote_inference r)
    (actual_privacy_level r).
Definition set_error_code (v : Z) (r : LlmResponse) : LlmResponse :=
  mkLlmResponse (text r) (usage r) (provider_id r) (model_used r) (latency r)
    (success r) v (error_message r) (used_remote_inference r)
    (actual_privacy_level r).
Definition set_error_message (v : string) (r : LlmResponse) : LlmResponse :=
  mkLlmResponse (text r) (usage r) (provider_id r) (model_used r) (latency r)
    (success r) (error_code r) v (used_remote_inference r)
    (actual_privacy_level r).
Definition set_used_remote_inference (v : bool) (r : LlmResponse) : LlmResponse :=
  mkLlmResponse (text r) (usage r) (provider_id r) (model_used r) (latency r)
    (success r) (error_code r) (error_message r) v
    (actual_privacy_level r).
Definition set_actual_privacy_level (v : PrivacyLevel) (r : LlmResponse) : LlmResponse :=
  mkLlmResponse (text r) (usage r) (provider_id r) (model_used r) (latency r)
    (success r) (error_code r) (error_message r) (used_remote_inference r)
    v.

Record ModelInfo := mkModelInfo {
  mi_id : string;
  mi_name : string;
  mi_description : string;
  is_local : bool;
  supports_vision : bool;
  parameter_count : Z;
  context_length : Z
}.

Definition default_ModelInfo : ModelInfo :=
  mkModelInfo EmptyString EmptyString EmptyString false false 0 0.

(** ** Collaborators and the environment *)

(** [Types.hpp]: [enum class FileType]. *)
Inductive FileType := File | Directory.

(** What a [try] block yields: a value, or the [what()] of the exception. *)
Inductive Result (A : Type) : Type :=
| Ok (a : A)
| Throw (what : string).
Arguments Ok {A} a.
Arguments Throw {A} what.

(** [ILLMClient]: the inference client behind the local and the OpenAI
    provider. *)
Record ILLMClient := mkILLMClient {
  complete_prompt : string -> Z -> Result string;
  categorize_file : string -> string -> FileType -> string -> Result string
}.

(** [OllamaCloudProvider::HttpResponse]. *)
Record HttpResponse := mkHttpResponse {
  status_code : Z;
  body : string;
  error : string
}.

Definition default_HttpResponse : HttpResponse := mkHttpResponse 0 EmptyString EmptyString.

Definition http_success (r : HttpResponse) : bool :=
  (200 <=? status_code r) && (status_code r <? 300).

(** Calls that leave the provider layer. *)
Inductive Event :=
| EvHttp (url method body : string) (headers : list (string * string))
         (timeout_ms : Z)
| EvSleep (ms : Z)
| EvCreateClient (ctor_args : list string)
| EvCompletePrompt (prompt : string) (max_tokens : Z)
| EvCategorizeFile (file_name file_path : string) (file_type : FileType)
                   (consistency_context : string).

Definition Trace := list Event.

(** [OllamaCloudProvider::HttpClient].  A transport may answer differently
    from one call to the next, so it sees the events so far. *)
Definition HttpClient : Type :=
  Trace -> string -> string -> string -> list (string * string) -> Z ->
  HttpResponse.

(** [LocalProvider::ClientFactory] and [OpenAIProvider::ClientFactory]; a
    factory can throw. *)
Definition LocalClientFactory : Type := Trace -> string -> Result ILLMClient.
Definition OpenAIClientFactory : Type :=
  Trace -> string -> string -> Result ILLMClient.

(** [std::filesystem]: what [status(p)] reports for a path that exists. *)
Inductive file_kind := regular | directory | other_kind.

Record FileStatus := mkFileStatus {
  st_kind : file_kind;
  st_perms : Z;
  st_size : Z
}.

(** [std::filesystem::perms::owner_read] *)
Definition owner_read : Z := 256.  (* 0400 *)
Definition perms_none : Z := 0.

(** The environment.  [fs_status p] is what [std::filesystem::status(p)]
    reports: [None] for [file_type::not_found].  A query that fails for
    another reason (a parent directory that may not be searched, a name too
    long) makes the throwing overloads the providers call raise
    [filesystem_error]; no [World] describes that outcome, so every
    statement about a path is about a call whose query answers. *)
Record World := mkWorld {
  fs_status : string -> option FileStatus;
  steady_clock_now : Trace -> Z;
  make_LocalLLMClient : LocalClientFactory;
  make_LLMClient : OpenAIClientFactory;
  default_http_client : HttpClient;
  stream_float : float32 -> string
}.

(** ** Computations with effects *)

Definition M (A : Type) : Type := World -> Trace -> A * Trace.

Definition ret {A} (a : A) : M A := fun _ _ => (a, []).

Definition bind {A B} (m : M A) (k : A -> M B) : M B :=
  fun w h =>
    let (a, e1) := m w h in
    let (b, e2) := k a w (h ++ e1) in
    (b, e1 ++ e2).

Notation "'let*' x ':=' m 'in' k" := (bind m (fun x => k))
  (at level 10, x name, m at level 100, k at level 200).

(** Sequencing inside a [try] block: the first exception ends the block. *)
Definition bindE {A B} (m : M (Result A)) (k : A -> M (Result B))
  : M (Result B) :=
  bind m (fun r => match r with
                   | Ok a => k a
                   | Throw what => ret (Throw what)
                   end).

Notation "'try*' x ':=' m 'in' k" := (bindE m (fun x => k))
  (at level 10, x name, m at level 100, k at level 200).

Definition emit {A} (f : World -> Trace -> A) (e : Event) : M A :=
  fun w h => (f w h, [e]).

Definition now : M Z := fun w h => (steady_clock_now w h, []).

Definition sleep_for (ms : Z) : M unit := emit (fun _ _ => tt) (EvSleep ms).

(** [std::filesystem::exists(p)], where the status query answers. *)
Definition fs_exists (p : string) : M bool :=
  fun w _ => (bool_decide (is_Some (fs_status w p)), []).

(** [std::filesystem::status(p).permissions()]; [perms::unknown] is not
    distinguished from [perms::none] for a path that does not exist. *)
Definition fs_permissions (p : string) : M Z :=
  fun w _ => (match fs_status w p with
              | Some st => st_perms st
              | None => perms_none
              end, []).

(** [std::filesystem::file_size(p, ec)]: [None] when [ec] is set. *)
Definition fs_file_size (p : string) : M (option Z) :=
  fun w _ => (match fs_status w p with
              | Some st => match st_kind st with
                           | regular => Some (st_size st)
                           | _ => None
                           end
              | None => None
              end, []).

Definition call_complete_prompt (c : ILLMClient) (prompt : string)
    (max_tokens : Z) : M (Result string) :=
  emit (fun _ _ => complete_prompt c prompt max_tokens)
       (EvCompletePrompt prompt max_tokens).

Definition call_categorize_file (c : ILLMClient) (name path : string)
    (ft : FileType) (ctx : string) : M (Result string) :=
  emit (fun _ _ => categorize_file c name path ft ctx)
       (EvCategorizeFile name path ft ctx).

Definition call_http (c : HttpClient) (url method body : string)
    (headers : list (string * string)) (timeout : Z) : M HttpResponse :=
  emit (fun _ h => c h url method body headers timeout)
       (EvHttp url method body headers timeout).

(** The events a computation adds, and its value. *)
Definition events {A} (m : M A) (w : World) (h : Trace) : Trace := snd (m w h).
Definition value {A} (m : M A) (w : World) (h : Trace) : A := fst (m w h).

Definition is_http (e : Event) : bool :=
  match e with EvHttp _ _ _ _ _ => true | _ => false end.

Definition is_inference (e : Event) : bool :=
  match e with
  | EvCreateClient _ | EvCompletePrompt _ _ | EvCategorizeFile _ _ _ _ => true
  | _ => false
  end.

Definition sleeps (t : Trace) : list Z :=
  omap (fun e => match e with EvSleep ms => Some ms | _ => None end) t.

Definition http_attempts (t : Trace) : nat :=
  length (List.filter is_http t).

(** ** The provider interface

    [chat] and [categorize] take the number of loop iterations the caller is
    prepared to wait for; [None] is "no answer within that many". *)
Record IProvider := mkIProvider {
  id : string;
  display_name : string;
  capabilities : ProviderCapability;
  health_check : M HealthStatus;
  list_models : M (list ModelInfo);
  requires_network : bool;
  is_configured : M bool;
  chat : nat -> LlmRequest -> M (option LlmResponse);
  categorize : nat -> string -> string -> bool -> string -> LlmRequest ->
               M (option LlmResponse)
}.

(** [ProviderPtr]: a shared pointer, possibly null. *)
Definition ProviderPtr := option IProvider.

Definition nl : string := String (ascii_of_nat 10) EmptyString.

(** ** LocalProvider.cpp *)

Module LocalProvider.

(** [cached_client_] is never assigned a client and is not modelled. *)
Record t := mk {
  model_path_ : string;
  client_factory_ : option LocalClientFactory
}.

Definition id : string := "local".
Definition display_name : string := "Local LLM (on-device)".
Definition requires_network : bool := false.

Definition capabilities (p : t) : ProviderCapability :=
  Capability.LocalInference.

Definition health_check (p : t) : M HealthStatus :=
  if empty (model_path_ p) then ret NotConfigured
  else
    let* present := fs_exists (model_path_ p) in
    if negb present then ret Unavailable
    else ret Healthy.

Definition list_models (p : t) : M (list ModelInfo) :=
  let models := [] in
  let* present := fs_exists (model_path_ p) in
  if negb (empty (model_path_ p)) && present then
    let info :=
      mkModelInfo (model_path_ p) (path_filename (model_path_ p))
                  "Local GGUF model" true false 0 0 in
    ret (models ++ [info])
  else ret models.

Definition is_configured (p : t) : M bool :=
  let* present := fs_exists (model_path_ p) in
  ret (negb (empty (model_path_ p)) && present).

Definition set_model_path (path : string) (p : t) : t :=
  mk path (client_factory_ p).

Definition create_client (p : t) : M (Result ILLMClient) :=
  match client_factory_ p with
  | Some factory =>
      emit (fun _ h => factory h (model_path_ p))
           (EvCreateClient [model_path_ p])
  | None =>
      emit (fun w h => make_LocalLLMClient w h (model_path_ p))
           (EvCreateClient [model_path_ p])
  end.

Fixpoint build_prompt (messages : list ChatMessage) : string :=
  match messages with
  | [] => EmptyString
  | msg :: rest =>
      (match role msg with
       | System => "System: " +:+ content msg +:+ nl +:+ nl
       | User => "User: " +:+ content msg +:+ nl +:+ nl
       | Assistant => "Assistant: " +:+ content msg +:+ nl +:+ nl
       end) +:+ build_prompt rest
  end.

Definition chat (p : t) (request : LlmRequest) : M LlmResponse :=
  let response := default_LlmResponse in
  let response := set_provider_id id response in
  let response := set_model_used (model_path_ p) response in
  let response := set_used_remote_inference false response in
  let response := set_actual_privacy_level LocalOnly response in
  let* start_time := now in
  let* configured := is_configured p in
  if negb configured then
    ret (set_error_message
           "Local provider not configured: model path missing or invalid"
           (set_error_code 1 (set_success false response)))
  else
    let* attempt :=
      (try* client := create_client p in
       let prompt := build_prompt (messages request) in
       try* result := call_complete_prompt client prompt (max_tokens request) in
       let* end_time := now in
       ret (Ok (set_success true
                  (set_text result
                     (set_latency (end_time - start_time) response))))) in
    match attempt with
    | Ok r => ret r
    | Throw what =>
        ret (set_error_message ("Local inference failed: " +:+ what)
               (set_error_code 2 (set_success false response)))
    end.

Definition categorize (p : t) (filename filepath : string)
    (is_directory : bool) (consistency_context : string)
    (base_request : LlmRequest) : M LlmResponse :=
  let response := default_LlmResponse in
  let response := set_provider_id id response in
  let response := set_model_used (model_path_ p) response in
  let response := set_used_remote_inference false response in
  let response := set_actual_privacy_level LocalOnly response in
  let* start_time := now in
  let* configured := is_configured p in
  if negb configured then
    ret (set_error_message
           "Local provider not configured: model path missing or invalid"
           (set_error_code 1 (set_success false response)))
  else
    let* attempt :=
      (try* client := create_client p in
       let file_type := if is_directory then Directory else File in
       try* result := call_categorize_file client filename filepath
                        file_type consistency_context in
       let* end_time := now in
       ret (Ok (set_success true
                  (set_text result
                     (set_latency (end_time - start_time) response))))) in
    match attempt with
    | Ok r => ret r
    | Throw what =>
        ret (set_error_message ("Local categorization failed: " +:+ what)
               (set_error_code 2 (set_success false response)))
    end.

(** The object seen through [IProvider]. *)
Definition as_IProvider (p : t) : IProvider :=
  mkIProvider id display_name (capabilities p) (health_check p)
    (list_models p) requires_network (is_configured p)
    (fun _ request => let* r := chat p request in ret (Some r))
    (fun _ filename filepath is_directory ctx base_request =>
       let* r := categorize p filename filepath is_directory ctx
                   base_request in
       ret (Some r)).

End LocalProvider.

(** ** OpenAIProvider.cpp *)

Module OpenAIProvider.

Record t := mk {
  api_key_ : string;
  model_ : string;
  client_factory_ : option OpenAIClientFactory
}.

(** The constructor: a blank model id becomes the default one. *)
Definition new (api_key model : string)
    (client_factory : option OpenAIClientFactory) : t :=
  mk api_key (if empty model then "gpt-4o-mini"%string else model)
     client_factory.

Definition id : string := "openai".
Definition display_name : string := "OpenAI (ChatGPT)".
Definition requires_network : bool := true.

Definition capabilities (p : t) : ProviderCapability :=
  cap_or Capability.RemoteInference Capability.Streaming.

Definition health_check (p : t) : M HealthStatus :=
  if empty (api_key_ p) then ret NotConfigured else ret Healthy.

Definition list_models (p : t) : M (list ModelInfo) :=
  let add_model (models : list ModelInfo) (id name : string) :=
    models ++ [mkModelInfo id name "OpenAI model" false false 0 0] in
  let models := [] in
  let models := add_model models "gpt-4o-mini" "GPT-4o Mini" in
  let models := add_model models "gpt-4o" "GPT-4o" in
  let models := add_model models "gpt-4-turbo" "GPT-4 Turbo" in
  let models := add_model models "gpt-3.5-turbo" "GPT-3.5 Turbo" in
  ret models.

Definition is_configured (p : t) : bool := negb (empty (api_key_ p)).

Definition set_api_key (key : string) (p : t) : t :=
  mk key (model_ p) (client_factory_ p).

Definition set_model (model : string) (p : t) : t :=
  mk (api_key_ p) (if empty model then "gpt-4o-mini"%string else model)
     (client_factory_ p).

Definition create_client (p : t) : M (Result ILLMClient) :=
  match client_factory_ p with
  | Some factory =>
      emit (fun _ h => factory h (api_key_ p) (model_ p))
           (EvCreateClient [api_key_ p; model_ p])
  | None =>
      emit (fun w h => make_LLMClient w h (api_key_ p) (model_ p))
           (EvCreateClient [api_key_ p; model_ p])
  end.

Definition create_privacy_error (p : t) (reason : string) : LlmResponse :=
  let response := default_LlmResponse in
  let response := set_provider_id id response in
  let response := set_model_used (model_ p) response in
  let response := set_success false response in
  let response := set_error_code 403 response in
  let response :=
    set_error_message ("Privacy control blocked request: " +:+ reason)
      response in
  let response := set_used_remote_inference false response in
  response.

(** The loop over [request.messages] that builds [combined_prompt]. *)
Fixpoint combined_prompt (messages : list ChatMessage) : string :=
  match messages with
  | [] => EmptyString
  | msg :: rest =>
      if MessageRole_eqb (role msg) User
      then content msg +:+ combined_prompt rest
      else combined_prompt rest
  end.

Definition chat (p : t) (request : LlmRequest) : M LlmResponse :=
  let response := default_LlmResponse in
  let response := set_provider_id id response in
  let response := set_model_used (model_ p) response in
  let response := set_used_remote_inference true response in
  let response := set_actual_privacy_level (privacy_level request) response in
  if PrivacyLevel_eqb (privacy_level request) LocalOnly then
    ret (create_privacy_error p
           "Request is marked LocalOnly but sent to remote provider")
  else if negb (allow_content_upload request)
          && PrivacyLevel_eqb (privacy_level request) FullContent then
    ret (create_privacy_error p
           "Full content upload requested but not explicitly allowed")
  else if negb (is_configured p) then
    ret (set_used_remote_inference false
           (set_error_message
              "OpenAI provider not configured: API key missing"
              (set_error_code 1 (set_success false response))))
  else
    let* start_time := now in
    let* attempt :=
      (try* client := create_client p in
       let prompt := combined_prompt (messages request) in
       try* result := call_complete_prompt client prompt (max_tokens request) in
       let* end_time := now in
       ret (Ok (set_success true
                  (set_text result
                     (set_latency (end_time - start_time) response))))) in
    match attempt with
    | Ok r => ret r
    | Throw what =>
        ret (set_error_message ("OpenAI request failed: " +:+ what)
               (set_error_code 2 (set_success false response)))
    end.

Definition categorize (p : t) (filename filepath : string)
    (is_directory : bool) (consistency_context : string)
    (base_request : LlmRequest) : M LlmResponse :=
  let response := default_LlmResponse in
  let response := set_provider_id id response in
  let response := set_model_used (model_ p) response in
  let response := set_used_remote_inference true response in
  let response :=
    set_actual_privacy_level (privacy_level base_request) response in
  if PrivacyLevel_eqb (privacy_level base_request) LocalOnly then
    ret (create_privacy_error p
           "Categorization marked LocalOnly but sent to remote provider")
  else if negb (is_configured p) then
    ret (set_used_remote_inference false
           (set_error_message
              "OpenAI provider not configured: API key missing"
              (set_error_code 1 (set_success false response))))
  else
    let* start_time := now in
    let* attempt :=
      (try* client := create_client p in
       let safe_path :=
         if allow_content_upload base_request
            || PrivacyLevel_eqb (privacy_level base_request) FullContent
         then filepath else EmptyString in
       let file_type := if is_directory then Directory else File in
       try* result := call_categorize_file client filename safe_path
                        file_type consistency_context in
       let* end_time := now in
       ret (Ok (set_success true
                  (set_text result
                     (set_latency (end_time - start_time) response))))) in
    match attempt with
    | Ok r => ret r
    | Throw what =>
        ret (set_error_message ("OpenAI categorization failed: " +:+ what)
               (set_error_code 2 (set_success false response)))
    end.

Definition as_IProvider (p : t) : IProvider :=
  mkIProvider id display_name (capabilities p) (health_check p)
    (list_models p) requires_network (ret (is_configured p))
    (fun _ request => let* r := chat p request in ret (Some r))
    (fun _ filename filepath is_directory ctx base_request =>
       let* r := categorize p filename filepath is_directory ctx
                   base_request in
       ret (Some r)).

End OpenAIProvider.

(** ** OllamaCloudProvider.hpp / OllamaCloudProvider.cpp *)

(** The part of jsoncpp that [parse_chat_response] uses.  Each function
    gives what the call returns.  jsoncpp does not return from every call:
    [isMember] and [operator[]] raise [Json::LogicError] on a value that is
    neither null nor an object, [asString] on an array or an object, [asInt]
    on a string, an array, an object or a number outside [int], and the
    reader raises [Json::RuntimeError] on nesting beyond its stack limit.
    [chat] has no handler, so such a call ends [chat] with an exception and
    no response; [JsonKinds] below tells where the accessors return. *)
Class JsonCpp := mkJsonCpp {
  Json : Type;
  parseFromStream : string -> Json + string;
  isMember : Json -> string -> bool;
  member : Json -> string -> Json;
  asString : Json -> string;
  asInt : Json -> Z
}.

(** [Json::ValueType]. *)
Inductive ValueType :=
| nullValue | intValue | uintValue | realValue | stringValue | booleanValue
| arrayValue | objectValue.

(** What jsoncpp's accessors test before they return: the kind of the
    value ([Value::type()]) and, for a number, whether it lies within
    [int]. *)
Class JsonKinds (J : JsonCpp) := mkJsonKinds {
  value_type : Json -> ValueType;
  in_int_range : Json -> bool
}.

Section Kinds.
Context `{K : JsonKinds}.

(** [Value::isMember] and [Value::operator[]] return. *)
Definition accepts_isMember (v : Json) : bool :=
  match value_type v with
  | nullValue | objectValue => true
  | _ => false
  end.

(** [Value::asString] returns. *)
Definition accepts_asString (v : Json) : bool :=
  match value_type v with
  | arrayValue | objectValue => false
  | _ => true
  end.

(** [Value::asInt] returns. *)
Definition accepts_asInt (v : Json) : bool :=
  match value_type v with
  | nullValue | booleanValue => true
  | intValue | uintValue | realValue => in_int_range v
  | stringValue | arrayValue | objectValue => false
  end.

(** Every accessor call that [parse_chat_response] makes on the document
    [root] returns: the calls are those of the source, in its order and
    under its tests. *)
Definition parse_stays_in_kind (root : Json) : bool :=
  accepts_isMember root
  && (negb (isMember root "message")
      || accepts_isMember (member root "message"))
  && (if isMember root "message"
         && isMember (member root "message") "content"
      then accepts_asString (member (member root "message") "content")
      else if isMember root "response"
      then accepts_asString (member root "response")
      else if isMember root "error"
      then accepts_asString (member root "error")
      else true)
  && (negb (isMember root "prompt_eval_count")
      || accepts_asInt (member root "prompt_eval_count"))
  && (negb (isMember root "eval_count")
      || accepts_asInt (member root "eval_count")).

End Kinds.

Module OllamaCloudConfig.
Record t := mk {
  base_url : string;
  api_key : string;
  model : string;
  timeout_ms : Z;
  max_retries : Z;
  retry_backoff_base_ms : Z
}.

(** [OllamaCloudConfig config;] *)
Definition default : t := mk EmptyString EmptyString EmptyString 30000 3 1000.
End OllamaCloudConfig.

Module OllamaCloudProvider.

Record t := mk {
  config_ : OllamaCloudConfig.t;
  http_client_ : option HttpClient
}.

Definition id : string := "ollama-cloud".
Definition display_name : string := "Ollama Cloud".
Definition requires_network : bool := true.

Definition kChatEndpoint : string := "/api/chat".
Definition kModelsEndpoint : string := "/api/tags".
Definition kHealthEndpoint : string := "/api/version".

Definition dq : string := String (ascii_of_nat 34) EmptyString.
Definition backslash : string := String (ascii_of_nat 92) EmptyString.

Definition escape_char (c : ascii) : string :=
  match nat_of_ascii c with
  | 34%nat => backslash +:+ dq
  | 92%nat => backslash +:+ backslash
  | 10%nat => backslash +:+ "n"
  | 13%nat => backslash +:+ "r"
  | 9%nat => backslash +:+ "t"
  | _ => String c EmptyString
  end.

Fixpoint escape_json_string (input : string) : string :=
  match input with
  | EmptyString => EmptyString
  | String c rest => escape_char c +:+ escape_json_string rest
  end.

Definition capabilities (p : t) : ProviderCapability :=
  Capability.RemoteInference.

Definition is_configured (p : t) : bool :=
  negb (empty (OllamaCloudConfig.base_url (config_ p)))
  && negb (empty (OllamaCloudConfig.model (config_ p))).

Definition set_config (config : OllamaCloudConfig.t) (p : t) : t :=
  mk config (http_client_ p).

Definition make_request (p : t) (endpoint method body : string)
    (timeout : Z) : M HttpResponse :=
  let url := OllamaCloudConfig.base_url (config_ p) in
  let url :=
    if negb (empty url)
       && bool_decide (back url = Some "/"%char)
    then pop_back url else url in
  let url := url +:+ endpoint in
  let headers := [("Content-Type"%string, "application/json"%string)] in
  let headers :=
    if negb (empty (OllamaCloudConfig.api_key (config_ p)))
    then headers ++ [("Authorization"%string,
                      "Bearer " +:+ OllamaCloudConfig.api_key (config_ p))]
    else headers in
  match http_client_ p with
  | Some client => call_http client url method body headers timeout
  | None =>
      fun w h =>
        call_http (default_http_client w) url method body headers timeout w h
  end.

Definition health_check (p : t) : M HealthStatus :=
  if empty (OllamaCloudConfig.base_url (config_ p)) then ret NotConfigured
  else
    let* response := make_request p kHealthEndpoint "GET" EmptyString 5000 in
    if negb (http_success response) then ret Unavailable
    else ret Healthy.

Definition list_models (p : t) : M (list ModelInfo) :=
  let models := [] in
  if negb (is_configured p) then ret models
  else if negb (empty (OllamaCloudConfig.model (config_ p))) then
    ret (models ++ [mkModelInfo (OllamaCloudConfig.model (config_ p))
                                (OllamaCloudConfig.model (config_ p))
                                "Configured Ollama model" false false 0 0])
  else ret models.

Definition role_name (r : MessageRole) : string :=
  match r with
  | System => "system"
  | User => "user"
  | Assistant => "assistant"
  end.

(** The message loop of [build_chat_payload]; [first] is the flag of the
    source. *)
Fixpoint payload_messages (first : bool) (msgs : list ChatMessage)
  : string :=
  match msgs with
  | [] => EmptyString
  | msg :: rest =>
      (if negb first then "," else EmptyString)
      +:+ "{" +:+ dq +:+ "role" +:+ dq +:+ ": " +:+ dq
      +:+ role_name (role msg) +:+ dq +:+ ", "
      +:+ dq +:+ "content" +:+ dq +:+ ": " +:+ dq
      +:+ escape_json_string (content msg) +:+ dq +:+ "}"
      +:+ payload_messages false rest
  end.

Definition build_chat_payload (p : t) (request : LlmRequest) : M string :=
  fun w _ =>
    ("{"
     +:+ dq +:+ "model" +:+ dq +:+ ": " +:+ dq
     +:+ escape_json_string (OllamaCloudConfig.model (config_ p))
     +:+ dq +:+ ","
     +:+ dq +:+ "stream" +:+ dq +:+ ": false,"
     +:+ dq +:+ "messages" +:+ dq +:+ ": ["
     +:+ payload_messages true (messages request)
     +:+ "]"
     +:+ (if 0 <? max_tokens request then
            "," +:+ dq +:+ "options" +:+ dq +:+ ": {"
            +:+ dq +:+ "num_predict" +:+ dq +:+ ": "
            +:+ to_string (max_tokens request)
            +:+ "," +:+ dq +:+ "temperature" +:+ dq +:+ ": "
            +:+ stream_float w (temperature request)
            +:+ "}"
          else EmptyString)
     +:+ "}", []).

Section Parse.
Context `{JsonCpp}.

Definition parse_chat_response (p : t) (http_response : HttpResponse)
    (latency : Z) : LlmResponse :=
  let response := default_LlmResponse in
  let response := set_provider_id id response in
  let response :=
    set_model_used (OllamaCloudConfig.model (config_ p)) response in
  let response := set_latency latency response in
  let response := set_used_remote_inference true response in
  if negb (http_success http_response) then
    let response := set_success false response in
    let response := set_error_code (status_code http_response) response in
    let response :=
      set_error_message ("HTTP request failed: " +:+ error http_response)
        response in
    if 0 <? status_code http_response then
      set_error_message
        (error_message response +:+ " (status: "
         +:+ to_string (status_code http_response) +:+ ")")
        response
    else response
  else
    match parseFromStream (body http_response) with
    | inr errors =>
        set_error_message ("Failed to parse JSON response: " +:+ errors)
          (set_error_code 3 (set_success false response))
    | inl root =>
        let response :=
          if isMember root "message"
             && isMember (member root "message") "content" then
            set_success true
              (set_text
                 (asString (member (member root "message") "content"))
                 response)
          else if isMember root "response" then
            set_success true
              (set_text (asString (member root "response")) response)
          else if isMember root "error" then
            set_error_message (asString (member root "error"))
              (set_success false response)
          else
            set_error_message "Unexpected response format"
              (set_success false response) in
        let prompt_ :=
          if isMember root "prompt_eval_count"
          then asInt (member root "prompt_eval_count")
          else prompt_tokens (usage response) in
        let completion_ :=
          if isMember root "eval_count"
          then asInt (member root "eval_count")
          else completion_tokens (usage response) in
        set_usage
          (mkTokenUsage prompt_ completion_ (wrap32 (prompt_ + completion_)))
          response
    end.
End Parse.

Definition create_privacy_error (p : t) (reason : string) : LlmResponse :=
  let response := default_LlmResponse in
  let response := set_provider_id id response in
  let response :=
    set_model_used (OllamaCloudConfig.model (config_ p)) response in
  let response := set_success false response in
  let response := set_error_code 403 response in
  let response :=
    set_error_message ("Privacy control blocked request: " +:+ reason)
      response in
  let response := set_used_remote_inference false response in
  response.

Definition create_config_error (p : t) (reason : string) : LlmResponse :=
  let response := default_LlmResponse in
  let response := set_provider_id id response in
  let response :=
    set_model_used (OllamaCloudConfig.model (config_ p)) response in
  let response := set_success false response in
  let response := set_error_code 1 response in
  let response :=
    set_error_message ("Configuration error: " +:+ reason) response in
  let response := set_used_remote_inference false response in
  response.

(** [config_.retry_backoff_base_ms * (1 << (retry_count - 1))], in [int]
    arithmetic. *)
Definition backoff_ms (p : t) (retry_count : Z) : Z :=
  int_mul (OllamaCloudConfig.retry_backoff_base_ms (config_ p))
          (int_shl 1 (retry_count - 1)).

(** Whether the loop leaves through [break]. *)
Definition stops_retrying (http_response : HttpResponse) : bool :=
  http_success http_response
  || ((400 <=? status_code http_response)
      && (status_code http_response <? 500)).

(** The [while (retry_count <= request.max_retries)] loop; one unit of
    [fuel] per evaluation of the loop condition. *)
Fixpoint retry_loop (fuel : nat) (p : t) (request : LlmRequest)
    (payload : string) (retry_count : Z) (http_response : HttpResponse)
  : M (option HttpResponse) :=
  match fuel with
  | O => ret None
  | S fuel' =>
      if retry_count <=? max_retries request then
        let* _ :=
          (if 0 <? retry_count
           then sleep_for (backoff_ms p retry_count)
           else ret tt) in
        let* http_response :=
          make_request p kChatEndpoint "POST" payload (timeout_ms request) in
        if stops_retrying http_response then ret (Some http_response)
        else retry_loop fuel' p request payload (int_succ retry_count)
                        http_response
      else ret (Some http_response)
  end.

Section Chat.
Context `{JsonCpp}.

Definition chat (fuel : nat) (p : t) (request : LlmRequest)
  : M (option LlmResponse) :=
  if PrivacyLevel_eqb (privacy_level request) LocalOnly then
    ret (Some (create_privacy_error p
                 "Request is marked LocalOnly but sent to remote provider"))
  else if negb (allow_content_upload request)
          && PrivacyLevel_eqb (privacy_level request) FullContent then
    ret (Some (create_privacy_error p
                 "Full content upload requested but not explicitly allowed"))
  else if negb (is_configured p) then
    ret (Some (create_config_error p
                 "Ollama Cloud provider not configured: base_url or model missing"))
  else
    let* start_time := now in
    let* payload := build_chat_payload p request in
    let* looped :=
      retry_loop fuel p request payload 0 default_HttpResponse in
    match looped with
    | None => ret None
    | Some http_response =>
        let* end_time := now in
        let latency := end_time - start_time in
        let response := parse_chat_response p http_response latency in
        let response :=
          set_actual_privacy_level (privacy_level request) response in
        ret (Some response)
    end.

Definition system_prompt : string :=
  "You are a file categorization assistant. If it's an installer, describe the type of "
  +:+ "software it installs. Consider the filename, extension, and any directory context provided. "
  +:+ "Always reply with one line in the format <Main category> : <Subcategory>. Main category "
  +:+ "must be broad (one or two words, plural). Subcategory must be specific, relevant, and must "
  +:+ "not repeat the main category.".

Definition categorize (fuel : nat) (p : t) (filename filepath : string)
    (is_directory : bool) (consistency_context : string)
    (base_request : LlmRequest) : M (option LlmResponse) :=
  if PrivacyLevel_eqb (privacy_level base_request) LocalOnly then
    ret (Some (create_privacy_error p
                 "Categorization marked LocalOnly but sent to remote provider"))
  else if negb (is_configured p) then
    ret (Some (create_config_error p
                 "Ollama Cloud provider not configured: base_url or model missing"))
  else
    let item_type : string :=
      if is_directory then "directory" else "file" in
    let prompt :=
      if allow_content_upload base_request
         || PrivacyLevel_eqb (privacy_level base_request) FullContent
      then "Categorize the " +:+ item_type +:+ " with full path: "
           +:+ filepath +:+ nl +:+ "Name: " +:+ filename
      else "Categorize " +:+ item_type +:+ ": " +:+ filename in
    let prompt :=
      if negb (empty consistency_context)
      then prompt +:+ nl +:+ nl +:+ consistency_context
      else prompt in
    let request :=
      set_messages [mkChatMessage System system_prompt;
                    mkChatMessage User prompt] base_request in
    chat fuel p request.

Definition as_IProvider (p : t) : IProvider :=
  mkIProvider id display_name (capabilities p) (health_check p)
    (list_models p) requires_network (ret (is_configured p))
    (fun fuel request => chat fuel p request)
    (fun fuel filename filepath is_directory ctx base_request =>
       categorize fuel p filename filepath is_directory ctx base_request).
End Chat.

End OllamaCloudProvider.

(** ** ProviderManager.hpp / ProviderManager.cpp *)

Inductive PrivacyMode := PM_LocalOnly | PM_RemoteAllowed.

Definition PrivacyMode_eqb (a b : PrivacyMode) : bool :=
  match a, b with
  | PM_LocalOnly, PM_LocalOnly | PM_RemoteAllowed, PM_RemoteAllowed => true
  | _, _ => false
  end.

(** The virtual calls [provider->chat(...)] and
    [provider->categorize(...)]. *)
Definition virtual_chat (provider : IProvider) := chat provider.
Definition virtual_categorize (provider : IProvider) := categorize provider.

Module ProviderManager.

Record t := mk {
  providers_ : gmap string IProvider;
  active_provider_id_ : string;
  privacy_mode_ : PrivacyMode
}.

(** [ProviderManager::ProviderManager()] *)
Definition new : t := mk ∅ EmptyString PM_LocalOnly.

Definition register_provider (provider : ProviderPtr) (m : t) : t :=
  match provider with
  | None => m
  | Some p =>
      let provider_id := id p in
      mk (<[provider_id := p]> (providers_ m)) (active_provider_id_ m)
         (privacy_mode_ m)
  end.

Definition unregister_provider (provider_id : string) (m : t) : t :=
  match providers_ m !! provider_id with
  | Some _ =>
      let providers := delete provider_id (providers_ m) in
      if bool_decide (active_provider_id_ m = provider_id)
      then mk providers EmptyString (privacy_mode_ m)
      else mk providers (active_provider_id_ m) (privacy_mode_ m)
  | None => m
  end.

Definition get_provider (m : t) (provider_id : string) : ProviderPtr :=
  providers_ m !! provider_id.

(** The providers in the order of [map_to_list]; the [unordered_map] of
    the source walks them in an order of its own, so only what does not
    depend on the order (membership, length, two walks of one map agreeing)
    carries over. *)
Definition all_providers (m : t) : list IProvider :=
  (map_to_list (providers_ m)).*2.

Definition is_provider_allowed (m : t) (provider : IProvider) : bool :=
  if negb (requires_network provider) then true
  else PrivacyMode_eqb (privacy_mode_ m) PM_RemoteAllowed.

Definition allowed_providers (m : t) : list IProvider :=
  List.filter (is_provider_allowed m) (all_providers m).

Definition set_active_provider (provider_id : string) (m : t) : bool * t :=
  match get_provider m provider_id with
  | None => (false, m)
  | Some provider =>
      if negb (is_provider_allowed m provider) then (false, m)
      else (true, mk (providers_ m) provider_id (privacy_mode_ m))
  end.

Definition active_provider (m : t) : ProviderPtr :=
  get_provider m (active_provider_id_ m).

Definition privacy_mode (m : t) : PrivacyMode := privacy_mode_ m.

Definition remote_allowed (m : t) : bool :=
  PrivacyMode_eqb (privacy_mode_ m) PM_RemoteAllowed.

Definition set_privacy_mode (mode : PrivacyMode) (user_confirmed : bool)
    (m : t) : bool * t :=
  if PrivacyMode_eqb mode PM_RemoteAllowed && negb user_confirmed
  then (false, m)
  else
    let m1 := mk (providers_ m) (active_provider_id_ m) mode in
    if PrivacyMode_eqb mode PM_LocalOnly
       && negb (empty (active_provider_id_ m1))
    then
      match get_provider m1 (active_provider_id_ m1) with
      | Some provider =>
          if requires_network provider
          then (true, mk (providers_ m1) EmptyString mode)
          else (true, m1)
      | None => (true, m1)
      end
    else (true, m1).

Definition create_no_provider_error : LlmResponse :=
  let response := default_LlmResponse in
  let response := set_success false response in
  let response := set_error_code 1 response in
  set_error_message "No active provider configured" response.

Definition create_privacy_blocked_error (provider_id : string)
  : LlmResponse :=
  let response := default_LlmResponse in
  let response := set_provider_id provider_id response in
  let response := set_success false response in
  let response := set_error_code 403 response in
  set_error_message
    ("Request blocked: provider '" +:+ provider_id
     +:+ "' requires network but privacy mode is LocalOnly. "
     +:+ "Enable remote providers in settings if you want to use this provider.")
    response.

Definition validate_request (m : t) (request : LlmRequest)
  : option string :=
  match active_provider m with
  | None => Some "No active provider configured"%string
  | Some provider =>
      if requires_network provider then
        if PrivacyMode_eqb (privacy_mode_ m) PM_LocalOnly then
          Some "Active provider requires network but privacy mode is LocalOnly"%string
        else if PrivacyLevel_eqb (privacy_level request) LocalOnly then
          Some "Request is marked LocalOnly but active provider requires network"%string
        else None
      else None
  end.

Definition chat (fuel : nat) (m : t) (request : LlmRequest)
  : M (option LlmResponse) :=
  match active_provider m with
  | None => ret (Some create_no_provider_error)
  | Some provider =>
      if negb (is_provider_allowed m provider) then
        ret (Some (create_privacy_blocked_error (id provider)))
      else if requires_network provider
              && PrivacyLevel_eqb (privacy_level request) LocalOnly then
        let response := default_LlmResponse in
        let response := set_provider_id (id provider) response in
        let response := set_success false response in
        let response := set_error_code 403 response in
        ret (Some (set_error_message
                     "Request marked as LocalOnly cannot be sent to remote provider"
                     response))
      else virtual_chat provider fuel request
  end.

Definition categorize (fuel : nat) (m : t) (filename filepath : string)
    (is_directory : bool) (consistency_context : string)
    (base_request : LlmRequest) : M (option LlmResponse) :=
  match active_provider m with
  | None => ret (Some create_no_provider_error)
  | Some provider =>
      if negb (is_provider_allowed m provider) then
        ret (Some (create_privacy_blocked_error (id provider)))
      else if requires_network provider
              && PrivacyLevel_eqb (privacy_level base_request) LocalOnly then
        let response := default_LlmResponse in
        let response := set_provider_id (id provider) response in
        let response := set_success false response in
        let response := set_error_code 403 response in
        ret (Some (set_error_message
                     "Categorization request marked as LocalOnly cannot be sent to remote provider"
                     response))
      else virtual_categorize provider fuel filename filepath is_directory
             consistency_context base_request
  end.

End ProviderManager.

(** ** The first generation of the provider classes
    ([get_name], [check_health], [ModelInfo] with a size) *)

Module Foundation.

Inductive ProviderHealth := Healthy | Degraded | Unavailable | Unknown.

Record ModelInfo := mkModelInfo {
  mi_id : string;
  mi_name : string;
  mi_description : string;
  size_bytes : Z;
  is_available : bool
}.

(** [ModelInfo info;] *)
Definition default_ModelInfo : ModelInfo :=
  mkModelInfo EmptyString EmptyString EmptyString 0 true.

Module LocalProvider.

Record t := mk { model_path : string }.

Definition get_name (p : t) : string := "Local".

Definition check_health (p : t) : M ProviderHealth :=
  let* present := fs_exists (model_path p) in
  if negb present then ret Unavailable
  else
    let* permissions := fs_permissions (model_path p) in
    if Z.land permissions owner_read =? perms_none then ret Unavailable
    else ret Healthy.

Definition list_models (p : t) : M (list ModelInfo) :=
  let models := [] in
  let* present := fs_exists (model_path p) in
  if present then
    let* size := fs_file_size (model_path p) in
    let info :=
      mkModelInfo (model_path p) (path_filename (model_path p))
        "Local GGUF model"
        (match size with Some n => n | None => 0 end)
        true in
    ret (models ++ [info])
  else ret models.

Definition create_client (p : t) : M (Result ILLMClient) :=
  let* present := fs_exists (model_path p) in
  if negb present then
    ret (Throw ("Local model file not found: " +:+ model_path p))
  else
    emit (fun w h => make_LocalLLMClient w h (model_path p))
         (EvCreateClient [model_path p]).

Definition requires_api_key (p : t) : bool := false.
Definition supports_model_listing (p : t) : bool := true.

End LocalProvider.

(** *** OpenAIProvider.cpp and OllamaCloudProvider.cpp, first generation *)

Module OpenAIProvider.

Record t := mk { api_key : string; model : string }.

Definition get_name (p : t) : string := "OpenAI".

Definition check_health (p : t) : M ProviderHealth :=
  if empty (api_key p) then ret Unavailable else ret Unknown.

Definition list_models (p : t) : M (list ModelInfo) := ret [].

(** [CategorizationSession] and [LLMClient] are the production client of
    the environment. *)
Definition create_client (p : t) : M (Result ILLMClient) :=
  if empty (api_key p) then ret (Throw "OpenAI API key is missing")
  else
    emit (fun w h => make_LLMClient w h (api_key p) (model p))
         (EvCreateClient [api_key p; model p]).

Definition requires_api_key (p : t) : bool := true.
Definition supports_model_listing (p : t) : bool := false.

End OpenAIProvider.

Module OllamaCloudProvider.

Record t := mk { api_key : string; base_url : string; model : string }.

Definition get_name (p : t) : string := "Ollama Cloud".

Definition check_health (p : t) : M ProviderHealth :=
  if empty (api_key p) || empty (base_url p) then ret Unavailable
  else ret Unknown.

Definition list_models (p : t) : M (list ModelInfo) := ret [].

Definition create_client (p : t) : M (Result ILLMClient) :=
  ret (Throw "Ollama Cloud provider is not yet fully implemented").

Definition requires_api_key (p : t) : bool := true.
Definition supports_model_listing (p : t) : bool := true.

End OllamaCloudProvider.

(** The first-generation [IProvider], closed over its three
    implementations, with its virtual calls. *)
Inductive IProvider :=
| of_OpenAI (p : OpenAIProvider.t)
| of_Local (p : LocalProvider.t)
| of_OllamaCloud (p : OllamaCloudProvider.t).

Definition get_name (p : IProvider) : string :=
  match p with
  | of_OpenAI q => OpenAIProvider.get_name q
  | of_Local q => LocalProvider.get_name q
  | of_OllamaCloud q => OllamaCloudProvider.get_name q
  end.

Definition check_health (p : IProvider) : M ProviderHealth :=
  match p with
  | of_OpenAI q => OpenAIProvider.check_health q
  | of_Local q => LocalProvider.check_health q
  | of_OllamaCloud q => OllamaCloudProvider.check_health q
  end.

Definition list_models (p : IProvider) : M (list ModelInfo) :=
  match p with
  | of_OpenAI q => OpenAIProvider.list_models q
  | of_Local q => LocalProvider.list_models q
  | of_OllamaCloud q => OllamaCloudProvider.list_models q
  end.

Definition create_client (p : IProvider) : M (Result ILLMClient) :=
  match p with
  | of_OpenAI q => OpenAIProvider.create_client q
  | of_Local q => LocalProvider.create_client q
  | of_OllamaCloud q => OllamaCloudProvider.create_client q
  end.

Definition requires_api_key (p : IProvider) : bool :=
  match p with
  | of_OpenAI q => OpenAIProvider.requires_api_key q
  | of_Local q => LocalProvider.requires_api_key q
  | of_OllamaCloud q => OllamaCloudProvider.requires_api_key q
  end.

Definition supports_model_listing (p : IProvider) : bool :=
  match p with
  | of_OpenAI q => OpenAIProvider.supports_model_listing q
  | of_Local q => LocalProvider.supports_model_listing q
  | of_OllamaCloud q => OllamaCloudProvider.supports_model_listing q
  end.

(** *** ProviderFactory.cpp *)

(** [Types.hpp]: [enum class LLMChoice]. *)
Module LLMChoice.
Inductive t := Unset | Remote | Local_3b | Local_7b | Custom | OllamaCloud.
End LLMChoice.

(** [CustomLLM]: the two fields the factory reads. *)
Module CustomLLM.
Record t := mk { id : string; path : string }.
End CustomLLM.

(** [Settings]: the accessors the factory calls. *)
Module Settings.
Record t := mk {
  get_llm_choice : LLMChoice.t;
  get_remote_api_key : string;
  get_remote_model : string;
  get_active_custom_llm_id : string;
  find_custom_llm : string -> CustomLLM.t
}.
End Settings.

Module ProviderFactory.

Definition create_openai_provider (api_key model : string)
  : option IProvider :=
  Some (of_OpenAI (OpenAIProvider.mk api_key model)).

Definition create_local_provider (model_path : string) : option IProvider :=
  Some (of_Local (LocalProvider.mk model_path)).

Definition create_ollama_cloud_provider (api_key base_url model : string)
  : option IProvider :=
  Some (of_OllamaCloud (OllamaCloudProvider.mk api_key base_url model)).

(** [getenv] is [std::getenv]; [make_default_path] is
    [Utils::make_default_path_to_file_from_download_url].  [None] is
    [nullptr]. *)
Definition create_provider_from_settings
    (getenv : string -> option string)
    (make_default_path : string -> string)
    (settings : Settings.t) : option IProvider :=
  let choice := Settings.get_llm_choice settings in
  match choice with
  | LLMChoice.Remote =>
      let api_key := Settings.get_remote_api_key settings in
      let model := Settings.get_remote_model settings in
      create_openai_provider api_key model
  | LLMChoice.Custom =>
      let id := Settings.get_active_custom_llm_id settings in
      let custom := Settings.find_custom_llm settings id in
      if empty (CustomLLM.id custom) || empty (CustomLLM.path custom)
      then None
      else create_local_provider (CustomLLM.path custom)
  | LLMChoice.Local_3b | LLMChoice.Local_7b =>
      let env_var : string :=
        match choice with
        | LLMChoice.Local_3b => "LOCAL_LLM_3B_DOWNLOAD_URL"
        | _ => "LOCAL_LLM_7B_DOWNLOAD_URL"
        end in
      match getenv env_var with
      | None => None
      | Some env_url => create_local_provider (make_default_path env_url)
      end
  | LLMChoice.OllamaCloud => None
  | LLMChoice.Unset => None
  end.

End ProviderFactory.

End Foundation.

(** ** Histories of the manager *)

(** The calls that change a manager. *)
Inductive ManagerCall :=
| Call_register_provider (provider : ProviderPtr)
| Call_unregister_provider (provider_id : string)
| Call_set_active_provider (provider_id : string)
| Call_set_privacy_mode (mode : PrivacyMode) (user_confirmed : bool).

Definition step (m : ProviderManager.t) (c : ManagerCall) : ProviderManager.t :=
  match c with
  | Call_register_provider provider =>
      ProviderManager.register_provider provider m
  | Call_unregister_provider provider_id =>
      ProviderManager.unregister_provider provider_id m
  | Call_set_active_provider provider_id =>
      snd (ProviderManager.set_active_provider provider_id m)
  | Call_set_privacy_mode mode user_confirmed =>
      snd (ProviderManager.set_privacy_mode mode user_confirmed m)
  end.

(** The manager after a sequence of calls on a fresh one. *)
Definition run (calls : list ManagerCall) : ProviderManager.t :=
  fold_left step calls ProviderManager.new.

(** The contract of [IProvider] the manager relies on: [id()] is never
    empty, and what [requires_network()] answers is fixed by the kind of
    provider, which [id()] names ([network_of] is that assignment). *)
Definition honours_contract (network_of : string -> bool) (p : IProvider)
  : Prop :=
  id p <> EmptyString /\ requires_network p = network_of (id p).

Definition call_honours_contract (network_of : string -> bool)
    (c : ManagerCall) : Prop :=
  match c with
  | Call_register_provider (Some p) => honours_contract network_of p
  | _ => True
  end.

(** The three provider classes of the repository, seen through
    [IProvider]. *)
Inductive builtin : IProvider -> Prop :=
| builtin_local p : builtin (LocalProvider.as_IProvider p)
| builtin_openai p : builtin (OpenAIProvider.as_IProvider p)
| builtin_ollama (J : JsonCpp) p :
    builtin (@OllamaCloudProvider.as_IProvider J p).

(** Which of their identities name a provider that needs the network. *)
Definition builtin_network_of (provider_id : string) : bool :=
  negb (String.eqb provider_id LocalProvider.id).

(** What every reachable manager satisfies: each provider is filed under
    its own identity and honours the contract; the active identity is
    blank or registered; and under LocalOnly the active provider does not
    need the network. *)
Record manager_ok (network_of : string -> bool) (m : ProviderManager.t)
  : Prop := mk_manager_ok {
  ok_keys :
    forall i p, ProviderManager.providers_ m !! i = Some p ->
                id p = i /\ honours_contract network_of p;
  ok_active :
    ProviderManager.active_provider_id_ m = EmptyString
    \/ is_Some (ProviderManager.providers_ m
                  !! ProviderManager.active_provider_id_ m);
  ok_local :
    ProviderManager.privacy_mode_ m = PM_LocalOnly ->
    forall p, ProviderManager.active_provider m = Some p ->
              requires_network p = false
}.

(** ** What a blocked call looks like *)

Definition privacy_blocked (r : option LlmResponse) : Prop :=
  exists response,
    r = Some response
    /\ success response = false
    /\ error_code response = 403
    /\ used_remote_inference response = false.

(** The transport a self-hosted provider really talks to. *)
Definition transport (p : OllamaCloudProvider.t) (w : World) : HttpClient :=
  match OllamaCloudProvider.http_client_ p with
  | Some client => client
  | None => default_http_client w
  end.

(** URL and headers [make_request] computes. *)
Definition request_url (p : OllamaCloudProvider.t) (endpoint : string)
  : string :=
  let url := OllamaCloudConfig.base_url (OllamaCloudProvider.config_ p) in
  (if negb (empty url) && bool_decide (back url = Some "/"%char)
   then pop_back url else url) +:+ endpoint.

Definition request_headers (p : OllamaCloudProvider.t)
  : list (string * string) :=
  let key := OllamaCloudConfig.api_key (OllamaCloudProvider.config_ p) in
  [("Content-Type"%string, "application/json"%string)]
  ++ (if negb (empty key)
      then [("Authorization"%string, "Bearer " +:+ key)] else []).

(** The event of one POST to the chat endpoint. *)
Definition chat_post (p : OllamaCloudProvider.t) (request : LlmRequest)
    (payload : string) : Event :=
  EvHttp (request_url p OllamaCloudProvider.kChatEndpoint) "POST" payload
         (request_headers p) (timeout_ms request).

(** Events of the attempt made with the counter at [retry_count], and of
    [n] attempts in a row starting there. *)
Definition attempt_events (p : OllamaCloudProvider.t) (request : LlmRequest)
    (payload : string) (retry_count : Z) : Trace :=
  (if 0 <? retry_count
   then [EvSleep (OllamaCloudProvider.backoff_ms p retry_count)] else [])
  ++ [chat_post p request payload].

Fixpoint loop_events (p : OllamaCloudProvider.t) (request : LlmRequest)
    (payload : string) (retry_count : Z) (n : nat) : Trace :=
  match n with
  | O => []
  | S n' =>
      attempt_events p request payload retry_count
      ++ loop_events p request payload (retry_count + 1) n'
  end.

(** The prompt the specification describes for the commercial provider:
    the bodies of the user messages, in order. *)
Definition user_contents (msgs : list ChatMessage) : string :=
  String.concat EmptyString
    (map content (List.filter (fun m => MessageRole_eqb (role m) User) msgs)).

(** The body [build_chat_payload] produces; it reads no history. *)
Definition chat_payload (p : OllamaCloudProvider.t) (request : LlmRequest)
    (w : World) : string :=
  fst (OllamaCloudProvider.build_chat_payload p request w []).

(** What is slept before the attempt made with the counter at
    [retry_count]. *)
Definition backoff_events (p : OllamaCloudProvider.t) (retry_count : Z)
  : Trace :=
  if 0 <? retry_count
  then [EvSleep (OllamaCloudProvider.backoff_ms p retry_count)] else [].

(** What the transport answers to that attempt. *)
Definition attempt_response (p : OllamaCloudProvider.t)
    (request : LlmRequest) (payload : string) (w : World) (retry_count : Z)
    (h : Trace) : HttpResponse :=
  transport p w (h ++ backoff_events p retry_count)
    (request_url p OllamaCloudProvider.kChatEndpoint) "POST" payload
    (request_headers p) (timeout_ms request).

(** A request the remote providers let through their privacy checks. *)
Definition passes_privacy_checks (request : LlmRequest) : Prop :=
  privacy_level request <> LocalOnly
  /\ (allow_content_upload request = true
      \/ privacy_level request <> FullContent).

(** The three ways a call of the local provider can end. *)
Definition local_outcome (r : LlmResponse) : Prop :=
  success r = true
  \/ (success r = false /\ error_code r = 1)
  \/ (success r = false /\ error_code r = 2).

(** ** Fixtures: a small world, mock clients and mock transports *)

Definition mock_client (answer : string) : ILLMClient :=
  mkILLMClient (fun _ _ => Ok answer) (fun _ _ _ _ => Ok answer).

Definition always_status (code : Z) : HttpClient :=
  fun _ _ _ _ _ _ => mkHttpResponse code EmptyString EmptyString.

Definition test_model_path : string := "/tmp/models/test_model.gguf".

Definition test_world : World :=
  mkWorld
    (fun path => if String.eqb path test_model_path
                 then Some (mkFileStatus regular 420 19)   (* rw-r--r-- *)
                 else None)
    (fun h => Z.of_nat (length h))
    (fun _ _ => Ok (mock_client "Documents : Reports"))
    (fun _ _ _ => Ok (mock_client "Documents : Reports"))
    (fun _ _ _ _ _ _ => mkHttpResponse 0 EmptyString "Could not resolve host")
    (fun _ => "0.7"%string).

(** A jsoncpp stand-in that rejects every body. *)
Definition no_json : JsonCpp :=
  mkJsonCpp unit (fun _ => inr "not JSON"%string) (fun _ _ => false)
            (fun _ _ => tt) (fun _ => EmptyString) (fun _ => 0).

Definition test_openai : OpenAIProvider.t :=
  OpenAIProvider.new "test-api-key" "gpt-4o-mini"
    (Some (fun _ _ _ => Ok (mock_client "Documents : PDFs"))).

Definition test_ollama_config : OllamaCloudConfig.t :=
  OllamaCloudConfig.mk "https://example.com" EmptyString "llama3.2"
                       30000 3 1000.

Definition test_ollama (code : Z) : OllamaCloudProvider.t :=
  OllamaCloudProvider.mk test_ollama_config (Some (always_status code)).

Definition test_local : LocalProvider.t :=
  LocalProvider.mk test_model_path
    (Some (fun _ _ => Ok (mock_client "Images : Photos"))).

(** A request marked LocalOnly, as in the repository's tests. *)
Definition local_only_request : LlmRequest :=
  mkLlmRequest [mkChatMessage User "test"] EmptyString float_0_7 float_1_0
               256 30000 LocalOnly false 200 3 1000.

(** The calls of two of the repository's manager tests. *)
Definition calls_local_active : list ManagerCall :=
  [Call_register_provider (Some (LocalProvider.as_IProvider test_local));
   Call_register_provider (Some (OpenAIProvider.as_IProvider test_openai));
   Call_set_active_provider "local"].

Definition calls_remote_active : list ManagerCall :=
  [Call_register_provider (Some (OpenAIProvider.as_IProvider test_openai));
   Call_set_privacy_mode PM_RemoteAllowed true;
   Call_set_active_provider "openai"].

(** A conversation with messages of all three roles. *)
Definition mixed_request : LlmRequest :=
  mkLlmRequest [mkChatMessage System "You sort files.";
                mkChatMessage User "categorize ";
                mkChatMessage Assistant "Which file?";
                mkChatMessage User "file.pdf"]
               EmptyString float_0_7 float_1_0
               256 30000 MetadataOnly false 200 3 1000.

(** Full content asked for, upload not consented to. *)
Definition full_content_request : LlmRequest :=
  mkLlmRequest [mkChatMessage User "test"] EmptyString float_0_7 float_1_0
               256 30000 FullContent false 200 3 1000.

(** A self-hosted provider with a base URL but no model id, behind a
    server that answers 200. *)
Definition ollama_without_model : OllamaCloudProvider.t :=
  OllamaCloudProvider.mk
    (OllamaCloudConfig.mk "https://example.com" EmptyString EmptyString
                          30000 3 1000)
    (Some (always_status 200)).

(** A request that allows two retries and carries a backoff base of its
    own, different from the provider's configured 1000 ms. *)
Definition patient_request : LlmRequest :=
  mkLlmRequest [mkChatMessage User "categorize invoice.pdf"] EmptyString
               float_0_7 float_1_0 256 30000 MetadataOnly false 200 2 250.

(** A provider class outside the contract: it files itself under the local
    provider's identity and requires network. *)
Definition impostor : IProvider :=
  mkIProvider LocalProvider.id "Remote provider filed as local"
    Capability.RemoteInference (ret Healthy) (ret []) true (ret true)
    (fun _ _ => ret None) (fun _ _ _ _ _ _ => ret None).

Definition calls_with_impostor : list ManagerCall :=
  [Call_register_provider (Some (LocalProvider.as_IProvider test_local));
   Call_set_active_provider "local";
   Call_register_provider (Some impostor)].

(** Another provider class outside the contract: its identity is blank,
    which is how the manager writes that no provider is active. *)
Definition nameless : IProvider :=
  mkIProvider EmptyString "Remote provider without identity"
    Capability.RemoteInference (ret Healthy) (ret []) true (ret true)
    (fun _ _ => ret None) (fun _ _ _ _ _ _ => ret None).

(** A jsoncpp stand-in with a handful of documents. *)
#[warnings="-register-all"]
Inductive TinyJson :=
| TNull
| TNumber (n : Z)
| TText (s : string)
| TList
| TObject (fields : list (string * TinyJson)).

Definition tiny_isMember (v : TinyJson) (key : string) : bool :=
  match v with
  | TObject fields => existsb (fun kv => String.eqb (fst kv) key) fields
  | _ => false
  end.

Definition tiny_member (v : TinyJson) (key : string) : TinyJson :=
  match v with
  | TObject fields =>
      match List.find (fun kv => String.eqb (fst kv) key) fields with
      | Some kv => snd kv
      | None => TNull
      end
  | _ => TNull
  end.

(** The answer of a chat server, and an answer whose [response] is a list,
    on which [asString] does not return. *)
Definition chat_reply : TinyJson :=
  TObject [("message"%string,
            TObject [("content"%string, TText "Images : Photos")]);
           ("prompt_eval_count"%string, TNumber 12);
           ("eval_count"%string, TNumber 5)].

Definition odd_reply : TinyJson := TObject [("response"%string, TList)].

Definition tiny_json : JsonCpp :=
  mkJsonCpp TinyJson
    (fun body => if String.eqb body "reply" then inl chat_reply
                 else if String.eqb body "odd reply" then inl odd_reply
                 else inr "not JSON"%string)
    tiny_isMember tiny_member
    (fun v => match v with
              | TText s => s
              | TNumber n => to_string n
              | _ => EmptyString
              end)
    (fun v => match v with TNumber n => n | _ => 0 end).

Definition tiny_kinds : JsonKinds tiny_json :=
  mkJsonKinds tiny_json
    (fun v => match v with
              | TNull => nullValue
              | TNumber _ => intValue
              | TText _ => stringValue
              | TList => arrayValue
              | TObject _ => objectValue
              end)
    (fun v => match v with
              | TNumber n => (INT_MIN <=? n) && (n <=? INT_MAX)
              | _ => false
              end).


(** A text that can stand between the quotes of a JSON string without
    ending it early: no bare quote, and every backslash is followed by one
    of the five characters [escape_json_string] pairs it with. *)
Fixpoint stays_inside_quotes (s : string) : bool :=
  match s with
  | EmptyString => true
  | String c rest =>
      if ascii_eqb c (ascii_of_nat 92) then
        match rest with
        | EmptyString => false
        | String x rest' =>
            existsb (ascii_eqb x)
              [ascii_of_nat 34; ascii_of_nat 92; "n"%char; "r"%char;
               "t"%char]
            && stays_inside_quotes rest'
        end
      else negb (ascii_eqb c (ascii_of_nat 34)) && stays_inside_quotes rest
  end.

(** Milliseconds slept in all. *)
Definition total_ms (durations : list Z) : Z := fold_right Z.add 0 durations.

(** Settings that select a custom local model stored at the test path. *)
Definition custom_settings : Foundation.Settings.t :=
  Foundation.Settings.mk Foundation.LLMChoice.Custom EmptyString EmptyString
    "my-model"
    (fun id => Foundation.CustomLLM.mk id test_model_path).

(** * Properties *)

(** ** Tactics for running computations *)

Ltac unfold_m :=
  unfold events, value, virtual_chat, virtual_categorize, bindE, bind, ret,
    emit, now, sleep_for, fs_exists, fs_permissions, fs_file_size,
    call_complete_prompt, call_categorize_file, call_http in *.

(** Case analysis on whatever the goal still branches on. *)
Ltac split_cases :=
  repeat match goal with
         | |- context [match ?x with _ => _ end] =>
             lazymatch x with
             | context [match _ with _ => _ end] => fail
             | _ => destruct x eqn:?; simpl in *
             end
         end.

(** ** Machine integers *)

Lemma wrap32_small z : INT_MIN <= z <= INT_MAX -> wrap32 z = z.
Proof.
  unfold wrap32, INT_MIN, INT_MAX. intros Hz.
  rewrite Z.mod_small; lia.
Qed.

Lemma int_succ_small i : 0 <= i < INT_MAX -> int_succ i = i + 1.
Proof.
  intros Hi. unfold int_succ. apply wrap32_small.
  unfold INT_MIN, INT_MAX in *. lia.
Qed.

Lemma PrivacyLevel_eqb_eq a b : PrivacyLevel_eqb a b = true <-> a = b.
Proof. destruct a, b; simpl; split; intros; congruence. Qed.

Lemma PrivacyMode_eqb_eq a b : PrivacyMode_eqb a b = true <-> a = b.
Proof. destruct a, b; simpl; split; intros; congruence. Qed.

Lemma empty_true s : empty s = true <-> s = EmptyString.
Proof. destruct s; simpl; split; intros; congruence. Qed.

(** ** C10: the local provider never reports remote inference *)

Lemma local_chat_flags p request w h :
  let r := value (LocalProvider.chat p request) w h in
  local_outcome r
  /\ used_remote_inference r = false
  /\ actual_privacy_level r = LocalOnly.
Proof.
  unfold LocalProvider.chat, LocalProvider.is_configured,
    LocalProvider.create_client, local_outcome.
  unfold_m. simpl. split_cases; auto.
Qed.

Lemma local_categorize_flags p filename filepath is_directory ctx request w h :
  let r := value (LocalProvider.categorize p filename filepath is_directory
                    ctx request) w h in
  local_outcome r
  /\ used_remote_inference r = false
  /\ actual_privacy_level r = LocalOnly.
Proof.
  unfold LocalProvider.categorize, LocalProvider.is_configured,
    LocalProvider.create_client, local_outcome.
  unfold_m. simpl. split_cases; auto.
Qed.

(** C10.  Whatever the request says about privacy level and upload consent,
    a call of the local provider's [chat] or [categorize] ends in one of
    three ways (success, configuration failure with code 1, engine failure
    with code 2) and in each of them the response has
    [used_remote_inference = false] and [actual_privacy_level = LocalOnly]. *)
Theorem local_provider_responses_are_local :
  forall (p : LocalProvider.t) (request : LlmRequest) (w : World) (h : Trace)
         (filename filepath ctx : string) (is_directory : bool),
    let by_chat := value (LocalProvider.chat p request) w h in
    let by_categorize :=
      value (LocalProvider.categorize p filename filepath is_directory ctx
               request) w h in
    (local_outcome by_chat
     /\ used_remote_inference by_chat = false
     /\ actual_privacy_level by_chat = LocalOnly)
    /\ (local_outcome by_categorize
        /\ used_remote_inference by_categorize = false
        /\ actual_privacy_level by_categorize = LocalOnly).
Proof.
  intros. split.
  - apply local_chat_flags.
  - apply local_categorize_flags.
Qed.

(** ** C4: the privacy mode and its confirmation flag *)

Lemma set_remote_unconfirmed m :
  ProviderManager.set_privacy_mode PM_RemoteAllowed false m = (false, m).
Proof. reflexivity. Qed.

Lemma set_remote_confirmed m :
  ProviderManager.set_privacy_mode PM_RemoteAllowed true m
  = (true, ProviderManager.mk (ProviderManager.providers_ m)
             (ProviderManager.active_provider_id_ m) PM_RemoteAllowed).
Proof. reflexivity. Qed.

(** C4.  A fresh manager is in mode LocalOnly; asking for RemoteAllowed
    without confirmation returns false and changes nothing (so the mode of a
    fresh manager stays LocalOnly); asking with confirmation returns true
    and the mode becomes RemoteAllowed. *)
Theorem privacy_mode_default_and_confirmation :
  ProviderManager.privacy_mode ProviderManager.new = PM_LocalOnly
  /\ (forall m,
        fst (ProviderManager.set_privacy_mode PM_RemoteAllowed false m) = false
        /\ snd (ProviderManager.set_privacy_mode PM_RemoteAllowed false m) = m)
  /\ ProviderManager.privacy_mode
       (snd (ProviderManager.set_privacy_mode PM_RemoteAllowed false
               ProviderManager.new)) = PM_LocalOnly
  /\ (forall m,
        fst (ProviderManager.set_privacy_mode PM_RemoteAllowed true m) = true
        /\ ProviderManager.privacy_mode
             (snd (ProviderManager.set_privacy_mode PM_RemoteAllowed true m))
           = PM_RemoteAllowed).
Proof.
  split; [reflexivity|].
  split; [intros m; rewrite set_remote_unconfirmed; auto|].
  split; [reflexivity|].
  intros m. rewrite set_remote_confirmed. auto.
Qed.

(** ** C3: under LocalOnly the active provider is local *)

Section ManagerInvariant.

Variable network_of : string -> bool.

Lemma no_blank_key m p :
  manager_ok network_of m ->
  ProviderManager.providers_ m !! EmptyString = Some p ->
  False.
Proof.
  intros Hok Hp. destruct (ok_keys network_of m Hok _ _ Hp) as [Hid [Hne _]].
  congruence.
Qed.

Lemma new_ok : manager_ok network_of ProviderManager.new.
Proof.
  constructor; simpl.
  - intros i p Hp. rewrite lookup_empty in Hp. discriminate.
  - now left.
  - intros _ p Hp. unfold ProviderManager.active_provider,
      ProviderManager.get_provider in Hp. simpl in Hp.
    rewrite lookup_empty in Hp. discriminate.
Qed.

Lemma register_ok m provider :
  manager_ok network_of m ->
  call_honours_contract network_of (Call_register_provider provider) ->
  manager_ok network_of (ProviderManager.register_provider provider m).
Proof.
  intros Hok Hc. destruct provider as [p|]; [|exact Hok].
  simpl in Hc. destruct Hc as [Hne Hnet].
  unfold ProviderManager.register_provider.
  constructor; simpl.
  - intros i q Hq. destruct (decide (id p = i)) as [<-|Hi].
    + rewrite lookup_insert_eq in Hq. inversion Hq; subst q.
      split; [reflexivity|split; assumption].
    + rewrite lookup_insert_ne in Hq by assumption.
      exact (ok_keys network_of m Hok _ _ Hq).
  - destruct (ok_active network_of m Hok) as [Ha|Ha]; [now left|right].
    rewrite lookup_insert_is_Some.
    destruct (decide (id p = ProviderManager.active_provider_id_ m));
      [now left|now right].
  - intros Hmode q Hq.
    unfold ProviderManager.active_provider, ProviderManager.get_provider in Hq.
    simpl in Hq.
    destruct (decide (id p = ProviderManager.active_provider_id_ m))
      as [Heq|Hneq].
    + rewrite <- Heq in Hq. rewrite lookup_insert_eq in Hq.
      inversion Hq; subst q.
      destruct (ok_active network_of m Hok) as [Ha|[p0 Hp0]]; [congruence|].
      destruct (ok_keys network_of m Hok _ _ Hp0) as [Hid0 [_ Hnet0]].
      rewrite Hnet, Heq, <- Hid0, <- Hnet0.
      apply (ok_local network_of m Hok Hmode). exact Hp0.
    + rewrite lookup_insert_ne in Hq by assumption.
      apply (ok_local network_of m Hok Hmode). exact Hq.
Qed.

Lemma unregister_ok m provider_id :
  manager_ok network_of m ->
  manager_ok network_of (ProviderManager.unregister_provider provider_id m).
Proof.
  intros Hok. unfold ProviderManager.unregister_provider.
  destruct (ProviderManager.providers_ m !! provider_id) as [found|]
    eqn:Hfound; [|exact Hok].
  case_bool_decide as Hact.
  - constructor; simpl.
    + intros i q Hq. apply lookup_delete_Some in Hq as [_ Hq].
      exact (ok_keys network_of m Hok _ _ Hq).
    + now left.
    + intros _ q Hq.
      unfold ProviderManager.active_provider, ProviderManager.get_provider
        in Hq. simpl in Hq.
      apply lookup_delete_Some in Hq as [_ Hq].
      destruct (no_blank_key m q Hok Hq).
  - constructor; simpl.
    + intros i q Hq. apply lookup_delete_Some in Hq as [_ Hq].
      exact (ok_keys network_of m Hok _ _ Hq).
    + destruct (ok_active network_of m Hok) as [Ha|[p0 Hp0]]; [now left|right].
      exists p0. rewrite lookup_delete_ne; [exact Hp0|congruence].
    + intros Hmode q Hq.
      unfold ProviderManager.active_provider, ProviderManager.get_provider
        in Hq. simpl in Hq.
      apply lookup_delete_Some in Hq as [_ Hq].
      apply (ok_local network_of m Hok Hmode). exact Hq.
Qed.

Lemma set_active_ok m provider_id :
  manager_ok network_of m ->
  manager_ok network_of
    (snd (ProviderManager.set_active_provider provider_id m)).
Proof.
  intros Hok. unfold ProviderManager.set_active_provider,
    ProviderManager.get_provider.
  destruct (ProviderManager.providers_ m !! provider_id) as [p|] eqn:Hfound;
    [|exact Hok].
  destruct (ProviderManager.is_provider_allowed m p) eqn:Hallowed; simpl;
    [|exact Hok].
  constructor; simpl.
  - exact (ok_keys network_of m Hok).
  - right. rewrite Hfound. eauto.
  - intros Hmode q Hq.
    unfold ProviderManager.active_provider, ProviderManager.get_provider
      in Hq. simpl in Hq. rewrite Hfound in Hq. inversion Hq; subst q.
    unfold ProviderManager.is_provider_allowed in Hallowed.
    rewrite Hmode in Hallowed.
    destruct (requires_network p); simpl in Hallowed; congruence.
Qed.

Lemma set_local_ok m user_confirmed :
  manager_ok network_of m ->
  manager_ok network_of
    (snd (ProviderManager.set_privacy_mode PM_LocalOnly user_confirmed m)).
Proof.
  intros Hok.
  unfold ProviderManager.set_privacy_mode, ProviderManager.get_provider.
  simpl.
  destruct (empty (ProviderManager.active_provider_id_ m)) eqn:Hblank; simpl.
  - constructor; simpl;
      [exact (ok_keys network_of m Hok)|exact (ok_active network_of m Hok)|].
    intros _ q Hq.
    unfold ProviderManager.active_provider, ProviderManager.get_provider
      in Hq. simpl in Hq.
    apply empty_true in Hblank. rewrite Hblank in Hq.
    destruct (no_blank_key m q Hok Hq).
  - destruct (ProviderManager.providers_ m
                !! ProviderManager.active_provider_id_ m) as [p|] eqn:Hp.
    + destruct (requires_network p) eqn:Hnet; simpl.
      * constructor; simpl; [exact (ok_keys network_of m Hok)|now left|].
        intros _ q Hq.
        unfold ProviderManager.active_provider,
          ProviderManager.get_provider in Hq. simpl in Hq.
        destruct (no_blank_key m q Hok Hq).
      * constructor; simpl;
          [exact (ok_keys network_of m Hok)
          |exact (ok_active network_of m Hok)|].
        intros _ q Hq.
        unfold ProviderManager.active_provider,
          ProviderManager.get_provider in Hq. simpl in Hq.
        congruence.
    + simpl. constructor; simpl;
        [exact (ok_keys network_of m Hok)|exact (ok_active network_of m Hok)|].
      intros _ q Hq.
      unfold ProviderManager.active_provider,
        ProviderManager.get_provider in Hq. simpl in Hq. congruence.
Qed.

Lemma set_privacy_mode_ok m mode user_confirmed :
  manager_ok network_of m ->
  manager_ok network_of
    (snd (ProviderManager.set_privacy_mode mode user_confirmed m)).
Proof.
  intros Hok. destruct mode; [now apply set_local_ok|].
  destruct user_confirmed.
  - rewrite set_remote_confirmed. simpl.
    constructor; simpl;
      [exact (ok_keys network_of m Hok)|exact (ok_active network_of m Hok)|].
    discriminate.
  - rewrite set_remote_unconfirmed. exact Hok.
Qed.

Lemma step_ok m c :
  manager_ok network_of m ->
  call_honours_contract network_of c ->
  manager_ok network_of (step m c).
Proof.
  intros Hok Hc. destruct c; simpl.
  - now apply register_ok.
  - now apply unregister_ok.
  - now apply set_active_ok.
  - now apply set_privacy_mode_ok.
Qed.

Lemma fold_step_ok calls :
  forall m, manager_ok network_of m ->
            Forall (call_honours_contract network_of) calls ->
            manager_ok network_of (fold_left step calls m).
Proof.
  induction calls as [|c calls IH]; intros m Hok Hall; simpl; [exact Hok|].
  inversion Hall; subst. apply IH; [apply step_ok|]; assumption.
Qed.

Lemma run_ok calls :
  Forall (call_honours_contract network_of) calls ->
  manager_ok network_of (run calls).
Proof. intros Hall. apply fold_step_ok; [apply new_ok|exact Hall]. Qed.

End ManagerInvariant.

Lemma builtin_honours_contract p :
  builtin p -> honours_contract builtin_network_of p.
Proof. intros [q|q|J q]; split; simpl; (discriminate || reflexivity). Qed.

Lemma set_active_remote_refused m provider_id p :
  ProviderManager.privacy_mode m = PM_LocalOnly ->
  ProviderManager.get_provider m provider_id = Some p ->
  requires_network p = true ->
  ProviderManager.set_active_provider provider_id m = (false, m).
Proof.
  intros Hmode Hp Hnet. unfold ProviderManager.set_active_provider.
  rewrite Hp. unfold ProviderManager.is_provider_allowed.
  unfold ProviderManager.privacy_mode in Hmode. rewrite Hnet, Hmode.
  reflexivity.
Qed.

Lemma set_local_deactivates_remote network_of m p user_confirmed :
  manager_ok network_of m ->
  ProviderManager.active_provider m = Some p ->
  requires_network p = true ->
  let after := ProviderManager.set_privacy_mode PM_LocalOnly user_confirmed m in
  fst after = true
  /\ ProviderManager.privacy_mode (snd after) = PM_LocalOnly
  /\ ProviderManager.active_provider (snd after) = None.
Proof.
  intros Hok Hp Hnet.
  unfold ProviderManager.set_privacy_mode, ProviderManager.get_provider.
  simpl.
  unfold ProviderManager.active_provider, ProviderManager.get_provider in Hp.
  destruct (empty (ProviderManager.active_provider_id_ m)) eqn:Hblank.
  - apply empty_true in Hblank. rewrite Hblank in Hp.
    destruct (no_blank_key network_of m p Hok Hp).
  - simpl. rewrite Hp, Hnet. simpl. repeat split.
    unfold ProviderManager.active_provider, ProviderManager.get_provider.
    simpl.
    destruct (ProviderManager.providers_ m !! EmptyString) as [q|] eqn:Hq;
      [|reflexivity].
    destruct (no_blank_key network_of m q Hok Hq).
Qed.

Lemma set_local_only_outcome m user_confirmed :
  let after := ProviderManager.set_privacy_mode PM_LocalOnly user_confirmed m in
  fst after = true
  /\ ProviderManager.privacy_mode (snd after) = PM_LocalOnly
  /\ ProviderManager.providers_ (snd after) = ProviderManager.providers_ m
  /\ ProviderManager.active_provider_id_ (snd after)
     = match ProviderManager.active_provider m with
       | Some p =>
           if requires_network p then EmptyString
           else ProviderManager.active_provider_id_ m
       | None => ProviderManager.active_provider_id_ m
       end.
Proof.
  unfold ProviderManager.set_privacy_mode, ProviderManager.active_provider,
    ProviderManager.get_provider.
  simpl.
  destruct (empty (ProviderManager.active_provider_id_ m)) eqn:Hblank; simpl.
  - apply empty_true in Hblank. rewrite Hblank.
    destruct (ProviderManager.providers_ m !! EmptyString) as [p|];
      [destruct (requires_network p)|]; repeat split.
  - destruct (ProviderManager.providers_ m
                !! ProviderManager.active_provider_id_ m) as [p|];
      [destruct (requires_network p)|]; repeat split.
Qed.

(** C3, amended.  Take any sequence of [register_provider],
    [unregister_provider], [set_active_provider] and [set_privacy_mode]
    calls on a fresh manager in which the registered providers honour the
    interface's contract (a non-empty identity that fixes the network
    requirement, as the repository's three provider classes do).  In the
    state reached: if the mode is LocalOnly, the active provider, when there
    is one, does not require network; and switching to LocalOnly with a
    network-requiring provider active leaves no provider active.  In every
    state of a manager, reached that way or not: [set_active_provider] on a
    registered provider that requires network returns false and changes
    nothing while the mode is LocalOnly; and [set_privacy_mode] to LocalOnly
    returns true, sets the mode, keeps the registry, and clears the active
    identity exactly when the active provider requires network. *)
Theorem local_only_mode_keeps_active_provider_local :
  forall (network_of : string -> bool) (calls : list ManagerCall),
    Forall (call_honours_contract network_of) calls ->
    let m := run calls in
    (ProviderManager.privacy_mode m = PM_LocalOnly ->
     forall p, ProviderManager.active_provider m = Some p ->
               requires_network p = false)
    /\ (forall p user_confirmed,
          ProviderManager.active_provider m = Some p ->
          requires_network p = true ->
          let after :=
            ProviderManager.set_privacy_mode PM_LocalOnly user_confirmed m in
          fst after = true
          /\ ProviderManager.privacy_mode (snd after) = PM_LocalOnly
          /\ ProviderManager.active_provider (snd after) = None)
    /\ (forall (any : ProviderManager.t) provider_id p,
          ProviderManager.privacy_mode any = PM_LocalOnly ->
          ProviderManager.get_provider any provider_id = Some p ->
          requires_network p = true ->
          ProviderManager.set_active_provider provider_id any = (false, any))
    /\ (forall (any : ProviderManager.t) user_confirmed,
          let after :=
            ProviderManager.set_privacy_mode PM_LocalOnly user_confirmed any
          in
          fst after = true
          /\ ProviderManager.privacy_mode (snd after) = PM_LocalOnly
          /\ ProviderManager.providers_ (snd after)
             = ProviderManager.providers_ any
          /\ ProviderManager.active_provider_id_ (snd after)
             = match ProviderManager.active_provider any with
               | Some p =>
                   if requires_network p then EmptyString
                   else ProviderManager.active_provider_id_ any
               | None => ProviderManager.active_provider_id_ any
               end).
Proof.
  intros network_of calls Hall m.
  assert (Hok : manager_ok network_of m) by (apply run_ok; exact Hall).
  split; [|split; [|split]].
  - exact (ok_local network_of m Hok).
  - intros p user_confirmed.
    apply (set_local_deactivates_remote network_of); exact Hok.
  - intros any provider_id p. apply set_active_remote_refused.
  - intros any user_confirmed. apply set_local_only_outcome.
Qed.

Lemma test_calls_honour_contract :
  Forall (call_honours_contract builtin_network_of) calls_local_active
  /\ Forall (call_honours_contract builtin_network_of) calls_remote_active.
Proof.
  split; repeat constructor; simpl; discriminate.
Qed.

Lemma local_only_mode_keeps_active_provider_local_witness :
  requires_network (LocalProvider.as_IProvider test_local) = false
  /\ ProviderManager.set_active_provider "openai" (run calls_local_active)
     = (false, run calls_local_active)
  /\ ProviderManager.active_provider (run calls_remote_active)
     = Some (OpenAIProvider.as_IProvider test_openai)
  /\ ProviderManager.active_provider
       (snd (ProviderManager.set_privacy_mode PM_LocalOnly false
               (run calls_remote_active))) = None
  /\ ProviderManager.privacy_mode
       (snd (ProviderManager.set_privacy_mode PM_LocalOnly false
               (run calls_remote_active))) = PM_LocalOnly.
Proof.
  destruct test_calls_honour_contract as [Hlocal Hremote].
  destruct (local_only_mode_keeps_active_provider_local
              builtin_network_of calls_local_active Hlocal)
    as (H1 & _ & H2 & _).
  destruct (local_only_mode_keeps_active_provider_local
              builtin_network_of calls_remote_active Hremote)
    as (_ & H3 & _ & H4).
  split; [|split; [|split; [|split]]].
  - apply H1; reflexivity.
  - apply (H2 (run calls_local_active) "openai"%string
              (OpenAIProvider.as_IProvider test_openai)); reflexivity.
  - reflexivity.
  - apply (H3 (OpenAIProvider.as_IProvider test_openai) false); reflexivity.
  - apply (H4 (run calls_remote_active) false).
Defined.

(** The contract cannot be dropped: [register_provider] replaces by
    identity without looking at the active provider, so a provider that
    reuses the identity of the active local one and requires network is
    active at once, whatever the mode.  The manager's [chat] still refuses
    it ([manager_blocks_local] below does not rely on the invariant). *)
Remark replacement_outside_contract :
  let m := run calls_with_impostor in
  ProviderManager.privacy_mode m = PM_LocalOnly
  /\ ProviderManager.active_provider m = Some impostor
  /\ requires_network impostor = true
  /\ ~ honours_contract builtin_network_of impostor.
Proof.
  repeat split. intros [_ Hnet]. discriminate.
Qed.

(** C3, as stated for any sequence of calls, fails.  A local provider is
    registered and made active, then a provider that requires network is
    registered under the same identity: the mode is still LocalOnly and the
    active provider requires network. *)
Lemma any_sequence_of_calls_breaks_local_only :
  ProviderManager.privacy_mode (run calls_with_impostor) = PM_LocalOnly
  /\ ProviderManager.active_provider (run calls_with_impostor)
     = Some impostor
  /\ requires_network impostor = true
  /\ ~ (forall calls : list ManagerCall,
          ProviderManager.privacy_mode (run calls) = PM_LocalOnly ->
          forall p, ProviderManager.active_provider (run calls) = Some p ->
                    requires_network p = false).
Proof.
  repeat split. intros Hclaim.
  specialize (Hclaim calls_with_impostor eq_refl impostor eq_refl).
  discriminate.
Qed.

(** Nor can the identity be blank: a provider registered under the blank
    identity is what [active_provider] finds while no provider has been
    made active. *)
Remark blank_identity_outside_contract :
  let m := run [Call_register_provider (Some nameless)] in
  ProviderManager.privacy_mode m = PM_LocalOnly
  /\ ProviderManager.active_provider_id_ m = EmptyString
  /\ ProviderManager.active_provider m = Some nameless
  /\ requires_network nameless = true.
Proof. repeat split. Qed.

(** ** C1: a request marked LocalOnly never reaches a remote provider *)

Lemma privacy_blocked_intro response :
  success response = false ->
  error_code response = 403 ->
  used_remote_inference response = false ->
  privacy_blocked (Some response).
Proof. intros. exists response. auto. Qed.

Section DirectCalls.

Variables (request : LlmRequest) (w : World) (h : Trace).
Hypothesis marked_local : privacy_level request = LocalOnly.

Lemma openai_chat_blocks_local p :
  OpenAIProvider.chat p request w h
  = (OpenAIProvider.create_privacy_error p
       "Request is marked LocalOnly but sent to remote provider", []).
Proof. unfold OpenAIProvider.chat. rewrite marked_local. reflexivity. Qed.

Lemma openai_categorize_blocks_local p filename filepath is_directory ctx :
  OpenAIProvider.categorize p filename filepath is_directory ctx request w h
  = (OpenAIProvider.create_privacy_error p
       "Categorization marked LocalOnly but sent to remote provider", []).
Proof. unfold OpenAIProvider.categorize. rewrite marked_local. reflexivity. Qed.

Lemma ollama_chat_blocks_local `{JsonCpp} fuel p :
  OllamaCloudProvider.chat fuel p request w h
  = (Some (OllamaCloudProvider.create_privacy_error p
             "Request is marked LocalOnly but sent to remote provider"), []).
Proof. unfold OllamaCloudProvider.chat. rewrite marked_local. reflexivity. Qed.

Lemma ollama_categorize_blocks_local `{JsonCpp} fuel p filename filepath
    is_directory ctx :
  OllamaCloudProvider.categorize fuel p filename filepath is_directory ctx
    request w h
  = (Some (OllamaCloudProvider.create_privacy_error p
             "Categorization marked LocalOnly but sent to remote provider"),
     []).
Proof.
  unfold OllamaCloudProvider.categorize. rewrite marked_local. reflexivity.
Qed.

Lemma builtin_remote_blocks_local p fuel filename filepath is_directory ctx :
  builtin p ->
  requires_network p = true ->
  (privacy_blocked (value (chat p fuel request) w h)
   /\ events (chat p fuel request) w h = [])
  /\ (privacy_blocked
        (value (categorize p fuel filename filepath is_directory ctx request)
           w h)
      /\ events (categorize p fuel filename filepath is_directory ctx request)
           w h = []).
Proof.
  intros [q|q|J q] Hnet; simpl in *; [discriminate| |].
  - unfold events, value, bind.
    rewrite openai_chat_blocks_local, openai_categorize_blocks_local. simpl.
    repeat split; apply privacy_blocked_intro; reflexivity.
  - unfold events, value.
    rewrite ollama_chat_blocks_local, ollama_categorize_blocks_local. simpl.
    repeat split; apply privacy_blocked_intro; reflexivity.
Qed.

Lemma manager_blocks_local m p fuel filename filepath is_directory ctx :
  ProviderManager.active_provider m = Some p ->
  requires_network p = true ->
  (privacy_blocked (value (ProviderManager.chat fuel m request) w h)
   /\ events (ProviderManager.chat fuel m request) w h = [])
  /\ (privacy_blocked
        (value (ProviderManager.categorize fuel m filename filepath
                  is_directory ctx request) w h)
      /\ events (ProviderManager.categorize fuel m filename filepath
                   is_directory ctx request) w h = []).
Proof.
  intros Hactive Hnet.
  unfold ProviderManager.chat, ProviderManager.categorize,
    ProviderManager.is_provider_allowed.
  rewrite Hactive, Hnet, marked_local. simpl.
  destruct (ProviderManager.privacy_mode_ m); simpl;
    repeat split; apply privacy_blocked_intro; reflexivity.
Qed.

End DirectCalls.

(** C1.  For a request whose privacy level is LocalOnly: [chat] and
    [categorize] of each provider class of the repository that requires
    network (called directly, through [IProvider]), and the manager's [chat]
    and [categorize] when the active provider requires network, all answer
    [success = false], [error_code = 403], [used_remote_inference = false],
    and add no event: no transport call, no client, no inference call. *)
Theorem local_only_request_blocked_before_any_call :
  forall (request : LlmRequest) (w : World) (h : Trace) (fuel : nat)
         (filename filepath ctx : string) (is_directory : bool),
    privacy_level request = LocalOnly ->
    (forall p, builtin p -> requires_network p = true ->
       (privacy_blocked (value (chat p fuel request) w h)
        /\ events (chat p fuel request) w h = [])
       /\ (privacy_blocked
             (value (categorize p fuel filename filepath is_directory ctx
                       request) w h)
           /\ events (categorize p fuel filename filepath is_directory ctx
                        request) w h = []))
    /\ (forall m p,
          ProviderManager.active_provider m = Some p ->
          requires_network p = true ->
          (privacy_blocked (value (ProviderManager.chat fuel m request) w h)
           /\ events (ProviderManager.chat fuel m request) w h = [])
          /\ (privacy_blocked
                (value (ProviderManager.categorize fuel m filename filepath
                          is_directory ctx request) w h)
              /\ events (ProviderManager.categorize fuel m filename filepath
                           is_directory ctx request) w h = [])).
Proof.
  intros request w h fuel filename filepath ctx is_directory Hlocal. split.
  - intros p. now apply builtin_remote_blocks_local.
  - intros m p. now apply manager_blocks_local.
Qed.

Lemma local_only_request_blocked_before_any_call_witness :
  (privacy_blocked
     (value (chat (OpenAIProvider.as_IProvider test_openai) 1
               local_only_request) test_world [])
   /\ events (chat (@OllamaCloudProvider.as_IProvider no_json
                      (test_ollama 200)) 1 local_only_request)
        test_world [] = [])
  /\ (privacy_blocked
        (value (ProviderManager.chat 1 (run calls_remote_active)
                  local_only_request) test_world [])
      /\ events (ProviderManager.categorize 1 (run calls_remote_active)
                   "photo.jpg" "/home/user/photo.jpg" false EmptyString
                   local_only_request) test_world [] = []).
Proof.
  destruct (local_only_request_blocked_before_any_call local_only_request
              test_world [] 1 "photo.jpg" "/home/user/photo.jpg" EmptyString
              false eq_refl) as [Hdirect Hmanager].
  split.
  - split.
    + apply (Hdirect (OpenAIProvider.as_IProvider test_openai));
        [constructor|reflexivity].
    + apply (Hdirect (@OllamaCloudProvider.as_IProvider no_json
                        (test_ollama 200))); [constructor|reflexivity].
  - destruct (Hmanager (run calls_remote_active)
                (OpenAIProvider.as_IProvider test_openai) eq_refl eq_refl)
      as [[Hchat _] [_ Hcat]].
    split; assumption.
Defined.

(** ** C9: what the commercial provider sends *)

Lemma append_cons c (s t : string) : String c s +:+ t = String c (s +:+ t).
Proof. reflexivity. Qed.

Lemma append_empty_r (s : string) : s +:+ EmptyString = s.
Proof.
  induction s as [|c s IH]; [reflexivity|]. rewrite append_cons, IH.
  reflexivity.
Qed.

Lemma append_assoc (s t u : string) : (s +:+ t) +:+ u = s +:+ (t +:+ u).
Proof.
  induction s as [|c s IH]; [reflexivity|]. rewrite !append_cons, IH.
  reflexivity.
Qed.

Lemma concat_empty_cons (s : string) (l : list string) :
  String.concat EmptyString (s :: l) = s +:+ String.concat EmptyString l.
Proof.
  destruct l as [|s' l]; [|reflexivity].
  change (s = s +:+ EmptyString). symmetry. apply append_empty_r.
Qed.

Lemma combined_prompt_user_contents msgs :
  OpenAIProvider.combined_prompt msgs = user_contents msgs.
Proof.
  unfold user_contents.
  induction msgs as [|msg msgs IH]; [reflexivity|].
  cbn [OpenAIProvider.combined_prompt List.filter].
  destruct (MessageRole_eqb (role msg) User); [|exact IH].
  cbn [map]. rewrite concat_empty_cons, IH. reflexivity.
Qed.

Lemma user_contents_app msgs1 msgs2 :
  user_contents (msgs1 ++ msgs2)
  = user_contents msgs1 +:+ user_contents msgs2.
Proof.
  rewrite <- !combined_prompt_user_contents.
  induction msgs1 as [|msg msgs1 IH]; simpl; [reflexivity|].
  destruct (MessageRole_eqb (role msg) User); [|exact IH].
  rewrite IH. symmetry. apply append_assoc.
Qed.

Lemma user_contents_no_user others :
  Forall (fun m => role m <> User) others ->
  user_contents others = EmptyString.
Proof.
  rewrite <- combined_prompt_user_contents.
  induction 1 as [|msg others Hmsg _ IH]; simpl; [reflexivity|].
  destruct (role msg); simpl; congruence.
Qed.

Lemma openai_passes_checks p request :
  privacy_level request <> LocalOnly ->
  allow_content_upload request = true \/ privacy_level request <> FullContent ->
  OpenAIProvider.is_configured p = true ->
  PrivacyLevel_eqb (privacy_level request) LocalOnly = false
  /\ negb (allow_content_upload request)
     && PrivacyLevel_eqb (privacy_level request) FullContent = false
  /\ negb (OpenAIProvider.is_configured p) = false.
Proof.
  intros Hlocal Hfull Hconf. rewrite Hconf.
  destruct (privacy_level request), (allow_content_upload request);
    simpl; repeat split; try reflexivity; try congruence;
    destruct Hfull; congruence.
Qed.

(** C9.  When the request passes the commercial provider's privacy checks
    and the provider is configured, [chat] creates one client and, unless
    that fails, makes one [complete_prompt] call whose prompt is the
    concatenation, in order, of the contents of the User messages;
    messages of the other roles can be removed without changing what is
    sent. *)
Theorem openai_chat_sends_user_messages_only :
  forall (p : OpenAIProvider.t) (request : LlmRequest) (w : World) (h : Trace),
    privacy_level request <> LocalOnly ->
    (allow_content_upload request = true
     \/ privacy_level request <> FullContent) ->
    OpenAIProvider.is_configured p = true ->
    events (OpenAIProvider.chat p request) w h
    = EvCreateClient [OpenAIProvider.api_key_ p; OpenAIProvider.model_ p]
      :: match value (OpenAIProvider.create_client p) w h with
         | Ok _ => [EvCompletePrompt (user_contents (messages request))
                                     (max_tokens request)]
         | Throw _ => []
         end
    /\ (forall before others after,
          messages request = before ++ others ++ after ->
          Forall (fun m => role m <> User) others ->
          user_contents (messages request) = user_contents (before ++ after)).
Proof.
  intros p request w h Hlocal Hfull Hconf.
  destruct (openai_passes_checks p request Hlocal Hfull Hconf)
    as (Hc1 & Hc2 & Hc3).
  split.
  - unfold OpenAIProvider.chat. rewrite Hc1, Hc2, Hc3.
    rewrite combined_prompt_user_contents.
    unfold OpenAIProvider.create_client. unfold_m. simpl.
    rewrite ?app_nil_r.
    destruct (OpenAIProvider.client_factory_ p) as [factory|]; simpl.
    + destruct (factory h (OpenAIProvider.api_key_ p)
                  (OpenAIProvider.model_ p)) as [client|what]; simpl;
        [|reflexivity].
      destruct (complete_prompt client (user_contents (messages request))
                  (max_tokens request)); reflexivity.
    + destruct (make_LLMClient w h (OpenAIProvider.api_key_ p)
                  (OpenAIProvider.model_ p)) as [client|what]; simpl;
        [|reflexivity].
      destruct (complete_prompt client (user_contents (messages request))
                  (max_tokens request)); reflexivity.
  - intros before others after Hmsgs Hothers.
    rewrite Hmsgs, !user_contents_app, (user_contents_no_user others Hothers).
    reflexivity.
Qed.

Lemma openai_chat_sends_user_messages_only_witness :
  events (OpenAIProvider.chat test_openai mixed_request) test_world []
  = [EvCreateClient ["test-api-key"%string; "gpt-4o-mini"%string];
     EvCompletePrompt "categorize file.pdf" 256].
Proof.
  destruct (openai_chat_sends_user_messages_only test_openai mixed_request
              test_world []) as [Hsent _].
  - discriminate.
  - right. discriminate.
  - reflexivity.
  - exact Hsent.
Defined.

(** ** C8: health and model listing of the local provider *)

Lemma foundation_health_missing w h path :
  fs_status w path = None ->
  value (Foundation.LocalProvider.check_health
           (Foundation.LocalProvider.mk path)) w h
  = Foundation.Unavailable.
Proof.
  intros Hmissing. unfold Foundation.LocalProvider.check_health. unfold_m.
  simpl. rewrite Hmissing. reflexivity.
Qed.

Lemma is_Some_decide {A} (o : option A) x :
  o = Some x -> bool_decide (is_Some o) = true.
Proof. intros ->. apply bool_decide_eq_true. eauto. Qed.

Lemma foundation_health_readable w h path st :
  fs_status w path = Some st ->
  Z.land (st_perms st) owner_read <> perms_none ->
  value (Foundation.LocalProvider.check_health
           (Foundation.LocalProvider.mk path)) w h
  = Foundation.Healthy.
Proof.
  intros Hfound Hread. unfold Foundation.LocalProvider.check_health. unfold_m.
  simpl. rewrite (is_Some_decide _ _ Hfound). simpl. rewrite Hfound.
  destruct (Z.eqb_spec (Z.land (st_perms st) owner_read) perms_none);
    [contradiction|reflexivity].
Qed.

Lemma foundation_list_models_file w h path st :
  fs_status w path = Some st ->
  st_kind st = regular ->
  value (Foundation.LocalProvider.list_models
           (Foundation.LocalProvider.mk path)) w h
  = [Foundation.mkModelInfo path (path_filename path) "Local GGUF model"
       (st_size st) true].
Proof.
  intros Hfound Hkind. unfold Foundation.LocalProvider.list_models. unfold_m.
  simpl. rewrite (is_Some_decide _ _ Hfound). simpl.
  rewrite Hfound, Hkind. reflexivity.
Qed.

Lemma foundation_list_models_missing w h path :
  fs_status w path = None ->
  value (Foundation.LocalProvider.list_models
           (Foundation.LocalProvider.mk path)) w h = [].
Proof.
  intros Hmissing. unfold Foundation.LocalProvider.list_models. unfold_m.
  simpl. rewrite Hmissing.
  rewrite bool_decide_eq_false_2 by (intros [x Hx]; discriminate).
  reflexivity.
Qed.

Lemma current_health_missing w h path factory :
  path <> EmptyString ->
  fs_status w path = None ->
  value (LocalProvider.health_check (LocalProvider.mk path factory)) w h
  = Unavailable
  /\ value (LocalProvider.list_models (LocalProvider.mk path factory)) w h
     = [].
Proof.
  intros Hpath Hmissing.
  unfold LocalProvider.health_check, LocalProvider.list_models. unfold_m.
  simpl. destruct path; [congruence|]. simpl. rewrite Hmissing.
  rewrite bool_decide_eq_false_2 by (intros [x Hx]; discriminate).
  split; reflexivity.
Qed.

Lemma current_health_present w h path factory st :
  path <> EmptyString ->
  fs_status w path = Some st ->
  value (LocalProvider.health_check (LocalProvider.mk path factory)) w h
  = Healthy
  /\ value (LocalProvider.list_models (LocalProvider.mk path factory)) w h
     = [mkModelInfo path (path_filename path) "Local GGUF model" true false
          0 0].
Proof.
  intros Hpath Hfound.
  unfold LocalProvider.health_check, LocalProvider.list_models. unfold_m.
  simpl. destruct path; [congruence|]. simpl.
  rewrite (is_Some_decide _ _ Hfound). split; reflexivity.
Qed.

Lemma current_health_blank w h factory :
  LocalProvider.health_check (LocalProvider.mk EmptyString factory) w h
  = (NotConfigured, [])
  /\ LocalProvider.list_models (LocalProvider.mk EmptyString factory) w h
     = ([], []).
Proof. split; reflexivity. Qed.

(** C8, amended.  What the file system reports of the model path decides.
    The provider of the generation that reports sizes ([check_health],
    [ModelInfo] with [size_bytes] and [is_available]): nothing at the path
    gives Unavailable and an empty listing; a regular file readable by its
    owner gives Healthy and a listing of exactly one entry, which names the
    path and its file name, whose size is the byte length of the file and
    whose availability flag is true.  The current provider ([health_check];
    its [ModelInfo] has neither size nor availability flag), for a path
    that is not blank: nothing at the path gives Unavailable and an empty
    listing; a file there gives Healthy and a listing of exactly one entry,
    which names the path and its file name and is marked local.  With a
    blank path the current provider answers NotConfigured, not Unavailable,
    and lists nothing. *)
Theorem local_provider_health_and_listing :
  forall (w : World) (h : Trace) (path : string),
    (fs_status w path = None ->
     value (Foundation.LocalProvider.check_health
              (Foundation.LocalProvider.mk path)) w h
     = Foundation.Unavailable
     /\ value (Foundation.LocalProvider.list_models
                 (Foundation.LocalProvider.mk path)) w h = [])
    /\ (forall st,
          fs_status w path = Some st ->
          st_kind st = regular ->
          Z.land (st_perms st) owner_read <> perms_none ->
          value (Foundation.LocalProvider.check_health
                   (Foundation.LocalProvider.mk path)) w h
          = Foundation.Healthy
          /\ exists info,
               value (Foundation.LocalProvider.list_models
                        (Foundation.LocalProvider.mk path)) w h = [info]
               /\ info = Foundation.mkModelInfo path (path_filename path)
                           "Local GGUF model" (st_size st) true
               /\ Foundation.size_bytes info = st_size st
               /\ Foundation.is_available info = true)
    /\ (forall factory,
          path <> EmptyString ->
          (fs_status w path = None ->
           value (LocalProvider.health_check (LocalProvider.mk path factory))
             w h = Unavailable
           /\ value (LocalProvider.list_models
                       (LocalProvider.mk path factory)) w h = [])
          /\ (forall st,
                fs_status w path = Some st ->
                value (LocalProvider.health_check
                         (LocalProvider.mk path factory)) w h = Healthy
                /\ exists info,
                     value (LocalProvider.list_models
                              (LocalProvider.mk path factory)) w h = [info]
                     /\ mi_id info = path
                     /\ mi_name info = path_filename path
                     /\ is_local info = true))
    /\ (forall factory,
          LocalProvider.health_check (LocalProvider.mk EmptyString factory)
            w h = (NotConfigured, [])
          /\ LocalProvider.list_models (LocalProvider.mk EmptyString factory)
               w h = ([], [])).
Proof.
  intros w h path. split; [|split; [|split]].
  - intros Hmissing. split;
      [now apply foundation_health_missing
      |now apply foundation_list_models_missing].
  - intros st Hfound Hkind Hread. split.
    + now apply (foundation_health_readable w h path st).
    + eexists. split;
        [apply (foundation_list_models_file w h path st); assumption|].
      repeat split.
  - intros factory Hpath. split.
    + now apply current_health_missing.
    + intros st Hfound.
      destruct (current_health_present w h path factory st Hpath Hfound)
        as [Hhealth Hlist].
      split; [exact Hhealth|]. eexists. split; [exact Hlist|].
      repeat split.
  - intros factory. apply current_health_blank.
Qed.

Lemma local_provider_health_and_listing_witness :
  value (Foundation.LocalProvider.check_health
           (Foundation.LocalProvider.mk "/nonexistent/model.gguf"))
    test_world [] = Foundation.Unavailable
  /\ value (Foundation.LocalProvider.check_health
              (Foundation.LocalProvider.mk test_model_path)) test_world []
     = Foundation.Healthy
  /\ (exists info,
        value (Foundation.LocalProvider.list_models
                 (Foundation.LocalProvider.mk test_model_path)) test_world []
        = [info]
        /\ Foundation.size_bytes info = 19
        /\ Foundation.is_available info = true)
  /\ value (LocalProvider.health_check
              (LocalProvider.mk "/nonexistent/model.gguf" None)) test_world []
     = Unavailable
  /\ value (LocalProvider.health_check test_local) test_world [] = Healthy
  /\ (exists info,
        value (LocalProvider.list_models test_local) test_world [] = [info]
        /\ mi_id info = test_model_path
        /\ mi_name info = "test_model.gguf"%string).
Proof.
  destruct (local_provider_health_and_listing test_world []
              "/nonexistent/model.gguf") as (Hmissing & _ & Hcurrent & _).
  destruct (local_provider_health_and_listing test_world [] test_model_path)
    as (_ & Hfile & Hcurrent' & _).
  destruct (Hfile (mkFileStatus regular 420 19) eq_refl eq_refl)
    as [Hhealthy (info & Hlisted & _ & Hsize & Havailable)]; [discriminate|].
  destruct (Hcurrent None) as [Hcur_missing _]; [discriminate|].
  destruct (Hcurrent' (LocalProvider.client_factory_ test_local))
    as [_ Hcur_present]; [discriminate|].
  destruct (Hcur_present (mkFileStatus regular 420 19) eq_refl)
    as [Hcur_healthy (listed & Hcur_listed & Hid & Hname & _)].
  split; [exact (proj1 (Hmissing eq_refl))|].
  split; [exact Hhealthy|].
  split; [exists info; auto|].
  split; [exact (proj1 (Hcur_missing eq_refl))|].
  split; [exact Hcur_healthy|].
  exists listed. split; [exact Hcur_listed|]. split; [exact Hid|].
  rewrite Hname. reflexivity.
Defined.

(** C8, as stated for every model path that does not exist, fails for the
    current provider: nothing exists at the blank path, and the health
    check answers NotConfigured. *)
Lemma blank_model_path_is_not_unavailable :
  fs_status test_world EmptyString = None
  /\ value (LocalProvider.health_check (LocalProvider.mk EmptyString None))
       test_world [] = NotConfigured
  /\ value (LocalProvider.health_check (LocalProvider.mk EmptyString None))
       test_world [] <> Unavailable.
Proof. repeat split. discriminate. Qed.

(** ** C2: full content without upload consent *)

Section FullContentWithoutConsent.

Variables (request : LlmRequest) (w : World) (h : Trace).
Hypothesis full_content : privacy_level request = FullContent.
Hypothesis no_consent : allow_content_upload request = false.

Lemma openai_chat_blocks_full_content p :
  OpenAIProvider.chat p request w h
  = (OpenAIProvider.create_privacy_error p
       "Full content upload requested but not explicitly allowed", []).
Proof.
  unfold OpenAIProvider.chat. rewrite full_content, no_consent. reflexivity.
Qed.

Lemma ollama_chat_blocks_full_content `{JsonCpp} fuel p :
  OllamaCloudProvider.chat fuel p request w h
  = (Some (OllamaCloudProvider.create_privacy_error p
             "Full content upload requested but not explicitly allowed"), []).
Proof.
  unfold OllamaCloudProvider.chat. rewrite full_content, no_consent.
  reflexivity.
Qed.

(** The self-hosted [categorize] reaches the consent check only through
    [chat], after its own configuration check. *)
Lemma ollama_categorize_full_content `{JsonCpp} fuel p filename filepath
    is_directory ctx :
  OllamaCloudProvider.categorize fuel p filename filepath is_directory ctx
    request w h
  = (Some (if OllamaCloudProvider.is_configured p
           then OllamaCloudProvider.create_privacy_error p
                  "Full content upload requested but not explicitly allowed"
           else OllamaCloudProvider.create_config_error p
                  "Ollama Cloud provider not configured: base_url or model missing"),
     []).
Proof.
  unfold OllamaCloudProvider.categorize, OllamaCloudProvider.chat. simpl.
  rewrite full_content, no_consent. simpl.
  destruct (OllamaCloudProvider.is_configured p); reflexivity.
Qed.

(** The commercial [categorize] has no consent check: once configured it
    creates a client and hands it the name and the full path. *)
Lemma openai_categorize_full_content p filename filepath is_directory ctx :
  OpenAIProvider.is_configured p = true ->
  events (OpenAIProvider.categorize p filename filepath is_directory ctx
            request) w h
  = EvCreateClient [OpenAIProvider.api_key_ p; OpenAIProvider.model_ p]
    :: match value (OpenAIProvider.create_client p) w h with
       | Ok _ => [EvCategorizeFile filename filepath
                    (if is_directory then Directory else File) ctx]
       | Throw _ => []
       end.
Proof.
  intros Hconf. unfold OpenAIProvider.categorize.
  rewrite full_content, no_consent, Hconf. simpl.
  unfold OpenAIProvider.create_client. unfold_m. simpl. rewrite ?app_nil_r.
  destruct (OpenAIProvider.client_factory_ p) as [factory|]; simpl.
  - destruct (factory h (OpenAIProvider.api_key_ p)
                (OpenAIProvider.model_ p)) as [client|what]; simpl;
      [|reflexivity].
    destruct (categorize_file client filename filepath _ ctx); reflexivity.
  - destruct (make_LLMClient w h (OpenAIProvider.api_key_ p)
                (OpenAIProvider.model_ p)) as [client|what]; simpl;
      [|reflexivity].
    destruct (categorize_file client filename filepath _ ctx); reflexivity.
Qed.

End FullContentWithoutConsent.

(** C2.  [categorize] of the commercial provider on a FullContent request
    without upload consent: the configured provider of the repository's
    tests does not answer 403; it creates a client, passes it the file name
    together with the full path, and reports success. *)
Theorem openai_categorize_ignores_missing_consent :
  let answer :=
    OpenAIProvider.categorize test_openai "photo.jpg" "/home/user/photo.jpg"
      false EmptyString full_content_request test_world [] in
  privacy_level full_content_request = FullContent
  /\ allow_content_upload full_content_request = false
  /\ success (fst answer) = true
  /\ error_code (fst answer) = 0
  /\ used_remote_inference (fst answer) = true
  /\ text (fst answer) = "Documents : PDFs"%string
  /\ snd answer
     = [EvCreateClient ["test-api-key"%string; "gpt-4o-mini"%string];
        EvCategorizeFile "photo.jpg" "/home/user/photo.jpg" File EmptyString].
Proof. repeat split. Qed.

(** ** C7: the health check of the self-hosted provider *)

Lemma ollama_health_blank_url p w h :
  OllamaCloudConfig.base_url (OllamaCloudProvider.config_ p) = EmptyString ->
  OllamaCloudProvider.health_check p w h = (NotConfigured, []).
Proof.
  intros Hblank. unfold OllamaCloudProvider.health_check. rewrite Hblank.
  reflexivity.
Qed.

Lemma make_request_run p endpoint method payload timeout w h :
  OllamaCloudProvider.make_request p endpoint method payload timeout w h
  = (transport p w h (request_url p endpoint) method payload
       (request_headers p) timeout,
     [EvHttp (request_url p endpoint) method payload (request_headers p)
        timeout]).
Proof.
  unfold OllamaCloudProvider.make_request, transport, request_url,
    request_headers.
  destruct (OllamaCloudProvider.http_client_ p),
    (empty (OllamaCloudConfig.api_key (OllamaCloudProvider.config_ p)));
    reflexivity.
Qed.

(** With a base URL the health check is one GET of the version endpoint
    with a 5000 ms timeout, and its answer is read off the status alone. *)
Lemma ollama_health_probe p w h :
  OllamaCloudConfig.base_url (OllamaCloudProvider.config_ p) <> EmptyString ->
  let probe :=
    transport p w h (request_url p OllamaCloudProvider.kHealthEndpoint) "GET"
      EmptyString (request_headers p) 5000 in
  OllamaCloudProvider.health_check p w h
  = (if http_success probe then Healthy else Unavailable,
     [EvHttp (request_url p OllamaCloudProvider.kHealthEndpoint) "GET"
        EmptyString (request_headers p) 5000]).
Proof.
  intros Hurl probe. unfold OllamaCloudProvider.health_check.
  destruct (empty _) eqn:Hblank; [apply empty_true in Hblank; contradiction|].
  unfold bind. rewrite make_request_run. fold probe.
  destruct (http_success probe); reflexivity.
Qed.

(** C7.  The self-hosted provider with a base URL but a blank model id is
    not configured, yet its health check does not answer NotConfigured: it
    probes the server and, the server answering 200, reports Healthy. *)
Theorem ollama_health_check_ignores_missing_model :
  OllamaCloudProvider.is_configured ollama_without_model = false
  /\ OllamaCloudProvider.health_check ollama_without_model test_world []
     = (Healthy,
        [EvHttp "https://example.com/api/version" "GET" EmptyString
           [("Content-Type"%string, "application/json"%string)] 5000]).
Proof. split; reflexivity. Qed.

(** ** The retry loop of the self-hosted provider *)

Section RetryLoop.

Variables (p : OllamaCloudProvider.t) (request : LlmRequest)
          (payload : string) (w : World).

Lemma retry_loop_unfold fuel retry_count r0 h :
  OllamaCloudProvider.retry_loop (S fuel) p request payload retry_count r0 w h
  = if retry_count <=? max_retries request then
      let r := attempt_response p request payload w retry_count h in
      if OllamaCloudProvider.stops_retrying r
      then (Some r, attempt_events p request payload retry_count)
      else
        let (res, evs) :=
          OllamaCloudProvider.retry_loop fuel p request payload
            (int_succ retry_count) r w
            (h ++ attempt_events p request payload retry_count) in
        (res, attempt_events p request payload retry_count ++ evs)
    else (Some r0, []).
Proof.
  cbn [OllamaCloudProvider.retry_loop].
  destruct (retry_count <=? max_retries request); [|reflexivity].
  unfold attempt_response, attempt_events, backoff_events, chat_post.
  unfold bind, sleep_for, emit, ret.
  destruct (0 <? retry_count); rewrite make_request_run; cbn [fst snd].
  - destruct (OllamaCloudProvider.stops_retrying _); [reflexivity|].
    rewrite <- app_assoc. cbn [app].
    destruct (OllamaCloudProvider.retry_loop _ _ _ _ _ _ _ _).
    reflexivity.
  - rewrite !app_nil_r.
    destruct (OllamaCloudProvider.stops_retrying _); [reflexivity|].
    cbn [app].
    destruct (OllamaCloudProvider.retry_loop _ _ _ _ _ _ _ _).
    reflexivity.
Qed.

Lemma retry_loop_not_entered fuel retry_count r0 h :
  max_retries request < retry_count ->
  OllamaCloudProvider.retry_loop (S fuel) p request payload retry_count r0 w h
  = (Some r0, []).
Proof.
  intros Hover. rewrite retry_loop_unfold.
  destruct (Z.leb_spec retry_count (max_retries request)); [lia|reflexivity].
Qed.

(** Every answer of the transport asks for another try: the loop runs
    until the counter passes [max_retries], and hands back the last
    answer. *)
Lemma retry_loop_exhausts (good : HttpResponse -> Prop) :
  (forall h url method body headers timeout,
     let r := transport p w h url method body headers timeout in
     OllamaCloudProvider.stops_retrying r = false /\ good r) ->
  max_retries request < INT_MAX ->
  forall (n : nat) (fuel : nat) retry_count r0 h,
    0 <= retry_count ->
    retry_count + Z.of_nat n = max_retries request + 1 ->
    (n < fuel)%nat ->
    exists r,
      OllamaCloudProvider.retry_loop fuel p request payload retry_count r0 w h
      = (Some r, loop_events p request payload retry_count n)
      /\ (n = 0%nat /\ r = r0 \/ good r).
Proof.
  intros Hretry Hmax n.
  induction n as [|n IH]; intros fuel retry_count r0 h Hpos Hsum Hfuel;
    (destruct fuel as [|fuel]; [lia|]).
  - exists r0. split; [|now left].
    rewrite retry_loop_not_entered by lia. reflexivity.
  - rewrite retry_loop_unfold.
    destruct (Z.leb_spec retry_count (max_retries request)); [|lia].
    cbn zeta.
    destruct (Hretry (h ++ backoff_events p retry_count)
                (request_url p OllamaCloudProvider.kChatEndpoint)
                "POST"%string payload (request_headers p)
                (timeout_ms request)) as [Hgo Hgood].
    fold (attempt_response p request payload w retry_count h) in Hgo, Hgood.
    rewrite Hgo, int_succ_small by lia.
    destruct (IH fuel (retry_count + 1)
                (attempt_response p request payload w retry_count h)
                (h ++ attempt_events p request payload retry_count))
      as (r & Hloop & Hr); [lia|lia|lia|].
    rewrite Hloop. exists r. split; [reflexivity|].
    right. destruct Hr as [[-> ->]|Hr]; assumption.
Qed.

(** The first answer ends the loop. *)
Lemma retry_loop_first_answer fuel r0 h :
  0 <= max_retries request ->
  OllamaCloudProvider.stops_retrying
    (attempt_response p request payload w 0 h) = true ->
  OllamaCloudProvider.retry_loop (S fuel) p request payload 0 r0 w h
  = (Some (attempt_response p request payload w 0 h),
     [chat_post p request payload]).
Proof.
  intros Hmax Hstop. rewrite retry_loop_unfold.
  destruct (Z.leb_spec 0 (max_retries request)); [|lia].
  cbn zeta. rewrite Hstop. reflexivity.
Qed.

(** Whatever the transport answers, the events of the loop are those of a
    number of attempts in a row. *)
Lemma retry_loop_shape :
  max_retries request < INT_MAX ->
  forall fuel retry_count r0 h,
    0 <= retry_count ->
    exists n : nat,
      snd (OllamaCloudProvider.retry_loop fuel p request payload retry_count
             r0 w h)
      = loop_events p request payload retry_count n.
Proof.
  intros Hmax fuel.
  induction fuel as [|fuel IH]; intros retry_count r0 h Hpos.
  - exists 0%nat. reflexivity.
  - rewrite retry_loop_unfold.
    destruct (Z.leb_spec retry_count (max_retries request));
      [|exists 0%nat; reflexivity].
    cbn zeta.
    destruct (OllamaCloudProvider.stops_retrying _).
    + exists 1%nat. cbn [snd loop_events]. now rewrite app_nil_r.
    + rewrite int_succ_small by lia.
      destruct (IH (retry_count + 1)
                  (attempt_response p request payload w retry_count h)
                  (h ++ attempt_events p request payload retry_count))
        as [n Hn]; [lia|].
      destruct (OllamaCloudProvider.retry_loop _ _ _ _ _ _ _ _) as [res evs].
      cbn [snd] in *. exists (S n). cbn [loop_events]. now rewrite Hn.
Qed.

(** With fuel for every test of the loop condition, the loop returns. *)
Lemma retry_loop_returns :
  max_retries request < INT_MAX ->
  forall fuel retry_count r0 h,
    0 <= retry_count ->
    (Z.to_nat (max_retries request + 1 - retry_count) < fuel)%nat ->
    exists r (n : nat),
      OllamaCloudProvider.retry_loop fuel p request payload retry_count r0 w h
      = (Some r, loop_events p request payload retry_count n).
Proof.
  intros Hmax fuel.
  induction fuel as [|fuel IH]; intros retry_count r0 h Hpos Hfuel; [lia|].
  rewrite retry_loop_unfold.
  destruct (Z.leb_spec retry_count (max_retries request));
    [|exists r0, 0%nat; reflexivity].
  cbn zeta.
  destruct (OllamaCloudProvider.stops_retrying _).
  - eexists. exists 1%nat. cbn [loop_events]. now rewrite app_nil_r.
  - rewrite int_succ_small by lia.
    destruct (IH (retry_count + 1)
                (attempt_response p request payload w retry_count h)
                (h ++ attempt_events p request payload retry_count))
      as (r & n & Hloop); [lia|lia|].
    rewrite Hloop. exists r, (S n). reflexivity.
Qed.

Lemma http_attempts_app t1 t2 :
  http_attempts (t1 ++ t2) = (http_attempts t1 + http_attempts t2)%nat.
Proof. unfold http_attempts. now rewrite List.filter_app, length_app. Qed.

Lemma http_attempts_attempt retry_count :
  http_attempts (attempt_events p request payload retry_count) = 1%nat.
Proof.
  unfold attempt_events. destruct (0 <? retry_count); reflexivity.
Qed.

Lemma http_attempts_loop n :
  forall retry_count,
    http_attempts (loop_events p request payload retry_count n) = n.
Proof.
  induction n as [|n IH]; intros retry_count; [reflexivity|].
  cbn [loop_events].
  rewrite http_attempts_app, http_attempts_attempt, IH. reflexivity.
Qed.

Lemma sleeps_app t1 t2 : sleeps (t1 ++ t2) = sleeps t1 ++ sleeps t2.
Proof. unfold sleeps. apply omap_app. Qed.

(** From the second attempt on, each attempt is preceded by its sleep. *)
Lemma sleeps_loop_retries n :
  forall retry_count,
    0 < retry_count ->
    sleeps (loop_events p request payload retry_count n)
    = map (fun i => OllamaCloudProvider.backoff_ms p (retry_count + Z.of_nat i))
          (seq 0 n).
Proof.
  induction n as [|n IH]; intros retry_count Hpos; [reflexivity|].
  cbn [loop_events]. rewrite sleeps_app, IH by lia.
  unfold attempt_events.
  destruct (Z.ltb_spec 0 retry_count); [|lia].
  cbn [seq map]. rewrite <- seq_shift, map_map.
  cbn [app sleeps omap]. unfold sleeps. cbn.
  f_equal; [f_equal; lia|].
  apply map_ext. intros i. f_equal. lia.
Qed.

Lemma sleeps_loop_from_zero n :
  sleeps (loop_events p request payload 0 n)
  = map (fun k => OllamaCloudProvider.backoff_ms p (Z.of_nat k))
        (seq 1 (n - 1)).
Proof.
  destruct n as [|n]; [reflexivity|].
  cbn [loop_events]. rewrite sleeps_app, sleeps_loop_retries by lia.
  replace (S n - 1)%nat with n by lia.
  rewrite <- seq_shift, map_map. cbn.
  apply map_ext. intros i. f_equal. lia.
Qed.

End RetryLoop.

(** ** C5 and C6: how often the self-hosted provider tries, and how long it
    waits in between *)

Lemma passes_privacy_checks_bool request :
  passes_privacy_checks request ->
  PrivacyLevel_eqb (privacy_level request) LocalOnly = false
  /\ negb (allow_content_upload request)
     && PrivacyLevel_eqb (privacy_level request) FullContent = false.
Proof.
  intros [Hlocal Hfull].
  destruct (privacy_level request), (allow_content_upload request);
    simpl; split; try reflexivity; try congruence;
    destruct Hfull; congruence.
Qed.

Lemma status_5xx_retries r :
  500 <= status_code r < 600 ->
  OllamaCloudProvider.stops_retrying r = false /\ http_success r = false.
Proof.
  intros Hr. unfold OllamaCloudProvider.stops_retrying, http_success.
  destruct (Z.leb_spec 200 (status_code r)),
    (Z.ltb_spec (status_code r) 300),
    (Z.leb_spec 400 (status_code r)),
    (Z.ltb_spec (status_code r) 500); simpl; split; (reflexivity || lia).
Qed.

Lemma status_2xx_4xx_stops r :
  200 <= status_code r < 300 \/ 400 <= status_code r < 500 ->
  OllamaCloudProvider.stops_retrying r = true.
Proof.
  intros Hr. unfold OllamaCloudProvider.stops_retrying, http_success.
  destruct (Z.leb_spec 200 (status_code r)),
    (Z.ltb_spec (status_code r) 300),
    (Z.leb_spec 400 (status_code r)),
    (Z.ltb_spec (status_code r) 500); simpl; (reflexivity || lia).
Qed.

Section SelfHostedChat.

Context `{JsonCpp}.
Variables (p : OllamaCloudProvider.t) (request : LlmRequest) (w : World)
          (h : Trace).
Hypothesis passes : passes_privacy_checks request.
Hypothesis configured : OllamaCloudProvider.is_configured p = true.

Lemma parse_failed_response r latency :
  http_success r = false ->
  success (OllamaCloudProvider.parse_chat_response p r latency) = false
  /\ error_code (OllamaCloudProvider.parse_chat_response p r latency)
     = status_code r.
Proof.
  intros Hfail. unfold OllamaCloudProvider.parse_chat_response.
  rewrite Hfail. simpl. destruct (0 <? status_code r); split; reflexivity.
Qed.

Lemma ollama_chat_run fuel :
  OllamaCloudProvider.chat fuel p request w h
  = let (looped, evs) :=
      OllamaCloudProvider.retry_loop fuel p request
        (chat_payload p request w) 0 default_HttpResponse w h in
    (match looped with
     | None => None
     | Some r =>
         Some (set_actual_privacy_level (privacy_level request)
                 (OllamaCloudProvider.parse_chat_response p r
                    (steady_clock_now w (h ++ evs) - steady_clock_now w h)))
     end, evs).
Proof.
  destruct (passes_privacy_checks_bool request passes) as [Hc1 Hc2].
  unfold OllamaCloudProvider.chat. rewrite Hc1, Hc2, configured.
  unfold bind, now, ret, OllamaCloudProvider.build_chat_payload.
  cbn [negb fst snd app]. rewrite !app_nil_r.
  fold (chat_payload p request w).
  destruct (OllamaCloudProvider.retry_loop _ _ _ _ _ _ _ _) as [[r|] evs];
    cbn [app]; rewrite ?app_nil_r; reflexivity.
Qed.

Lemma ollama_chat_always_5xx (N : Z) (fuel : nat) :
  max_retries request = N ->
  0 <= N < INT_MAX ->
  (forall h' url method body headers timeout,
     500 <= status_code (transport p w h' url method body headers timeout)
     < 600) ->
  (Z.to_nat N + 1 < fuel)%nat ->
  exists response,
    value (OllamaCloudProvider.chat fuel p request) w h = Some response
    /\ success response = false
    /\ 500 <= error_code response < 600
    /\ http_attempts (events (OllamaCloudProvider.chat fuel p request) w h)
       = (Z.to_nat N + 1)%nat.
Proof.
  intros HN Hrange H5xx Hfuel.
  destruct (retry_loop_exhausts p request (chat_payload p request w) w
              (fun r => 500 <= status_code r < 600))
    with (n := (Z.to_nat N + 1)%nat) (fuel := fuel) (retry_count := 0)
         (r0 := default_HttpResponse) (h := h)
    as (r & Hloop & Hr); try lia.
  { intros h' url method body headers timeout r. split; [|apply H5xx].
    apply status_5xx_retries, H5xx. }
  destruct Hr as [[Hn _]|Hr]; [lia|].
  unfold value, events. rewrite ollama_chat_run, Hloop. cbn [fst snd].
  destruct (status_5xx_retries r Hr) as [_ Hfail].
  eexists. split; [reflexivity|].
  destruct (parse_failed_response r
              (steady_clock_now w
                 (h ++ loop_events p request (chat_payload p request w) 0
                         (Z.to_nat N + 1))
               - steady_clock_now w h) Hfail) as [Hsuccess Hcode].
  split; [exact Hsuccess|].
  split; [|apply http_attempts_loop].
  change (error_code (set_actual_privacy_level ?level ?response))
    with (error_code response).
  rewrite Hcode. exact Hr.
Qed.

Lemma ollama_chat_first_answer_final (N : Z) (fuel : nat) :
  max_retries request = N ->
  0 <= N ->
  (forall h' url method body headers timeout,
     let r := transport p w h' url method body headers timeout in
     200 <= status_code r < 300 \/ 400 <= status_code r < 500) ->
  (0 < fuel)%nat ->
  exists response,
    value (OllamaCloudProvider.chat fuel p request) w h = Some response
    /\ http_attempts (events (OllamaCloudProvider.chat fuel p request) w h)
       = 1%nat.
Proof.
  intros HN Hrange Hstops Hfuel. destruct fuel as [|fuel]; [lia|].
  unfold value, events. rewrite ollama_chat_run.
  rewrite retry_loop_first_answer; [|lia|apply status_2xx_4xx_stops, Hstops].
  cbn [fst snd]. eexists. split; reflexivity.
Qed.

End SelfHostedChat.

(** C5.  For a request that passes the privacy checks of the configured
    self-hosted provider, with [max_retries = N], [0 <= N]: if the transport
    answers every call with a status in [500,600) (and [N] is below the
    largest [int], so that the counter can pass it), [chat] makes exactly
    [N + 1] transport calls and then returns a failed response carrying that
    status; if the transport answers with a status in [200,300) or
    [400,500), [chat] returns after exactly one transport call.  Fuel beyond
    the number of loop tests is all that is asked of the caller. *)
Theorem self_hosted_retry_attempts :
  forall (J : JsonCpp) (p : OllamaCloudProvider.t) (request : LlmRequest)
         (w : World) (h : Trace) (N : Z),
    passes_privacy_checks request ->
    OllamaCloudProvider.is_configured p = true ->
    max_retries request = N ->
    0 <= N ->
    (N < INT_MAX ->
     (forall h' url method body headers timeout,
        500 <= status_code (transport p w h' url method body headers timeout)
        < 600) ->
     forall fuel, (Z.to_nat N + 1 < fuel)%nat ->
       exists response,
         value (OllamaCloudProvider.chat fuel p request) w h = Some response
         /\ success response = false
         /\ 500 <= error_code response < 600
         /\ http_attempts
              (events (OllamaCloudProvider.chat fuel p request) w h)
            = (Z.to_nat N + 1)%nat)
    /\ ((forall h' url method body headers timeout,
           let r := transport p w h' url method body headers timeout in
           200 <= status_code r < 300 \/ 400 <= status_code r < 500) ->
        forall fuel, (0 < fuel)%nat ->
          exists response,
            value (OllamaCloudProvider.chat fuel p request) w h
            = Some response
            /\ http_attempts
                 (events (OllamaCloudProvider.chat fuel p request) w h)
               = 1%nat).
Proof.
  intros J p request w h N Hpasses Hconf HN Hpos. split.
  - intros Hmax H5xx fuel Hfuel.
    apply (ollama_chat_always_5xx p request w h Hpasses Hconf N fuel);
      auto with zarith.
  - intros Hstops fuel Hfuel.
    apply (ollama_chat_first_answer_final p request w h Hpasses Hconf N fuel);
      auto.
Qed.

Lemma mixed_request_passes : passes_privacy_checks mixed_request.
Proof. split; [discriminate|right; discriminate]. Qed.

Lemma self_hosted_retry_attempts_witness :
  (exists response,
     value (@OllamaCloudProvider.chat no_json 5 (test_ollama 503)
              mixed_request) test_world [] = Some response
     /\ success response = false
     /\ 500 <= error_code response < 600
     /\ http_attempts
          (events (@OllamaCloudProvider.chat no_json 5 (test_ollama 503)
                     mixed_request) test_world []) = 4%nat)
  /\ (exists response,
        value (@OllamaCloudProvider.chat no_json 1 (test_ollama 404)
                 mixed_request) test_world [] = Some response
        /\ http_attempts
             (events (@OllamaCloudProvider.chat no_json 1 (test_ollama 404)
                        mixed_request) test_world []) = 1%nat).
Proof.
  split.
  - destruct (self_hosted_retry_attempts no_json (test_ollama 503)
                mixed_request test_world [] 3 mixed_request_passes eq_refl
                eq_refl) as [Hretry _]; [lia|].
    apply (Hretry ltac:(unfold INT_MAX; lia)
             ltac:(intros; cbn; lia) 5%nat); cbn; lia.
  - destruct (self_hosted_retry_attempts no_json (test_ollama 404)
                mixed_request test_world [] 3 mixed_request_passes eq_refl
                eq_refl) as [_ Hstop]; [lia|].
    apply (Hstop ltac:(intros; cbn; lia) 1%nat); lia.
Defined.

(** *** The backoff *)

Lemma backoff_ms_exact p k :
  let base :=
    OllamaCloudConfig.retry_backoff_base_ms (OllamaCloudProvider.config_ p) in
  1 <= k <= 31 ->
  0 <= base ->
  base * 2 ^ (k - 1) <= INT_MAX ->
  OllamaCloudProvider.backoff_ms p k = base * 2 ^ (k - 1).
Proof.
  intros base Hk Hbase Hfits.
  unfold OllamaCloudProvider.backoff_ms, int_mul, int_shl. fold base.
  rewrite Z.shiftl_1_l.
  assert (Hpow : 0 < 2 ^ (k - 1)) by (apply Z.pow_pos_nonneg; lia).
  destruct (Z.eq_dec base 0) as [->|Hne].
  - rewrite !Z.mul_0_l. reflexivity.
  - unfold INT_MAX in Hfits.
    rewrite (wrap32_small (2 ^ (k - 1))) by (unfold INT_MIN, INT_MAX; nia).
    apply wrap32_small. unfold INT_MIN, INT_MAX. nia.
Qed.

Lemma retry_loop_ignores_request_backoff fuel p request payload ms w :
  forall retry_count r0 h,
    OllamaCloudProvider.retry_loop fuel p
      (set_retry_backoff_base_ms ms request) payload retry_count r0 w h
    = OllamaCloudProvider.retry_loop fuel p request payload retry_count r0
        w h.
Proof.
  induction fuel as [|fuel IH]; intros retry_count r0 h; [reflexivity|].
  rewrite !retry_loop_unfold.
  change (max_retries (set_retry_backoff_base_ms ms request))
    with (max_retries request).
  destruct (retry_count <=? max_retries request); [|reflexivity].
  cbn zeta.
  change (attempt_response p (set_retry_backoff_base_ms ms request) payload w
            retry_count h)
    with (attempt_response p request payload w retry_count h).
  change (attempt_events p (set_retry_backoff_base_ms ms request) payload
            retry_count)
    with (attempt_events p request payload retry_count).
  destruct (OllamaCloudProvider.stops_retrying _); [reflexivity|].
  rewrite IH. reflexivity.
Qed.

Lemma chat_ignores_request_backoff `{JsonCpp} fuel p request ms w h :
  OllamaCloudProvider.chat fuel p (set_retry_backoff_base_ms ms request) w h
  = OllamaCloudProvider.chat fuel p request w h.
Proof.
  unfold OllamaCloudProvider.chat, bind, OllamaCloudProvider.build_chat_payload.
  cbn [privacy_level allow_content_upload set_retry_backoff_base_ms
       messages max_tokens temperature].
  destruct (PrivacyLevel_eqb (privacy_level request) LocalOnly);
    [reflexivity|].
  destruct (negb (allow_content_upload request)
            && PrivacyLevel_eqb (privacy_level request) FullContent);
    [reflexivity|].
  destruct (negb (OllamaCloudProvider.is_configured p)); [reflexivity|].
  cbn [now fst snd].
  fold (set_retry_backoff_base_ms ms request).
  rewrite retry_loop_ignores_request_backoff. reflexivity.
Qed.

(** C6.  The provider is configured with a backoff base of 1000 ms and the
    request carries 250 ms; the server always answers 503 and the request
    allows two retries.  The two sleeps are 1000 ms and 2000 ms, not the
    250 ms and 500 ms of the request's retry policy.  The request's field is
    read nowhere: for every provider and request, changing it changes
    neither what [chat] answers nor what it does, while [max_retries] and
    [timeout_ms] of the same request do govern the loop. *)
Theorem backoff_base_is_not_the_requests :
  retry_backoff_base_ms patient_request = 250
  /\ OllamaCloudConfig.retry_backoff_base_ms
       (OllamaCloudProvider.config_ (test_ollama 503)) = 1000
  /\ http_attempts
       (events (@OllamaCloudProvider.chat no_json 4 (test_ollama 503)
                  patient_request) test_world []) = 3%nat
  /\ sleeps (events (@OllamaCloudProvider.chat no_json 4 (test_ollama 503)
                       patient_request) test_world [])
     = [1000; 2000]
  /\ sleeps (events (@OllamaCloudProvider.chat no_json 4 (test_ollama 503)
                       patient_request) test_world [])
     <> map (fun k => retry_backoff_base_ms patient_request * 2 ^ (k - 1))
            [1; 2]
  /\ (forall (J : JsonCpp) (fuel : nat) (p : OllamaCloudProvider.t)
             (request : LlmRequest) (ms : Z) (w : World) (h : Trace),
        OllamaCloudProvider.chat fuel p
          (set_retry_backoff_base_ms ms request) w h
        = OllamaCloudProvider.chat fuel p request w h).
Proof.
  split; [reflexivity|]. split; [reflexivity|]. split; [reflexivity|].
  split; [reflexivity|]. split; [vm_compute; discriminate|].
  intros J fuel p request ms w h. apply chat_ignores_request_backoff.
Qed.

(** ** The repository's unit tests, replayed on the model *)

Example capability_bits :
  let caps := cap_or Capability.LocalInference Capability.Vision in
  has_capability caps Capability.LocalInference = true
  /\ has_capability caps Capability.Vision = true
  /\ has_capability caps Capability.RemoteInference = false
  /\ has_capability caps Capability.Embeddings = false.
Proof. repeat split. Qed.

Example request_defaults :
  privacy_level default_LlmRequest = MetadataOnly
  /\ allow_content_upload default_LlmRequest = false
  /\ timeout_ms default_LlmRequest = 30000
  /\ max_retries default_LlmRequest = 3
  /\ retry_backoff_base_ms default_LlmRequest = 1000.
Proof. repeat split. Qed.

Example local_provider_with_mock_client :
  let response :=
    value (LocalProvider.categorize test_local "photo.jpg"
             "/home/user/photo.jpg" false EmptyString local_only_request)
      test_world [] in
  value (LocalProvider.is_configured test_local) test_world [] = true
  /\ success response = true
  /\ text response = "Images : Photos"%string
  /\ provider_id response = "local"%string
  /\ used_remote_inference response = false
  /\ actual_privacy_level response = LocalOnly.
Proof. repeat split. Qed.

Example local_provider_blank_path :
  value (LocalProvider.health_check (LocalProvider.mk EmptyString None))
    test_world [] = NotConfigured
  /\ value (LocalProvider.is_configured (LocalProvider.mk EmptyString None))
       test_world [] = false.
Proof. split; reflexivity. Qed.

Example openai_default_model :
  OpenAIProvider.model_ (OpenAIProvider.new "test-api-key" EmptyString None)
  = "gpt-4o-mini"%string.
Proof. reflexivity. Qed.

Example openai_allows_metadata_only :
  let response :=
    value (OpenAIProvider.chat test_openai mixed_request) test_world [] in
  success response = true /\ used_remote_inference response = true.
Proof. split; reflexivity. Qed.

Example openai_chat_blocks_unconsented_full_content :
  let response :=
    value (OpenAIProvider.chat test_openai full_content_request) test_world []
  in
  success response = false /\ error_code response = 403.
Proof. split; reflexivity. Qed.

Example manager_refuses_remote_in_local_only :
  let m :=
    ProviderManager.register_provider
      (Some (OpenAIProvider.as_IProvider test_openai)) ProviderManager.new in
  fst (ProviderManager.set_active_provider "openai" m) = false
  /\ ProviderManager.active_provider
       (snd (ProviderManager.set_active_provider "openai" m)) = None.
Proof. split; reflexivity. Qed.

Example manager_validates_request_level :
  ProviderManager.validate_request (run calls_remote_active)
    local_only_request
  = Some "Request is marked LocalOnly but active provider requires network"%string.
Proof. reflexivity. Qed.

Example manager_without_provider :
  let answer :=
    ProviderManager.chat 1 ProviderManager.new default_LlmRequest test_world []
  in
  fst answer = Some ProviderManager.create_no_provider_error
  /\ error_code ProviderManager.create_no_provider_error = 1.
Proof. split; reflexivity. Qed.

Example manager_allowed_providers :
  let m := run [Call_register_provider
                  (Some (LocalProvider.as_IProvider test_local));
                Call_register_provider
                  (Some (OpenAIProvider.as_IProvider test_openai))] in
  map id (ProviderManager.allowed_providers m) = ["local"%string]
  /\ length (ProviderManager.allowed_providers
               (snd (ProviderManager.set_privacy_mode PM_RemoteAllowed true m)))
     = 2%nat.
Proof. split; reflexivity. Qed.

(** * Further properties of the code *)

(** ** ProviderManager: the registry *)

(** Looking a provider up after [register_provider] and after
    [unregister_provider]: the registered provider is found under its own
    identity, an unregistered identity is no longer found, every other
    identity answers as before, and a null provider changes nothing. *)
Theorem registry_lookup_after_update :
  forall (m : ProviderManager.t) (p : IProvider) (i j : string),
    ProviderManager.get_provider
      (ProviderManager.register_provider (Some p) m) j
    = (if decide (j = id p) then Some p
       else ProviderManager.get_provider m j)
    /\ ProviderManager.get_provider
         (ProviderManager.unregister_provider i m) j
       = (if decide (j = i) then None else ProviderManager.get_provider m j)
    /\ ProviderManager.register_provider None m = m.
Proof.
  intros m p i j. split; [|split; [|reflexivity]].
  - unfold ProviderManager.get_provider, ProviderManager.register_provider.
    simpl. destruct (decide (j = id p)) as [->|Hne].
    + apply lookup_insert_eq.
    + apply lookup_insert_ne. congruence.
  - unfold ProviderManager.get_provider, ProviderManager.unregister_provider.
    destruct (ProviderManager.providers_ m !! i) as [found|] eqn:Hfound.
    + assert (Hdel : delete i (ProviderManager.providers_ m) !! j
                     = if decide (j = i) then None
                       else ProviderManager.providers_ m !! j).
      { destruct (decide (j = i)) as [->|Hne];
          [apply lookup_delete_eq|apply lookup_delete_ne; congruence]. }
      case_bool_decide; simpl; exact Hdel.
    + destruct (decide (j = i)) as [->|Hne]; [exact Hfound|reflexivity].
Qed.

(** [register_provider] and [unregister_provider] never change the privacy
    mode, and [register_provider] never changes which identity is active. *)
Theorem registry_updates_keep_mode :
  forall (m : ProviderManager.t) (provider : ProviderPtr) (i : string),
    ProviderManager.privacy_mode
      (ProviderManager.register_provider provider m)
    = ProviderManager.privacy_mode m
    /\ ProviderManager.active_provider_id_
         (ProviderManager.register_provider provider m)
       = ProviderManager.active_provider_id_ m
    /\ ProviderManager.privacy_mode
         (ProviderManager.unregister_provider i m)
       = ProviderManager.privacy_mode m.
Proof.
  intros m provider i. split; [|split].
  - destruct provider; reflexivity.
  - destruct provider; reflexivity.
  - unfold ProviderManager.unregister_provider.
    destruct (ProviderManager.providers_ m !! i); [|reflexivity].
    case_bool_decide; reflexivity.
Qed.

(** What [set_active_provider] answers tells what it did: on [true] the
    identity was registered, its provider was allowed and is now the active
    one, registry and mode untouched; on [false] nothing changed. *)
Theorem set_active_provider_outcome :
  forall (m : ProviderManager.t) (i : string),
    let after := ProviderManager.set_active_provider i m in
    if fst after
    then exists p,
           ProviderManager.get_provider m i = Some p
           /\ ProviderManager.is_provider_allowed m p = true
           /\ ProviderManager.active_provider (snd after) = Some p
           /\ ProviderManager.providers_ (snd after)
              = ProviderManager.providers_ m
           /\ ProviderManager.privacy_mode (snd after)
              = ProviderManager.privacy_mode m
    else snd after = m.
Proof.
  intros m i. unfold ProviderManager.set_active_provider.
  destruct (ProviderManager.get_provider m i) as [p|] eqn:Hp;
    [|reflexivity].
  destruct (ProviderManager.is_provider_allowed m p) eqn:Hallowed; simpl;
    [|reflexivity].
  exists p. repeat split; auto.
Qed.

(** [set_privacy_mode] never touches the registry; it answers [false] only
    for RemoteAllowed without confirmation, and then changes nothing;
    otherwise the mode is the one asked for.  Whatever is asked, an active
    provider that does not require network stays active. *)
Theorem set_privacy_mode_outcome :
  forall (m : ProviderManager.t) (mode : PrivacyMode) (confirmed : bool),
    let after := ProviderManager.set_privacy_mode mode confirmed m in
    ProviderManager.providers_ (snd after) = ProviderManager.providers_ m
    /\ fst after
       = negb (PrivacyMode_eqb mode PM_RemoteAllowed && negb confirmed)
    /\ (if fst after
        then ProviderManager.privacy_mode (snd after) = mode
        else snd after = m)
    /\ match ProviderManager.active_provider m with
       | Some p =>
           if requires_network p then True
           else ProviderManager.active_provider (snd after) = Some p
       | None => True
       end.
Proof.
  intros m mode confirmed.
  unfold ProviderManager.set_privacy_mode, ProviderManager.active_provider,
    ProviderManager.get_provider.
  destruct mode, confirmed; simpl;
    destruct (empty (ProviderManager.active_provider_id_ m)); simpl;
    destruct (ProviderManager.providers_ m
                !! ProviderManager.active_provider_id_ m) as [p|] eqn:Hp;
    simpl; try destruct (requires_network p) eqn:Hnet; simpl;
    repeat split; auto.
Qed.

(** ** ProviderManager: dispatch *)

(** [chat] and [categorize] of the manager decide exactly as
    [validate_request] does.  When it reports no failure, the call is the
    active provider's own, response and events unchanged.  When it reports
    one, no event is added and the response is a failure that used no
    remote inference, with code 1 if no provider is active and 403
    otherwise. *)
Theorem manager_dispatch_follows_validate_request :
  forall (fuel : nat) (m : ProviderManager.t) (request : LlmRequest)
         (filename filepath ctx : string) (is_directory : bool)
         (w : World) (h : Trace),
    match ProviderManager.validate_request m request,
          ProviderManager.active_provider m with
    | None, Some p =>
        ProviderManager.chat fuel m request w h = chat p fuel request w h
        /\ ProviderManager.categorize fuel m filename filepath is_directory
             ctx request w h
           = categorize p fuel filename filepath is_directory ctx request w h
    | None, None => False
    | Some _, active =>
        exists by_chat by_categorize,
          ProviderManager.chat fuel m request w h = (Some by_chat, [])
          /\ ProviderManager.categorize fuel m filename filepath is_directory
               ctx request w h = (Some by_categorize, [])
          /\ success by_chat = false
          /\ success by_categorize = false
          /\ used_remote_inference by_chat = false
          /\ used_remote_inference by_categorize = false
          /\ error_code by_chat = (if active is Some _ then 403 else 1)
          /\ error_code by_categorize
             = (if active is Some _ then 403 else 1)
    end.
Proof.
  intros fuel m request filename filepath ctx is_directory w h.
  unfold ProviderManager.validate_request, ProviderManager.chat,
    ProviderManager.categorize, ProviderManager.is_provider_allowed,
    virtual_chat, virtual_categorize.
  destruct (ProviderManager.active_provider m) as [p|].
  - destruct (requires_network p), (ProviderManager.privacy_mode_ m),
      (privacy_level request); simpl;
      try (split; reflexivity);
      (do 2 eexists; repeat split; reflexivity).
  - do 2 eexists. repeat split; reflexivity.
Qed.

(** A provider that does not require network is never held back by the
    manager: whatever the mode and the request, the manager's [chat] is the
    provider's. *)
Theorem manager_never_blocks_local_provider :
  forall (fuel : nat) (m : ProviderManager.t) (p : IProvider)
         (request : LlmRequest) (w : World) (h : Trace),
    ProviderManager.active_provider m = Some p ->
    requires_network p = false ->
    ProviderManager.validate_request m request = None
    /\ ProviderManager.chat fuel m request w h = chat p fuel request w h.
Proof.
  intros fuel m p request w h Hactive Hlocal.
  unfold ProviderManager.validate_request, ProviderManager.chat,
    ProviderManager.is_provider_allowed, virtual_chat.
  rewrite Hactive, Hlocal. split; reflexivity.
Qed.

Lemma manager_never_blocks_local_provider_witness :
  ProviderManager.validate_request (run calls_local_active)
    local_only_request = None
  /\ ProviderManager.chat 1 (run calls_local_active) local_only_request
       test_world []
     = chat (LocalProvider.as_IProvider test_local) 1 local_only_request
         test_world [].
Proof.
  apply (manager_never_blocks_local_provider 1 (run calls_local_active)
           (LocalProvider.as_IProvider test_local));
    reflexivity.
Defined.

(** ** ProviderManager: unregistering and listing *)

(** In a state reached from a fresh manager by calls whose providers
    honour the contract: unregistering the active identity leaves no
    provider active, and unregistering any other identity leaves the active
    provider as it was. *)
Theorem unregister_and_active_provider :
  forall (network_of : string -> bool) (calls : list ManagerCall)
         (i : string),
    Forall (call_honours_contract network_of) calls ->
    let m := run calls in
    ProviderManager.active_provider
      (ProviderManager.unregister_provider i m)
    = if decide (ProviderManager.active_provider_id_ m = i) then None
      else ProviderManager.active_provider m.
Proof.
  intros network_of calls i Hall m.
  assert (Hok : manager_ok network_of m) by (apply run_ok; exact Hall).
  unfold ProviderManager.active_provider, ProviderManager.get_provider,
    ProviderManager.unregister_provider.
  destruct (ProviderManager.providers_ m !! i) as [found|] eqn:Hfound.
  - case_bool_decide as Hact; simpl.
    + rewrite decide_True by assumption.
      destruct (delete i (ProviderManager.providers_ m) !! EmptyString)
        as [q|] eqn:Hq; [|reflexivity].
      apply lookup_delete_Some in Hq as [_ Hq].
      destruct (no_blank_key network_of m q Hok Hq).
    + rewrite decide_False by assumption.
      apply lookup_delete_ne. congruence.
  - destruct (decide (ProviderManager.active_provider_id_ m = i)) as [->|];
      [exact Hfound|reflexivity].
Qed.

Lemma unregister_and_active_provider_witness :
  ProviderManager.active_provider
    (ProviderManager.unregister_provider "local" (run calls_local_active))
  = None
  /\ ProviderManager.active_provider
       (ProviderManager.unregister_provider "openai"
          (run calls_local_active))
     = Some (LocalProvider.as_IProvider test_local).
Proof.
  destruct test_calls_honour_contract as [Hlocal _].
  split.
  - exact (unregister_and_active_provider builtin_network_of
             calls_local_active "local" Hlocal).
  - exact (unregister_and_active_provider builtin_network_of
             calls_local_active "openai" Hlocal).
Defined.

(** [all_providers] lists exactly the registered providers, once per
    identity, and [allowed_providers] exactly those of them that
    [is_provider_allowed] accepts; under RemoteAllowed the two lists are
    the same. *)
Theorem provider_listings :
  forall (m : ProviderManager.t) (p : IProvider),
    (In p (ProviderManager.all_providers m)
     <-> exists i, ProviderManager.get_provider m i = Some p)
    /\ length (ProviderManager.all_providers m)
       = size (ProviderManager.providers_ m)
    /\ (In p (ProviderManager.allowed_providers m)
        <-> In p (ProviderManager.all_providers m)
            /\ ProviderManager.is_provider_allowed m p = true)
    /\ (if ProviderManager.remote_allowed m
        then ProviderManager.allowed_providers m
             = ProviderManager.all_providers m
        else Forall (fun q => requires_network q = false)
               (ProviderManager.allowed_providers m)).
Proof.
  intros m p. split; [|split; [|split]].
  - unfold ProviderManager.all_providers, ProviderManager.get_provider.
    rewrite <- list_elem_of_In, list_elem_of_fmap. split.
    + intros [[i q] [-> Hin]]. exists i.
      now apply elem_of_map_to_list in Hin.
    + intros [i Hi]. exists (i, p). split; [reflexivity|].
      now apply elem_of_map_to_list.
  - unfold ProviderManager.all_providers.
    rewrite length_fmap. apply length_map_to_list.
  - unfold ProviderManager.allowed_providers. apply List.filter_In.
  - unfold ProviderManager.allowed_providers, ProviderManager.remote_allowed,
      ProviderManager.is_provider_allowed.
    destruct (PrivacyMode_eqb (ProviderManager.privacy_mode_ m)
                PM_RemoteAllowed).
    + induction (ProviderManager.all_providers m) as [|q l IH];
        [reflexivity|].
      simpl. destruct (requires_network q); simpl; now rewrite IH.
    + apply List.Forall_forall. intros q Hq.
      apply List.filter_In in Hq as [_ Hq].
      destruct (requires_network q); [discriminate|reflexivity].
Qed.

(** ** OllamaCloudProvider: the request that is sent *)

Lemma append_slash_nonempty (s : string) : s +:+ "/" <> EmptyString.
Proof. destruct s; discriminate. Qed.

Lemma back_cons (c : ascii) (t : string) :
  t <> EmptyString -> back (String c t) = back t.
Proof. destruct t; [congruence|reflexivity]. Qed.

Lemma pop_back_cons (c : ascii) (t : string) :
  t <> EmptyString -> pop_back (String c t) = String c (pop_back t).
Proof. destruct t; [congruence|reflexivity]. Qed.

Lemma back_append_slash (s : string) : back (s +:+ "/") = Some "/"%char.
Proof.
  induction s as [|c s IH]; [reflexivity|].
  rewrite append_cons, back_cons by apply append_slash_nonempty. exact IH.
Qed.

Lemma pop_back_append_slash (s : string) : pop_back (s +:+ "/") = s.
Proof.
  induction s as [|c s IH]; [reflexivity|].
  rewrite append_cons, pop_back_cons by apply append_slash_nonempty.
  now rewrite IH.
Qed.

(** [make_request] adds exactly one transport event.  Its URL is the base
    URL with one trailing slash removed, followed by the endpoint, so a
    base URL written with or without the final slash addresses the same
    URL; the headers are Content-Type, followed by a bearer Authorization
    header exactly when an API key is configured. *)
Theorem make_request_url_and_headers :
  forall (s key model_id : string) (tm mr bb : Z)
         (client : option HttpClient)
         (endpoint method payload : string) (timeout : Z)
         (w : World) (h : Trace),
    let provider base :=
      OllamaCloudProvider.mk
        (OllamaCloudConfig.mk base key model_id tm mr bb) client in
    let sent :=
      [EvHttp (s +:+ endpoint) method payload
         (("Content-Type"%string, "application/json"%string)
          :: (if empty key then []
              else [("Authorization"%string, "Bearer " +:+ key)]))
         timeout] in
    events (OllamaCloudProvider.make_request (provider (s +:+ "/")) endpoint
              method payload timeout) w h = sent
    /\ (back s <> Some "/"%char ->
        events (OllamaCloudProvider.make_request (provider s) endpoint
                  method payload timeout) w h = sent).
Proof.
  intros s key model_id tm mr bb client endpoint method payload timeout w h
         provider sent.
  unfold events. rewrite !make_request_run. cbn [snd].
  unfold sent, request_url, request_headers, provider. cbn.
  rewrite back_append_slash, pop_back_append_slash.
  rewrite bool_decide_eq_true_2 by reflexivity.
  destruct (s +:+ "/") eqn:Hs; [destruct (append_slash_nonempty s Hs)|].
  cbn [empty negb andb]. split.
  - destruct (empty key); reflexivity.
  - intros Hback. rewrite bool_decide_eq_false_2 by assumption.
    rewrite andb_false_r. destruct (empty key); reflexivity.
Qed.

Lemma make_request_url_and_headers_witness :
  events (OllamaCloudProvider.make_request
            (OllamaCloudProvider.mk
               (OllamaCloudConfig.mk "https://example.com" "secret"
                  "llama3.2" 30000 3 1000) None)
            "/api/chat" "POST" "{}" 30000) test_world []
  = [EvHttp "https://example.com/api/chat" "POST" "{}"
       [("Content-Type"%string, "application/json"%string);
        ("Authorization"%string, "Bearer secret"%string)] 30000].
Proof.
  destruct (make_request_url_and_headers "https://example.com" "secret"
              "llama3.2" 30000 3 1000 None "/api/chat" "POST" "{}" 30000
              test_world []) as [_ Hplain].
  apply Hplain. discriminate.
Defined.

(** ** OllamaCloudProvider: escaping *)

(** Each character is either copied (then it is none of the five special
    ones) or replaced by a backslash and a letter that names it. *)
Lemma escape_char_cases (c : ascii) :
  (OllamaCloudProvider.escape_char c = String c EmptyString
   /\ c <> ascii_of_nat 92 /\ c <> ascii_of_nat 34
   /\ c <> ascii_of_nat 10 /\ c <> ascii_of_nat 13 /\ c <> ascii_of_nat 9)
  \/ (exists x,
        OllamaCloudProvider.escape_char c
        = String (ascii_of_nat 92) (String x EmptyString)
        /\ existsb (ascii_eqb x)
             [ascii_of_nat 34; ascii_of_nat 92; "n"%char; "r"%char; "t"%char]
           = true
        /\ c = match x with
               | "n"%char => ascii_of_nat 10
               | "r"%char => ascii_of_nat 13
               | "t"%char => ascii_of_nat 9
               | other => other
               end).
Proof.
  destruct c as [[] [] [] [] [] [] [] []];
    first [ left; repeat split; (reflexivity || discriminate)
          | right; eexists; repeat split; reflexivity ].
Qed.

(** [escape_json_string] loses nothing: two texts with the same escaped
    form are the same text. *)
Theorem escape_json_string_injective :
  forall s1 s2 : string,
    OllamaCloudProvider.escape_json_string s1
    = OllamaCloudProvider.escape_json_string s2 ->
    s1 = s2.
Proof.
  induction s1 as [|c1 s1 IH]; intros [|c2 s2] Heq.
  - reflexivity.
  - exfalso. cbn [OllamaCloudProvider.escape_json_string] in Heq.
    destruct (escape_char_cases c2) as [[E _]|[x [E _]]];
      rewrite E in Heq; discriminate.
  - exfalso. cbn [OllamaCloudProvider.escape_json_string] in Heq.
    destruct (escape_char_cases c1) as [[E _]|[x [E _]]];
      rewrite E in Heq; discriminate.
  - cbn [OllamaCloudProvider.escape_json_string] in Heq.
    destruct (escape_char_cases c1) as [[E1 [N1 _]]|[x1 [E1 [_ D1]]]],
             (escape_char_cases c2) as [[E2 [N2 _]]|[x2 [E2 [_ D2]]]];
      rewrite E1, E2 in Heq; rewrite ?append_cons in Heq;
      change (EmptyString +:+ ?t) with t in Heq.
    + injection Heq as -> Hrest. f_equal. now apply IH.
    + injection Heq as Hc _. congruence.
    + injection Heq as Hc _. congruence.
    + injection Heq as Hx Hrest. subst x2. f_equal; [congruence|].
      now apply IH.
Qed.

Lemma escape_json_string_injective_witness :
  String (ascii_of_nat 10) "a" = String (ascii_of_nat 10) "a".
Proof.
  apply (escape_json_string_injective (String (ascii_of_nat 10) "a")
           (String (ascii_of_nat 10) "a")).
  reflexivity.
Defined.

Lemma stays_inside_quotes_step (c : ascii) (rest : string) :
  stays_inside_quotes rest = true ->
  stays_inside_quotes (OllamaCloudProvider.escape_char c +:+ rest) = true.
Proof.
  intros Hrest.
  destruct (escape_char_cases c) as [[E (N1 & N2 & _)]|[x (E & Hx & _)]];
    rewrite E, ?append_cons; change (EmptyString +:+ ?t) with t.
  - cbn [stays_inside_quotes]. unfold ascii_eqb.
    rewrite (proj2 (Ascii.eqb_neq _ _) N1), (proj2 (Ascii.eqb_neq _ _) N2).
    exact Hrest.
  - cbn [stays_inside_quotes]. unfold ascii_eqb at 1.
    rewrite Ascii.eqb_refl, Hx. exact Hrest.
Qed.

(** The escaped text cannot end the JSON string it is put in, and it is at
    least as long as the text and at most twice as long (the capacity the
    source reserves). *)
Theorem escape_json_string_stays_inside_quotes :
  forall s : string,
    stays_inside_quotes (OllamaCloudProvider.escape_json_string s) = true
    /\ (String.length s
        <= String.length (OllamaCloudProvider.escape_json_string s)
        <= 2 * String.length s)%nat.
Proof.
  induction s as [|c s [IHq IHl]]; [split; [reflexivity|cbn; lia]|].
  cbn [OllamaCloudProvider.escape_json_string]. split.
  - now apply stays_inside_quotes_step.
  - destruct (escape_char_cases c) as [[E _]|[x [E _]]];
      rewrite E, ?append_cons; change (EmptyString +:+ ?t) with t;
      cbn [String.length]; lia.
Qed.

(** ** OllamaCloudProvider: reading the answer *)

Lemma parse_chat_response_names (J : JsonCpp) (p : OllamaCloudProvider.t)
      (r : HttpResponse) (elapsed : Z) :
  provider_id (OllamaCloudProvider.parse_chat_response p r elapsed)
  = "ollama-cloud"%string
  /\ model_used (OllamaCloudProvider.parse_chat_response p r elapsed)
     = OllamaCloudConfig.model (OllamaCloudProvider.config_ p).
Proof.
  unfold OllamaCloudProvider.parse_chat_response.
  destruct (http_success r); cbn [negb andb].
  - destruct (parseFromStream (body r)) as [root|errors];
      [|split; reflexivity].
    destruct (isMember root "message"
              && isMember (member root "message") "content"),
      (isMember root "response"), (isMember root "error"),
      (isMember root "prompt_eval_count"), (isMember root "eval_count");
      split; reflexivity.
  - destruct (0 <? status_code r); split; reflexivity.
Qed.

(** What [parse_chat_response] reports, by what the transport and jsoncpp
    answered.  A status outside 2xx: a failure whose error code is that
    status, with no text.  A 2xx status and a body that jsoncpp rejects
    with [errors]: a failure with error code 3 whose message quotes
    [errors].  A 2xx status and a body parsed to a document on which every
    accessor call returns: a success exactly when the document has
    [message.content] or [response], with that member as text; the error
    code is 0 in both cases, so a failure that the server reports in a 2xx
    body carries no error code; the token counts are those of
    [prompt_eval_count] and [eval_count], 0 where absent, and the total is
    their sum when it fits an [int].  Every one of these responses counts
    as remote inference. *)
Theorem parse_chat_response_report :
  forall (J : JsonCpp) (K : JsonKinds J) (p : OllamaCloudProvider.t)
         (r : HttpResponse) (elapsed : Z),
    let response := OllamaCloudProvider.parse_chat_response p r elapsed in
    (http_success r = false ->
     success response = false
     /\ error_code response = status_code r
     /\ text response = EmptyString
     /\ used_remote_inference response = true)
    /\ (forall errors,
          http_success r = true ->
          parseFromStream (body r) = inr errors ->
          success response = false
          /\ error_code response = 3
          /\ error_message response
             = "Failed to parse JSON response: " +:+ errors
          /\ text response = EmptyString
          /\ used_remote_inference response = true)
    /\ (forall root,
          http_success r = true ->
          parseFromStream (body r) = inl root ->
          parse_stays_in_kind root = true ->
          let has_content :=
            isMember root "message"
            && isMember (member root "message") "content" in
          success response = has_content || isMember root "response"
          /\ error_code response = 0
          /\ text response
             = (if has_content
                then asString (member (member root "message") "content")
                else if isMember root "response"
                then asString (member root "response")
                else EmptyString)
          /\ prompt_tokens (usage response)
             = (if isMember root "prompt_eval_count"
                then asInt (member root "prompt_eval_count") else 0)
          /\ completion_tokens (usage response)
             = (if isMember root "eval_count"
                then asInt (member root "eval_count") else 0)
          /\ (INT_MIN <= prompt_tokens (usage response)
                          + completion_tokens (usage response) <= INT_MAX ->
              total_tokens (usage response)
              = prompt_tokens (usage response)
                + completion_tokens (usage response))
          /\ used_remote_inference response = true).
Proof.
  intros J K p r elapsed response. unfold response,
    OllamaCloudProvider.parse_chat_response.
  split; [|split].
  - intros ->. cbn [negb].
    destruct (0 <? status_code r); repeat split; reflexivity.
  - intros errors -> ->. cbn [negb]. repeat split; reflexivity.
  - intros root -> -> _. cbn [negb]. cbv zeta.
    destruct (isMember root "message"
              && isMember (member root "message") "content"),
      (isMember root "response"), (isMember root "error"),
      (isMember root "prompt_eval_count"), (isMember root "eval_count");
      repeat split; try reflexivity;
      intros Hfits; cbn in Hfits |- *; apply wrap32_small; exact Hfits.
Qed.

Lemma parse_chat_response_report_witness :
  let response :=
    @OllamaCloudProvider.parse_chat_response tiny_json (test_ollama 200)
      (mkHttpResponse 200 "reply" EmptyString) 12 in
  success response = true
  /\ text response = "Images : Photos"%string
  /\ error_code response = 0
  /\ total_tokens (usage response) = 17.
Proof.
  intros response.
  destruct (parse_chat_response_report tiny_json tiny_kinds (test_ollama 200)
              (mkHttpResponse 200 "reply" EmptyString) 12)
    as (_ & _ & Hparsed).
  destruct (Hparsed chat_reply eq_refl eq_refl eq_refl)
    as (Hsuccess & Hcode & Htext & _ & _ & Htotal & _).
  split; [exact Hsuccess|]. split; [exact Htext|]. split; [exact Hcode|].
  apply Htotal. vm_compute. split; discriminate.
Defined.

(** An answer whose [response] is a list stands outside the third case:
    [asString] does not return on it. *)
Remark odd_reply_leaves_kind :
  @parse_stays_in_kind tiny_json tiny_kinds chat_reply = true
  /\ @parse_stays_in_kind tiny_json tiny_kinds odd_reply = false.
Proof. split; reflexivity. Qed.

(** A status outside 2xx is reported without looking at the body: the
    response is the same for every body and every JSON parser. *)
Theorem parse_chat_response_ignores_body_on_failure :
  forall (J1 J2 : JsonCpp) (p : OllamaCloudProvider.t) (r : HttpResponse)
         (other_body : string) (elapsed : Z),
    http_success r = false ->
    @OllamaCloudProvider.parse_chat_response J1 p r elapsed
    = @OllamaCloudProvider.parse_chat_response J2 p
        (mkHttpResponse (status_code r) other_body (error r)) elapsed
    /\ text (@OllamaCloudProvider.parse_chat_response J1 p r elapsed)
       = EmptyString.
Proof.
  intros J1 J2 p r other_body elapsed Hfail.
  unfold OllamaCloudProvider.parse_chat_response, http_success in *.
  cbn [status_code error]. rewrite Hfail. cbn [negb].
  destruct (0 <? status_code r); split; reflexivity.
Qed.

Lemma parse_chat_response_ignores_body_on_failure_witness :
  @OllamaCloudProvider.parse_chat_response no_json (test_ollama 503)
    (mkHttpResponse 503 "Service Unavailable" EmptyString) 12
  = @OllamaCloudProvider.parse_chat_response no_json (test_ollama 503)
      (mkHttpResponse 503 "{}" EmptyString) 12
  /\ text (@OllamaCloudProvider.parse_chat_response no_json (test_ollama 503)
             (mkHttpResponse 503 "Service Unavailable" EmptyString) 12)
     = EmptyString.
Proof.
  apply (parse_chat_response_ignores_body_on_failure no_json no_json
           (test_ollama 503)
           (mkHttpResponse 503 "Service Unavailable" EmptyString) "{}" 12).
  reflexivity.
Defined.

(** ** OllamaCloudProvider: edges of [chat] *)

(** With a negative [max_retries] the loop body never runs: [chat] makes no
    transport call at all and still answers, with a failure that claims
    remote inference and carries error code 0 and the request's privacy
    level. *)
Theorem chat_with_negative_max_retries :
  forall (J : JsonCpp) (p : OllamaCloudProvider.t) (request : LlmRequest)
         (w : World) (h : Trace) (fuel : nat),
    passes_privacy_checks request ->
    OllamaCloudProvider.is_configured p = true ->
    max_retries request < 0 ->
    (0 < fuel)%nat ->
    exists response,
      OllamaCloudProvider.chat fuel p request w h = (Some response, [])
      /\ success response = false
      /\ error_code response = 0
      /\ error_message response = "HTTP request failed: "%string
      /\ used_remote_inference response = true
      /\ actual_privacy_level response = privacy_level request.
Proof.
  intros J p request w h fuel Hpasses Hconf Hneg Hfuel.
  destruct fuel as [|fuel]; [lia|].
  rewrite (ollama_chat_run p request w h Hpasses Hconf).
  rewrite retry_loop_not_entered by lia.
  eexists. split; [reflexivity|]. repeat split; reflexivity.
Qed.

Lemma chat_with_negative_max_retries_witness :
  exists response,
    @OllamaCloudProvider.chat no_json 1 (test_ollama 200)
      (mkLlmRequest [mkChatMessage User "test"] EmptyString float_0_7
         float_1_0 256 30000 MetadataOnly false 200 (-1) 1000)
      test_world []
    = (Some response, [])
    /\ success response = false
    /\ error_code response = 0
    /\ error_message response = "HTTP request failed: "%string
    /\ used_remote_inference response = true
    /\ actual_privacy_level response = MetadataOnly.
Proof.
  apply (chat_with_negative_max_retries no_json (test_ollama 200)
           (mkLlmRequest [mkChatMessage User "test"] EmptyString float_0_7
              float_1_0 256 30000 MetadataOnly false 200 (-1) 1000)
           test_world [] 1).
  - split; [discriminate|right; discriminate].
  - reflexivity.
  - cbn. lia.
  - lia.
Defined.

(** Without a base URL or without a model id the self-hosted provider
    fails fast: once the request is not marked LocalOnly, [categorize]
    answers error code 1 with no event, and so does [chat] for a request
    that passes its privacy checks. *)
Theorem ollama_unconfigured_fails_fast :
  forall (J : JsonCpp) (p : OllamaCloudProvider.t) (request : LlmRequest)
         (filename filepath ctx : string) (is_directory : bool)
         (w : World) (h : Trace) (fuel : nat),
    OllamaCloudProvider.is_configured p = false ->
    privacy_level request <> LocalOnly ->
    let refusal :=
      OllamaCloudProvider.create_config_error p
        "Ollama Cloud provider not configured: base_url or model missing" in
    error_code refusal = 1
    /\ success refusal = false
    /\ used_remote_inference refusal = false
    /\ OllamaCloudProvider.categorize fuel p filename filepath is_directory
         ctx request w h = (Some refusal, [])
    /\ (passes_privacy_checks request ->
        OllamaCloudProvider.chat fuel p request w h = (Some refusal, [])).
Proof.
  intros J p request filename filepath ctx is_directory w h fuel Hconf Hlevel
         refusal.
  assert (Hl : PrivacyLevel_eqb (privacy_level request) LocalOnly = false)
    by (destruct (privacy_level request); (reflexivity || congruence)).
  repeat split.
  - unfold OllamaCloudProvider.categorize. rewrite Hl, Hconf. reflexivity.
  - intros Hpasses.
    destruct (passes_privacy_checks_bool request Hpasses) as [_ Hc2].
    unfold OllamaCloudProvider.chat. rewrite Hl, Hc2, Hconf. reflexivity.
Qed.

Lemma ollama_unconfigured_fails_fast_witness :
  @OllamaCloudProvider.categorize no_json 1 ollama_without_model "photo.jpg"
    "/home/user/photo.jpg" false EmptyString full_content_request
    test_world []
  = (Some (OllamaCloudProvider.create_config_error ollama_without_model
             "Ollama Cloud provider not configured: base_url or model missing"),
     [])
  /\ @OllamaCloudProvider.chat no_json 1 ollama_without_model mixed_request
       test_world []
     = (Some (OllamaCloudProvider.create_config_error ollama_without_model
                "Ollama Cloud provider not configured: base_url or model missing"),
        []).
Proof.
  split.
  - destruct (ollama_unconfigured_fails_fast no_json ollama_without_model
                full_content_request "photo.jpg" "/home/user/photo.jpg"
                EmptyString false test_world [] 1 eq_refl)
      as (_ & _ & _ & Hcat & _); [discriminate|exact Hcat].
  - destruct (ollama_unconfigured_fails_fast no_json ollama_without_model
                mixed_request "photo.jpg" "/home/user/photo.jpg"
                EmptyString false test_world [] 1 eq_refl)
      as (_ & _ & _ & _ & Hchat); [discriminate|].
    apply Hchat. exact mixed_request_passes.
Defined.

(** ** Categorization without upload consent: the path stays on the device *)

(** [OpenAIProvider::categorize], upload not consented to and the level
    below FullContent: the answer and the events are the same whatever the
    file path is, and the client is handed a blank path. *)
Theorem openai_categorize_withholds_path :
  forall (p : OpenAIProvider.t) (request : LlmRequest)
         (filename path1 path2 ctx : string) (is_directory : bool)
         (w : World) (h : Trace),
    allow_content_upload request = false ->
    privacy_level request <> FullContent ->
    OpenAIProvider.categorize p filename path1 is_directory ctx request w h
    = OpenAIProvider.categorize p filename path2 is_directory ctx request w h
    /\ Forall (fun e => match e with
                        | EvCategorizeFile _ sent_path _ _ =>
                            sent_path = EmptyString
                        | _ => True
                        end)
         (events (OpenAIProvider.categorize p filename path1 is_directory
                    ctx request) w h).
Proof.
  intros p request filename path1 path2 ctx is_directory w h Hallow Hlevel.
  assert (Hf : PrivacyLevel_eqb (privacy_level request) FullContent = false)
    by (destruct (privacy_level request); (reflexivity || congruence)).
  unfold OpenAIProvider.categorize. rewrite Hallow, Hf. cbn [orb].
  split; [reflexivity|].
  destruct (PrivacyLevel_eqb (privacy_level request) LocalOnly);
    [constructor|].
  destruct (negb (OpenAIProvider.is_configured p)); [constructor|].
  unfold OpenAIProvider.create_client. unfold_m. simpl.
  rewrite ?app_nil_r.
  destruct (OpenAIProvider.client_factory_ p) as [factory|]; simpl.
  - destruct (factory h _ _) as [client|what]; simpl;
      [|repeat constructor].
    destruct (categorize_file client _ _ _ _); repeat constructor.
  - destruct (make_LLMClient w h _ _) as [client|what]; simpl;
      [|repeat constructor].
    destruct (categorize_file client _ _ _ _); repeat constructor.
Qed.

Lemma openai_categorize_withholds_path_witness :
  OpenAIProvider.categorize test_openai "photo.jpg" "/home/user/photo.jpg"
    false EmptyString mixed_request test_world []
  = OpenAIProvider.categorize test_openai "photo.jpg" "/srv/other/photo.jpg"
      false EmptyString mixed_request test_world []
  /\ snd (OpenAIProvider.categorize test_openai "photo.jpg"
            "/home/user/photo.jpg" false EmptyString mixed_request
            test_world [])
     = [EvCreateClient ["test-api-key"%string; "gpt-4o-mini"%string];
        EvCategorizeFile "photo.jpg" EmptyString File EmptyString].
Proof.
  destruct (openai_categorize_withholds_path test_openai mixed_request
              "photo.jpg" "/home/user/photo.jpg" "/srv/other/photo.jpg"
              EmptyString false test_world [] eq_refl) as [Hsame _];
    [discriminate|].
  split; [exact Hsame|reflexivity].
Defined.

(** [OllamaCloudProvider::categorize] under the same conditions: the
    answer and the events, hence the payload that is posted, do not depend
    on the file path; nor do they depend on the messages of the base
    request, which are replaced. *)
Theorem ollama_categorize_withholds_path :
  forall (J : JsonCpp) (p : OllamaCloudProvider.t) (request : LlmRequest)
         (filename path1 path2 ctx : string) (is_directory : bool)
         (base_messages : list ChatMessage)
         (w : World) (h : Trace) (fuel : nat),
    allow_content_upload request = false ->
    privacy_level request <> FullContent ->
    OllamaCloudProvider.categorize fuel p filename path1 is_directory ctx
      (set_messages base_messages request) w h
    = OllamaCloudProvider.categorize fuel p filename path2 is_directory ctx
        request w h.
Proof.
  intros J p request filename path1 path2 ctx is_directory base_messages w h
         fuel Hallow Hlevel.
  assert (Hf : PrivacyLevel_eqb (privacy_level request) FullContent = false)
    by (destruct (privacy_level request); (reflexivity || congruence)).
  unfold OllamaCloudProvider.categorize.
  cbn [privacy_level allow_content_upload set_messages].
  rewrite Hallow, Hf. reflexivity.
Qed.

Lemma ollama_categorize_withholds_path_witness :
  @OllamaCloudProvider.categorize no_json 2 (test_ollama 404) "photo.jpg"
    "/home/user/photo.jpg" false EmptyString
    (set_messages [mkChatMessage User "old"] mixed_request) test_world []
  = @OllamaCloudProvider.categorize no_json 2 (test_ollama 404) "photo.jpg"
      "/srv/other/photo.jpg" false EmptyString mixed_request test_world [].
Proof.
  apply (ollama_categorize_withholds_path no_json (test_ollama 404)
           mixed_request "photo.jpg" "/home/user/photo.jpg"
           "/srv/other/photo.jpg" EmptyString false
           [mkChatMessage User "old"] test_world [] 2 eq_refl).
  discriminate.
Defined.

(** ** The request's model id is not consulted *)



(** Every response of [chat], successful or not, names the provider that
    produced it and the model that provider is configured with. *)
Theorem responses_name_provider_and_configured_model :
  forall (J : JsonCpp) (local : LocalProvider.t) (openai : OpenAIProvider.t)
         (ollama : OllamaCloudProvider.t) (request : LlmRequest)
         (w : World) (h : Trace) (fuel : nat),
    (provider_id (value (LocalProvider.chat local request) w h)
     = "local"%string
     /\ model_used (value (LocalProvider.chat local request) w h)
        = LocalProvider.model_path_ local)
    /\ (provider_id (value (OpenAIProvider.chat openai request) w h)
        = "openai"%string
        /\ model_used (value (OpenAIProvider.chat openai request) w h)
           = OpenAIProvider.model_ openai)
    /\ match value (OllamaCloudProvider.chat fuel ollama request) w h with
       | Some response =>
           provider_id response = "ollama-cloud"%string
           /\ model_used response
              = OllamaCloudConfig.model (OllamaCloudProvider.config_ ollama)
       | None => True
       end.
Proof.
  intros J local openai ollama request w h fuel. split; [|split].
  - unfold LocalProvider.chat, LocalProvider.is_configured,
      LocalProvider.create_client.
    unfold_m. simpl. split_cases; auto.
  - unfold OpenAIProvider.chat, OpenAIProvider.create_client.
    unfold_m. simpl. split_cases; auto.
  - unfold OllamaCloudProvider.chat, value, bind, ret, now,
      OllamaCloudProvider.build_chat_payload.
    destruct (PrivacyLevel_eqb (privacy_level request) LocalOnly);
      [split; reflexivity|].
    destruct (negb (allow_content_upload request)
              && PrivacyLevel_eqb (privacy_level request) FullContent);
      [split; reflexivity|].
    destruct (negb (OllamaCloudProvider.is_configured ollama));
      [split; reflexivity|].
    cbn [fst snd].
    destruct (OllamaCloudProvider.retry_loop _ _ _ _ _ _ _ _)
      as [[r|] evs]; cbn [fst snd]; [|exact I].
    match goal with
    | |- context [OllamaCloudProvider.parse_chat_response ollama r ?e] =>
        destruct (parse_chat_response_names J ollama r e) as [Hid Hmodel]
    end.
    split; [exact Hid|exact Hmodel].
Qed.

(** ** OpenAIProvider: configuration and failures *)

(** Without an API key the commercial provider fails fast: [chat] (for a
    request that passes the privacy checks) and [categorize] (for a request
    not marked LocalOnly) answer error code 1, create no client, and report
    no remote inference; the response carries the request's privacy
    level. *)
Theorem openai_unconfigured_fails_fast :
  forall (p : OpenAIProvider.t) (request : LlmRequest)
         (filename filepath ctx : string) (is_directory : bool)
         (w : World) (h : Trace),
    OpenAIProvider.is_configured p = false ->
    passes_privacy_checks request ->
    let by_chat := OpenAIProvider.chat p request w h in
    let by_categorize :=
      OpenAIProvider.categorize p filename filepath is_directory ctx request
        w h in
    by_chat = by_categorize
    /\ snd by_chat = []
    /\ success (fst by_chat) = false
    /\ error_code (fst by_chat) = 1
    /\ used_remote_inference (fst by_chat) = false
    /\ actual_privacy_level (fst by_chat) = privacy_level request.
Proof.
  intros p request filename filepath ctx is_directory w h Hconf Hpasses.
  destruct (passes_privacy_checks_bool request Hpasses) as [Hc1 Hc2].
  unfold OpenAIProvider.chat, OpenAIProvider.categorize.
  rewrite Hc1, Hc2, Hconf. repeat split; reflexivity.
Qed.

Lemma openai_unconfigured_fails_fast_witness :
  OpenAIProvider.chat (OpenAIProvider.new EmptyString EmptyString None)
    mixed_request test_world []
  = OpenAIProvider.categorize (OpenAIProvider.new EmptyString EmptyString None)
      "photo.jpg" "/home/user/photo.jpg" false EmptyString mixed_request
      test_world []
  /\ error_code
       (fst (OpenAIProvider.chat
               (OpenAIProvider.new EmptyString EmptyString None)
               mixed_request test_world [])) = 1.
Proof.
  destruct (openai_unconfigured_fails_fast
              (OpenAIProvider.new EmptyString EmptyString None) mixed_request
              "photo.jpg" "/home/user/photo.jpg" EmptyString false test_world
              [] eq_refl mixed_request_passes)
    as (Hsame & _ & _ & Hcode & _).
  split; [exact Hsame|exact Hcode].
Defined.

(** Once the checks are passed, [OpenAIProvider::chat] ends in one of two
    ways.  Either the client was created and answered, and the response is
    a success whose text is that answer; or creating the client or the call
    threw, and the response is a failure with error code 2 whose message is
    the label "OpenAI request failed: " followed by the exception's text.
    In both it reports remote inference and the request's privacy level. *)
Theorem openai_chat_wraps_failures :
  forall (p : OpenAIProvider.t) (request : LlmRequest) (w : World)
         (h : Trace),
    passes_privacy_checks request ->
    OpenAIProvider.is_configured p = true ->
    let response := value (OpenAIProvider.chat p request) w h in
    used_remote_inference response = true
    /\ actual_privacy_level response = privacy_level request
    /\ ((exists client,
           value (OpenAIProvider.create_client p) w h = Ok client
           /\ complete_prompt client
                (OpenAIProvider.combined_prompt (messages request))
                (max_tokens request) = Ok (text response)
           /\ success response = true
           /\ error_code response = 0)
        \/ (exists what,
              success response = false
              /\ error_code response = 2
              /\ error_message response
                 = "OpenAI request failed: " +:+ what
              /\ text response = EmptyString
              /\ (value (OpenAIProvider.create_client p) w h = Throw what
                  \/ exists client,
                       value (OpenAIProvider.create_client p) w h = Ok client
                       /\ complete_prompt client
                            (OpenAIProvider.combined_prompt
                               (messages request))
                            (max_tokens request) = Throw what))).
Proof.
  intros p request w h Hpasses Hconf.
  destruct (passes_privacy_checks_bool request Hpasses) as [Hc1 Hc2].
  unfold OpenAIProvider.chat. rewrite Hc1, Hc2, Hconf.
  unfold OpenAIProvider.create_client. unfold_m. simpl.
  rewrite ?app_nil_r.
  destruct (OpenAIProvider.client_factory_ p) as [factory|]; simpl.
  - destruct (factory h (OpenAIProvider.api_key_ p)
                (OpenAIProvider.model_ p)) as [client|what]; simpl.
    + destruct (complete_prompt client _ _) as [answer|what] eqn:Hcall;
        simpl; repeat split.
      * left. exists client. repeat split. exact Hcall.
      * right. exists what. repeat split. right. exists client. auto.
    + repeat split. right. exists what. repeat split. now left.
  - destruct (make_LLMClient w h (OpenAIProvider.api_key_ p)
                (OpenAIProvider.model_ p)) as [client|what]; simpl.
    + destruct (complete_prompt client _ _) as [answer|what] eqn:Hcall;
        simpl; repeat split.
      * left. exists client. repeat split. exact Hcall.
      * right. exists what. repeat split. right. exists client. auto.
    + repeat split. right. exists what. repeat split. now left.
Qed.

Lemma openai_chat_wraps_failures_witness :
  let failing :=
    OpenAIProvider.new "test-api-key" "gpt-4o-mini"
      (Some (fun _ _ _ =>
               Ok (mkILLMClient (fun _ _ => Throw "timeout")
                                (fun _ _ _ _ => Throw "timeout")))) in
  used_remote_inference
    (value (OpenAIProvider.chat failing mixed_request) test_world [])
  = true
  /\ error_message
       (value (OpenAIProvider.chat failing mixed_request) test_world [])
     = "OpenAI request failed: timeout"%string.
Proof.
  intros failing.
  destruct (openai_chat_wraps_failures failing mixed_request test_world []
              mixed_request_passes eq_refl) as (Hremote & _ & _).
  split; [exact Hremote|reflexivity].
Defined.

(** The model id of the commercial provider is never blank: the
    constructor and [set_model] put the default id in place of a blank one,
    and [set_api_key] leaves the model alone. *)
Theorem openai_model_never_blank :
  forall (api_key model_id key' : string)
         (factory : option OpenAIClientFactory),
    let p := OpenAIProvider.new api_key model_id factory in
    OpenAIProvider.model_ p <> EmptyString
    /\ OpenAIProvider.model_ p
       = (if empty model_id then "gpt-4o-mini"%string else model_id)
    /\ OpenAIProvider.model_ (OpenAIProvider.set_model model_id p)
       = OpenAIProvider.model_ p
    /\ OpenAIProvider.model_ (OpenAIProvider.set_api_key key' p)
       = OpenAIProvider.model_ p
    /\ OpenAIProvider.set_model EmptyString p
       = OpenAIProvider.new api_key EmptyString factory.
Proof.
  intros api_key model_id key' factory p. unfold p.
  destruct model_id; repeat split; discriminate.
Qed.

(** ** LocalProvider: prompt and outcomes *)

(** [build_prompt] flattens a conversation message by message: the prompt
    of two conversations put end to end is the two prompts put end to end,
    and each message contributes its role label, its content and a blank
    line, whatever its role. *)
Theorem build_prompt_composes :
  forall (before after : list ChatMessage) (msg : ChatMessage),
    LocalProvider.build_prompt (before ++ after)
    = LocalProvider.build_prompt before +:+ LocalProvider.build_prompt after
    /\ LocalProvider.build_prompt [msg]
       = (match role msg with
          | System => "System: "
          | User => "User: "
          | Assistant => "Assistant: "
          end) +:+ content msg +:+ nl +:+ nl.
Proof.
  intros before after msg. split.
  - induction before as [|m before IH]; [reflexivity|].
    cbn [app LocalProvider.build_prompt]. rewrite IH.
    symmetry. apply append_assoc.
  - cbn [LocalProvider.build_prompt]. rewrite append_empty_r.
    destruct (role msg); rewrite ?append_assoc; reflexivity.
Qed.


(** ** Health, configuration and capabilities *)

(** For the local and the commercial provider the health check answers
    Healthy exactly when the provider is configured, and neither check adds
    an event. *)
Theorem healthy_iff_configured :
  forall (local : LocalProvider.t) (openai : OpenAIProvider.t) (w : World)
         (h : Trace),
    (LocalProvider.health_check local w h
     = (if value (LocalProvider.is_configured local) w h then Healthy
        else if empty (LocalProvider.model_path_ local) then NotConfigured
             else Unavailable, []))
    /\ (OpenAIProvider.health_check openai w h
        = (if OpenAIProvider.is_configured openai then Healthy
           else NotConfigured, [])).
Proof.
  intros local openai w h. split.
  - unfold LocalProvider.health_check, LocalProvider.is_configured.
    unfold_m. simpl.
    destruct (empty (LocalProvider.model_path_ local)); simpl;
      [reflexivity|].
    destruct (bool_decide (is_Some (fs_status w _))); reflexivity.
  - unfold OpenAIProvider.health_check, OpenAIProvider.is_configured.
    destruct (empty (OpenAIProvider.api_key_ openai)); reflexivity.
Qed.

(** For the self-hosted provider: a configured provider is never reported
    NotConfigured, a health check that answers NotConfigured made no
    transport call, and every other answer cost exactly one. *)
Theorem ollama_health_check_calls :
  forall (p : OllamaCloudProvider.t) (w : World) (h : Trace),
    let status := value (OllamaCloudProvider.health_check p) w h in
    (if OllamaCloudProvider.is_configured p
     then status = Healthy \/ status = Unavailable
     else True)
    /\ http_attempts (events (OllamaCloudProvider.health_check p) w h)
       = match status with NotConfigured => 0%nat | _ => 1%nat end
    /\ status <> Degraded.
Proof.
  intros p w h status. unfold status, value, events,
    OllamaCloudProvider.health_check, OllamaCloudProvider.is_configured.
  destruct (empty (OllamaCloudConfig.base_url (OllamaCloudProvider.config_ p)));
    cbn [negb andb fst snd ret]; [repeat split; discriminate|].
  unfold bind. rewrite make_request_run.
  destruct (http_success _); cbn [negb fst snd ret app];
    destruct (negb (empty (OllamaCloudConfig.model
                             (OllamaCloudProvider.config_ p))));
    repeat split; auto; discriminate.
Qed.

(** The capability bits agree with [requires_network] for each of the
    three provider classes: RemoteInference is set exactly for those that
    require network, LocalInference exactly for those that do not. *)
Theorem capabilities_agree_with_requires_network :
  forall p : IProvider,
    builtin p ->
    has_capability (capabilities p) Capability.RemoteInference
    = requires_network p
    /\ has_capability (capabilities p) Capability.LocalInference
       = negb (requires_network p).
Proof. intros p [q|q|J q]; split; reflexivity. Qed.

Lemma capabilities_agree_with_requires_network_witness :
  has_capability (capabilities (OpenAIProvider.as_IProvider test_openai))
    Capability.RemoteInference = true
  /\ has_capability (capabilities (OpenAIProvider.as_IProvider test_openai))
       Capability.LocalInference = false.
Proof.
  apply (capabilities_agree_with_requires_network
           (OpenAIProvider.as_IProvider test_openai)).
  constructor.
Defined.

(** ** Model listings *)

(** No [list_models] makes a call.  The local provider lists its model
    exactly when it is configured, and marks it local; the self-hosted
    provider lists its configured model exactly when it is configured; the
    commercial provider lists the same four remote models whatever its
    key, the default model of its constructor among them. *)
Theorem list_models_makes_no_call :
  forall (local : LocalProvider.t) (openai : OpenAIProvider.t)
         (ollama : OllamaCloudProvider.t) (w : World) (h : Trace),
    LocalProvider.list_models local w h
    = (if value (LocalProvider.is_configured local) w h
       then [mkModelInfo (LocalProvider.model_path_ local)
               (path_filename (LocalProvider.model_path_ local))
               "Local GGUF model" true false 0 0]
       else [], [])
    /\ OllamaCloudProvider.list_models ollama w h
       = (if OllamaCloudProvider.is_configured ollama
          then [mkModelInfo
                  (OllamaCloudConfig.model
                     (OllamaCloudProvider.config_ ollama))
                  (OllamaCloudConfig.model
                     (OllamaCloudProvider.config_ ollama))
                  "Configured Ollama model" false false 0 0]
          else [], [])
    /\ events (OpenAIProvider.list_models openai) w h = []
    /\ map mi_id (value (OpenAIProvider.list_models openai) w h)
       = ["gpt-4o-mini"; "gpt-4o"; "gpt-4-turbo"; "gpt-3.5-turbo"]%string
    /\ Forall (fun info => is_local info = false)
         (value (OpenAIProvider.list_models openai) w h)
    /\ In (OpenAIProvider.model_
             (OpenAIProvider.new (OpenAIProvider.api_key_ openai)
                EmptyString None))
          (map mi_id (value (OpenAIProvider.list_models openai) w h)).
Proof.
  intros local openai ollama w h. split; [|split].
  - unfold LocalProvider.list_models, LocalProvider.is_configured.
    unfold_m. simpl.
    destruct (negb (empty (LocalProvider.model_path_ local))
              && bool_decide (is_Some (fs_status w _))); reflexivity.
  - unfold OllamaCloudProvider.list_models,
      OllamaCloudProvider.is_configured.
    destruct (empty (OllamaCloudConfig.base_url _)),
      (empty (OllamaCloudConfig.model _)); reflexivity.
  - repeat split; [repeat constructor|now left].
Qed.

(** ** The first generation: local provider *)

Lemma first_generation_local_health (path : string) (w : World) (h : Trace) :
  Foundation.LocalProvider.check_health (Foundation.LocalProvider.mk path) w h
  = (match fs_status w path with
     | None => Foundation.Unavailable
     | Some st =>
         if Z.land (st_perms st) owner_read =? perms_none
         then Foundation.Unavailable else Foundation.Healthy
     end, []).
Proof.
  unfold Foundation.LocalProvider.check_health. unfold_m. simpl.
  destruct (fs_status w path) as [st|] eqn:Hst.
  - rewrite bool_decide_eq_true_2 by eauto. simpl. rewrite Hst.
    destruct (Z.land (st_perms st) owner_read =? perms_none); reflexivity.
  - rewrite bool_decide_eq_false_2 by (intros [x Hx]; discriminate).
    reflexivity.
Qed.

(** The first-generation local provider, by what the file system says of
    its path.  Nothing there: Unavailable, an empty listing, and
    [create_client] throws before any client is made.  Something there: the
    listing has one entry, flagged available even when the health check
    answers Unavailable because the owner cannot read the file; the size
    is the file's for a regular file and 0 otherwise; and [create_client]
    makes the client. *)
Theorem first_generation_local_provider :
  forall (path : string) (w : World) (h : Trace),
    let p := Foundation.LocalProvider.mk path in
    match fs_status w path with
    | None =>
        Foundation.LocalProvider.check_health p w h
        = (Foundation.Unavailable, [])
        /\ Foundation.LocalProvider.list_models p w h = ([], [])
        /\ Foundation.LocalProvider.create_client p w h
           = (Throw ("Local model file not found: " +:+ path), [])
    | Some st =>
        Foundation.LocalProvider.check_health p w h
        = (if Z.land (st_perms st) owner_read =? perms_none
           then Foundation.Unavailable else Foundation.Healthy, [])
        /\ Foundation.LocalProvider.list_models p w h
           = ([Foundation.mkModelInfo path (path_filename path)
                 "Local GGUF model"
                 (match st_kind st with regular => st_size st | _ => 0 end)
                 true], [])
        /\ events (Foundation.LocalProvider.create_client p) w h
           = [EvCreateClient [path]]
    end.
Proof.
  intros path w h p.
  unfold Foundation.LocalProvider.check_health,
    Foundation.LocalProvider.list_models,
    Foundation.LocalProvider.create_client.
  unfold_m. simpl.
  destruct (fs_status w path) as [st|] eqn:Hst.
  - rewrite bool_decide_eq_true_2 by eauto. simpl. rewrite Hst.
    repeat split.
    + destruct (Z.land (st_perms st) owner_read =? perms_none); reflexivity.
    + destruct (st_kind st); reflexivity.
  - rewrite bool_decide_eq_false_2 by (intros [x Hx]; discriminate).
    repeat split.
Qed.

(** ** The first generation: remote providers and the factory *)

(** A first-generation provider that requires an API key never reports
    Healthy, lists no model, and neither of these makes a call; and when it
    reports Unavailable, [create_client] throws before any client is
    made. *)
Theorem first_generation_remote_providers :
  forall (p : Foundation.IProvider) (w : World) (h : Trace),
    Foundation.requires_api_key p = true ->
    Foundation.list_models p w h = ([], [])
    /\ events (Foundation.check_health p) w h = []
    /\ value (Foundation.check_health p) w h <> Foundation.Healthy
    /\ (value (Foundation.check_health p) w h = Foundation.Unavailable ->
        exists what, Foundation.create_client p w h = (Throw what, [])).
Proof.
  intros [q|q|q] w h Hkey; try discriminate; simpl.
  - unfold Foundation.OpenAIProvider.check_health,
      Foundation.OpenAIProvider.create_client, value, events.
    destruct (empty (Foundation.OpenAIProvider.api_key q));
      repeat split; try discriminate; eauto.
  - unfold Foundation.OllamaCloudProvider.check_health,
      Foundation.OllamaCloudProvider.create_client, value, events.
    destruct (empty (Foundation.OllamaCloudProvider.api_key q)
              || empty (Foundation.OllamaCloudProvider.base_url q));
      repeat split; try discriminate; eauto.
Qed.

Lemma first_generation_remote_providers_witness :
  value (Foundation.check_health
           (Foundation.of_OpenAI
              (Foundation.OpenAIProvider.mk EmptyString "gpt-4o-mini")))
    test_world [] <> Foundation.Healthy
  /\ exists what,
       Foundation.create_client
         (Foundation.of_OpenAI
            (Foundation.OpenAIProvider.mk EmptyString "gpt-4o-mini"))
         test_world [] = (Throw what, []).
Proof.
  destruct (first_generation_remote_providers
              (Foundation.of_OpenAI
                 (Foundation.OpenAIProvider.mk EmptyString "gpt-4o-mini"))
              test_world [] eq_refl) as (_ & _ & Hhealth & Hclient).
  split; [exact Hhealth|]. apply Hclient. reflexivity.
Defined.

(** What [create_provider_from_settings] can return.  It never builds an
    Ollama Cloud provider, and the choices Unset and OllamaCloud build
    nothing.  An OpenAI provider comes only from the choice Remote, and
    always does, blank API key or not.  A local provider comes only from
    the choices Custom, Local_3b and Local_7b. *)
Theorem factory_choices :
  forall (getenv : string -> option string)
         (make_default_path : string -> string)
         (settings : Foundation.Settings.t),
    let choice := Foundation.Settings.get_llm_choice settings in
    match Foundation.ProviderFactory.create_provider_from_settings getenv
            make_default_path settings with
    | Some (Foundation.of_OllamaCloud _) => False
    | Some (Foundation.of_OpenAI q) =>
        choice = Foundation.LLMChoice.Remote
        /\ q = Foundation.OpenAIProvider.mk
                 (Foundation.Settings.get_remote_api_key settings)
                 (Foundation.Settings.get_remote_model settings)
    | Some (Foundation.of_Local q) =>
        choice = Foundation.LLMChoice.Custom
        \/ choice = Foundation.LLMChoice.Local_3b
        \/ choice = Foundation.LLMChoice.Local_7b
    | None => choice <> Foundation.LLMChoice.Remote
    end.
Proof.
  intros getenv make_default_path settings choice.
  unfold Foundation.ProviderFactory.create_provider_from_settings.
  fold choice. destruct choice; simpl; auto; try discriminate.
  - destruct (getenv _); simpl; auto; discriminate.
  - destruct (getenv _); simpl; auto; discriminate.
  - destruct (empty _ || empty _); simpl; auto; discriminate.
Qed.

(** A provider built from settings reports Healthy only if it is a local
    provider whose model file exists and is readable by its owner; with the
    choice Custom its path is the non-blank path of the selected custom
    model. *)
Theorem factory_provider_healthy_only_if_local_file :
  forall (getenv : string -> option string)
         (make_default_path : string -> string)
         (settings : Foundation.Settings.t) (p : Foundation.IProvider)
         (w : World) (h : Trace),
    Foundation.ProviderFactory.create_provider_from_settings getenv
      make_default_path settings = Some p ->
    value (Foundation.check_health p) w h = Foundation.Healthy ->
    exists path st,
      p = Foundation.of_Local (Foundation.LocalProvider.mk path)
      /\ fs_status w path = Some st
      /\ Z.land (st_perms st) owner_read <> perms_none
      /\ (Foundation.Settings.get_llm_choice settings
          = Foundation.LLMChoice.Custom ->
          path <> EmptyString
          /\ path = Foundation.CustomLLM.path
                      (Foundation.Settings.find_custom_llm settings
                         (Foundation.Settings.get_active_custom_llm_id
                            settings))).
Proof.
  intros getenv make_default_path settings p w h Hmade Hhealthy.
  assert (Hlocal : forall path,
            value (Foundation.check_health
                     (Foundation.of_Local (Foundation.LocalProvider.mk path)))
              w h = Foundation.Healthy ->
            exists st, fs_status w path = Some st
                       /\ Z.land (st_perms st) owner_read <> perms_none).
  { intros path Hh.
    unfold value in Hh. cbn [Foundation.check_health] in Hh.
    rewrite first_generation_local_health in Hh. cbn [fst] in Hh.
    destruct (fs_status w path) as [st|]; [|discriminate].
    exists st. split; [reflexivity|].
    destruct (Z.eqb_spec (Z.land (st_perms st) owner_read) perms_none);
      [discriminate|assumption]. }
  unfold Foundation.ProviderFactory.create_provider_from_settings in Hmade.
  destruct (Foundation.Settings.get_llm_choice settings) eqn:Hchoice;
    simpl in Hmade; try discriminate.
  - injection Hmade as <-. unfold value in Hhealthy. simpl in Hhealthy.
    unfold Foundation.OpenAIProvider.check_health in Hhealthy.
    destruct (empty _); discriminate.
  - destruct (getenv _) as [url|]; [|discriminate].
    injection Hmade as <-. destruct (Hlocal _ Hhealthy) as (st & Hst & Hr).
    exists (make_default_path url), st. repeat split; auto. discriminate.
  - destruct (getenv _) as [url|]; [|discriminate].
    injection Hmade as <-. destruct (Hlocal _ Hhealthy) as (st & Hst & Hr).
    exists (make_default_path url), st. repeat split; auto. discriminate.
  - destruct (empty (Foundation.CustomLLM.id _)) eqn:Hid; [discriminate|].
    destruct (empty (Foundation.CustomLLM.path _)) eqn:Hpath;
      [discriminate|].
    simpl in Hmade. injection Hmade as <-.
    destruct (Hlocal _ Hhealthy) as (st & Hst & Hr).
    eexists. exists st. split; [reflexivity|]. repeat split; auto.
    intros Hblank. apply empty_true in Hblank. congruence.
Qed.

Lemma factory_provider_healthy_only_if_local_file_witness :
  exists path st,
    Foundation.of_Local (Foundation.LocalProvider.mk test_model_path)
    = Foundation.of_Local (Foundation.LocalProvider.mk path)
    /\ fs_status test_world path = Some st
    /\ Z.land (st_perms st) owner_read <> perms_none.
Proof.
  destruct (factory_provider_healthy_only_if_local_file (fun _ => None)
              (fun url => url) custom_settings
              (Foundation.of_Local
                 (Foundation.LocalProvider.mk test_model_path))
              test_world [] eq_refl eq_refl)
    as (path & st & Hp & Hst & Hread & _).
  exists path, st. auto.
Defined.

(** ** OllamaCloudProvider: how long a call can take *)

(** Whatever the transport answers, the loop makes at most
    [max_retries + 1] attempts, and at least one when [max_retries] is not
    negative. *)
Lemma retry_loop_bounded p request payload w :
  max_retries request < INT_MAX ->
  forall fuel retry_count r0 h,
    0 <= retry_count ->
    (Z.to_nat (max_retries request + 1 - retry_count) < fuel)%nat ->
    exists r (n : nat),
      OllamaCloudProvider.retry_loop fuel p request payload retry_count r0 w h
      = (Some r, loop_events p request payload retry_count n)
      /\ (retry_count <= max_retries request -> (1 <= n)%nat)
      /\ (retry_count <= max_retries request + 1 ->
          retry_count + Z.of_nat n <= max_retries request + 1).
Proof.
  intros Hmax fuel.
  induction fuel as [|fuel IH]; intros retry_count r0 h Hpos Hfuel; [lia|].
  rewrite retry_loop_unfold.
  destruct (Z.leb_spec retry_count (max_retries request)).
  - cbn zeta. destruct (OllamaCloudProvider.stops_retrying _).
    + eexists. exists 1%nat. cbn [loop_events]. rewrite app_nil_r.
      repeat split; lia.
    + rewrite int_succ_small by lia.
      destruct (IH (retry_count + 1)
                  (attempt_response p request payload w retry_count h)
                  (h ++ attempt_events p request payload retry_count))
        as (r & n & Hloop & _ & Hupper); [lia|lia|].
      rewrite Hloop. exists r, (S n). repeat split; lia.
  - exists r0, 0%nat. repeat split; lia.
Qed.

Lemma total_backoff p (m : nat) :
  let base :=
    OllamaCloudConfig.retry_backoff_base_ms (OllamaCloudProvider.config_ p) in
  0 <= base ->
  (m <= 31)%nat ->
  base * 2 ^ (Z.of_nat m - 1) <= INT_MAX ->
  total_ms (map (fun k => OllamaCloudProvider.backoff_ms p (Z.of_nat k))
              (seq 1 m))
  = base * (2 ^ Z.of_nat m - 1).
Proof.
  intros base Hbase. induction m as [|m IH]; intros Hm Hfits.
  - cbn. lia.
  - rewrite seq_S, map_app. unfold total_ms in *.
    rewrite fold_right_app. cbn [map fold_right].
    assert (Hstep : forall (l : list Z) (x : Z),
              fold_right Z.add (x + 0) l = fold_right Z.add 0 l + x).
    { induction l as [|y l IHl]; intros x; cbn; [lia|].
      rewrite IHl. lia. }
    rewrite Hstep.
    replace (Z.of_nat (S m) - 1) with (Z.of_nat m) in Hfits by lia.
    assert (Hpow : 2 ^ (Z.of_nat m - 1) <= 2 ^ Z.of_nat m)
      by (destruct m; [cbn; lia|apply Z.pow_le_mono_r; lia]).
    rewrite IH by (lia || nia).
    rewrite (backoff_ms_exact p (Z.of_nat (1 + m))); fold base;
      try lia.
    + replace (Z.of_nat (1 + m) - 1) with (Z.of_nat m) by lia.
      replace (Z.of_nat (S m)) with (Z.of_nat m + 1) by lia.
      rewrite Z.pow_add_r by lia. lia.
    + replace (Z.of_nat (1 + m) - 1) with (Z.of_nat m) by lia. exact Hfits.
Qed.

(** For a request that passes the privacy checks of the configured
    provider, with [0 <= max_retries < INT_MAX], whatever the transport
    answers: the retry loop of [chat] ends with an HTTP response after [n]
    transport calls, [1 <= n <= max_retries + 1], with [n - 1] sleeps in
    between, and these are all the events of [chat].  When moreover the
    configured backoff base is not negative, [max_retries <= 31] so that
    every shift stays below the width of [int], and the longest possible
    sleep fits an [int], the time slept is [base * (2^(n-1) - 1)] ms, at
    most [base * (2^max_retries - 1)] ms. *)
Theorem chat_attempts_and_total_backoff :
  forall (J : JsonCpp) (p : OllamaCloudProvider.t) (request : LlmRequest)
         (w : World) (h : Trace) (fuel : nat),
    let base :=
      OllamaCloudConfig.retry_backoff_base_ms (OllamaCloudProvider.config_ p)
    in
    let added := events (OllamaCloudProvider.chat fuel p request) w h in
    passes_privacy_checks request ->
    OllamaCloudProvider.is_configured p = true ->
    0 <= max_retries request < INT_MAX ->
    (Z.to_nat (max_retries request + 1) < fuel)%nat ->
    exists (last_answer : HttpResponse) (n : nat),
      OllamaCloudProvider.retry_loop fuel p request
        (chat_payload p request w) 0 default_HttpResponse w h
      = (Some last_answer, added)
      /\ added = loop_events p request (chat_payload p request w) 0 n
      /\ http_attempts added = n
      /\ 1 <= Z.of_nat n <= max_retries request + 1
      /\ length (sleeps added) = (n - 1)%nat
      /\ (0 <= base ->
          max_retries request <= 31 ->
          base * 2 ^ (max_retries request - 1) <= INT_MAX ->
          total_ms (sleeps added) = base * (2 ^ (Z.of_nat n - 1) - 1)
          /\ total_ms (sleeps added)
             <= base * (2 ^ max_retries request - 1)).
Proof.
  intros J p request w h fuel base added Hpasses Hconf Hrange Hfuel.
  destruct (retry_loop_bounded p request (chat_payload p request w) w
              ltac:(lia) fuel 0 default_HttpResponse h)
    as (r & n & Hloop & Hlower & Hupper);
    [lia|rewrite Z.sub_0_r; exact Hfuel|].
  specialize (Hlower ltac:(lia)). specialize (Hupper ltac:(lia)).
  assert (Hadded : added
                   = loop_events p request (chat_payload p request w) 0 n).
  { unfold added, events.
    rewrite (ollama_chat_run p request w h Hpasses Hconf), Hloop.
    reflexivity. }
  exists r, n. rewrite Hadded.
  split; [exact Hloop|]. split; [reflexivity|].
  split; [apply http_attempts_loop|]. split; [lia|].
  rewrite sleeps_loop_from_zero.
  split; [now rewrite length_map, length_seq|].
  intros Hbase Hshifts Hfits.
  assert (Hle : 2 ^ (Z.of_nat (n - 1) - 1) <= 2 ^ (max_retries request - 1)).
  { destruct (Z.eq_dec (Z.of_nat (n - 1)) 0) as [->|Hne]; [|].
    - cbn. apply Z.pow_nonneg. lia.
    - apply Z.pow_le_mono_r; lia. }
  assert (Hsum := total_backoff p (n - 1) Hbase). fold base in Hsum.
  rewrite Hsum by (lia || nia).
  replace (Z.of_nat (n - 1)) with (Z.of_nat n - 1) by lia.
  split; [reflexivity|].
  assert (2 ^ (Z.of_nat n - 1) <= 2 ^ max_retries request)
    by (apply Z.pow_le_mono_r; lia).
  nia.
Qed.

Lemma chat_attempts_and_total_backoff_witness :
  let added :=
    events (@OllamaCloudProvider.chat no_json 5 (test_ollama 503)
              mixed_request) test_world [] in
  exists n : nat,
    http_attempts added = n
    /\ 1 <= Z.of_nat n <= 3 + 1
    /\ length (sleeps added) = (n - 1)%nat
    /\ total_ms (sleeps added) <= 1000 * (2 ^ 3 - 1).
Proof.
  intros added.
  destruct (chat_attempts_and_total_backoff no_json (test_ollama 503)
              mixed_request test_world [] 5 mixed_request_passes eq_refl)
    as (last_answer & n & _ & _ & Hattempts & Hn & Hsleeps & Htotal).
  - cbn. unfold INT_MAX. lia.
  - cbn. lia.
  - exists n. split; [exact Hattempts|]. split; [exact Hn|].
    split; [exact Hsleeps|].
    apply Htotal; cbn; unfold INT_MAX; lia.
Defined.
